(** * Vector payment channels: update locking, engine retries and restore,
      router forwarding and check-in

    A shallow embedding of the leader side of the protocol
    ([Vector.executeUpdate]), of the engine ([VectorEngine.deposit],
    [VectorEngine.restoreState]) and of the router ([forwardTransferCreation],
    [forwardTransferResolution], [handleIsAlive], [getRebalanceProfile]).
    Further modules embed the other RPC methods of the engine and its
    restore locks, [Vector.setup] and the handler of inbound protocol
    messages, and the cross-chain transfers of the browser node
    ([BrowserNode.crossChainTransfer], where amounts stay decimal strings).

    Every asynchronous function of the TypeScript code is a program [Prog]
    whose nodes are the calls it awaits on its collaborators (store, lock
    service, messaging, chain service, node service).  A program is run
    against an arbitrary handler of those calls; the run yields the value
    returned, the trace of calls with their replies, and the final state of
    the collaborators.  Statements quantify over all handlers, hence over
    every behaviour of the collaborators.

    Conventions.  An awaited call settles with a reply; where the code
    catches what a call throws, the reply says so.  An exception raised by
    the function itself (reading a field of [undefined]) is the outcome
    [Throws].  Objects are records with the fields of their TypeScript type,
    an optional field being an [option]; objects used as open maps (error
    contexts, transfer states) are [gmap]s.  Integer strings and JavaScript
    numbers are integers.  Constants and helpers imported from packages that
    are not part of the sources ([TRANSFER_DECREMENT], the tables of error
    reasons, the schema validators, [getSwappedAmount], the merkle root) are
    parameters.  Logging is left out. *)

From stdpp Require Import base gmap strings list pretty.
From Stdlib Require Import ZArith Lia.

#[local] Open Scope string_scope.
#[local] Open Scope Z_scope.
#[local] Open Scope list_scope.

(** ** Tagged results: [Result.ok] and [Result.fail] of vector-types *)

Module Result.

Inductive t (V Err : Type) : Type :=
| ok (v : V)
| fail (e : Err).

Arguments ok {V Err} v.
Arguments fail {V Err} e.

Definition isError {V Err} (r : t V Err) : bool :=
  match r with ok _ => false | fail _ => true end.

Definition getValue {V Err} (r : t V Err) : option V :=
  match r with ok v => Some v | fail _ => None end.

Definition getError {V Err} (r : t V Err) : option Err :=
  match r with ok _ => None | fail e => Some e end.

End Result.

(** ** Programs over awaited calls *)

Section Programs.

Context {E : Type -> Type}.

Inductive Prog (R : Type) : Type :=
| Ret (r : R)
| Vis {X : Type} (e : E X) (k : X -> Prog R).

(** One awaited call together with the reply it received. *)
Record Event : Type := Ev { ev_type : Type; ev_call : E ev_type; ev_reply : ev_type }.

End Programs.

Arguments Prog : clear implicits.
Arguments Event : clear implicits.
Arguments Ret {E R} r.
Arguments Vis {E R X} e k.
Arguments Ev {E ev_type} ev_call ev_reply.

Fixpoint bind {E A B} (p : Prog E A) (f : A -> Prog E B) : Prog E B :=
  match p with
  | Ret a => f a
  | Vis e k => Vis e (fun x => bind (k x) f)
  end.

#[export] Instance Prog_ret {E} : MRet (Prog E) := fun _ r => Ret r.
#[export] Instance Prog_bind {E} : MBind (Prog E) := fun _ _ f p => bind p f.

(** [await e] is [await <call>] of the source. *)
Definition await {E X} (e : E X) : Prog E X := Vis e Ret.

(** A handler answers each call from the state [W] of the collaborators. *)
Definition Handler (E : Type -> Type) (W : Type) : Type := forall X, E X -> W -> X * W.

Fixpoint run {E W R} (h : Handler E W) (p : Prog E R) (w : W) : R * list (Event E) * W :=
  match p with
  | Ret r => (r, [], w)
  | Vis e k =>
      let '(x, w1) := h _ e w in
      let '(r, tr, w2) := run h (k x) w1 in
      (r, Ev e x :: tr, w2)
  end.

Definition returned {E W R} (h : Handler E W) (p : Prog E R) (w : W) : R := (run h p w).1.1.
Definition trace {E W R} (h : Handler E W) (p : Prog E R) (w : W) : list (Event E) := (run h p w).1.2.

(** ** Data shared by the protocol, the engine and the router *)

(** A JavaScript promise settles with a value or rejects with an exception. *)
Inductive Outcome (A : Type) : Type :=
| Returns (a : A)
| Throws (exception : string).

Arguments Returns {A} a.
Arguments Throws {A} exception.

(** JSON values kept opaque by the code: transfer states, resolvers. *)
#[warnings="-register-all"]
Inductive Json : Type :=
| JNull
| JBool (b : bool)
| JNum (n : Z)
| JStr (s : string)
| JArr (items : list Json)
| JObj (fields : list (string * Json)).

Inductive UpdateType : Type := setup | deposit | create | resolve.

#[export] Instance UpdateType_eq_dec : EqDecision UpdateType.
Proof. solve_decision. Defined.

Record NetworkContext : Type := {
  channelFactoryAddress : string;
  transferRegistryAddress : string;
  nc_chainId : Z;
  providerUrl : string
}.

(** The fields of [latestUpdate] read by the code modelled here. *)
Record ChannelUpdate : Type := {
  u_type : UpdateType;
  u_nonce : Z;
  aliceSignature : option string;
  bobSignature : option string
}.

Record FullChannelState : Type := {
  channelAddress : string;
  alice : string;
  bob : string;
  aliceIdentifier : string;
  bobIdentifier : string;
  nonce : Z;
  merkleRoot : string;
  networkContext : NetworkContext;
  latestUpdate : ChannelUpdate
}.

(** [path[0]] of the routing meta. *)
Record PathEntry : Type := {
  recipient : option string;
  recipientAssetId : option string;
  recipientChainId : option Z
}.

(** [RouterSchemas.RouterMeta & any]: the typed routing fields and the other,
    opaque, fields of the object.  [None] is a field that is absent
    ([undefined]).  [senderIdentifier] is no field of the schema: the object
    may have no such key ([None]), or have the key with any value, which is
    [undefined] ([Some None]) or a JSON value ([Some (Some v)], [JNull] for
    [null]).  An object spread copies the key in either case. *)
Record RouterMeta : Type := {
  routingId : option string;
  path : option (list PathEntry);
  requireOnline : option bool;
  senderIdentifier : option (option Json);
  otherFields : gmap string Json
}.

Record Balance : Type := {
  amount : list Z;
  to : list string
}.

Record FullTransferState : Type := {
  t_balance : Balance;
  t_assetId : string;
  t_channelAddress : string;
  transferId : string;
  transferDefinition : string;
  initiator : string;
  responder : string;
  transferTimeout : Z;
  transferState : gmap string Json;
  transferResolver : option Json;
  t_meta : option RouterMeta
}.

(** Values stored in the [context] object of an error. *)
#[warnings="-register-all"]
Inductive CtxValue : Type :=
| CUndefined
| CStr (s : string)
| CNum (n : Z)
| CBool (b : bool)
| CStrs (l : list string)
| CMeta (m : RouterMeta)
| CJson (j : Json)
| CObj (fields : gmap string CtxValue).

(** An error of vector-types: [message] and [context]. *)
Record VectorError : Type := {
  message : string;
  context : gmap string CtxValue
}.

(** JavaScript truthiness. *)
Definition truthy_string (s : string) : bool := negb (bool_decide (s = "")).

Definition truthy_opt_string (o : option string) : bool :=
  match o with Some s => truthy_string s | None => false end.

Definition truthy_ctx (o : option CtxValue) : bool :=
  match o with
  | None | Some CUndefined => false
  | Some (CStr s) => truthy_string s
  | Some (CNum n) => negb (bool_decide (n = 0))
  | Some (CBool b) => b
  | Some (CStrs _) | Some (CMeta _) | Some (CJson _) | Some (CObj _) => true
  end.

(** [a ?? b] *)
Definition nullish {A} (a : option A) (b : A) : A := default b a.

(** [o === s] for a possibly undefined string [o]. *)
Definition ctx_is_string (o : option CtxValue) (s : string) : bool :=
  match o with
  | Some (CStr s') => bool_decide (s' = s)
  | _ => false
  end.

(** ** Router configuration: [getRebalanceProfile] *)

Module Config.

Record RebalanceProfile : Type := {
  chainId : Z;
  assetId : string;
  reclaimThreshold : string;
  target : string;
  collateralizeThreshold : string
}.

Section GetRebalanceProfile.

(** [config.rebalanceProfiles] and
    [ForwardTransferError.reasons.UnableToGetRebalanceProfile]. *)
Variable rebalanceProfiles : list RebalanceProfile.
Variable UnableToGetRebalanceProfile : string.

Definition matches (chainId0 : Z) (assetId0 : string) (profile : RebalanceProfile) : bool :=
  bool_decide (assetId profile = assetId0) && bool_decide (chainId profile = chainId0).

Definition getRebalanceProfile (chainId0 : Z) (assetId0 : string)
  : Result.t RebalanceProfile VectorError :=
  match List.find (matches chainId0 assetId0) rebalanceProfiles with
  | None =>
      Result.fail {| message := UnableToGetRebalanceProfile;
                     context := <["chainId" := CNum chainId0]>
                                  (<["assetId" := CStr assetId0]> ∅) |}
  | Some rebalanceProfile => Result.ok rebalanceProfile
  end.

End GetRebalanceProfile.

(** The first profile of the list that matches: no earlier one does. *)
Definition first_match (profiles : list RebalanceProfile) (chainId0 : Z) (assetId0 : string)
    (p : RebalanceProfile) : Prop :=
  exists before after,
    profiles = before ++ p :: after /\
    assetId p = assetId0 /\ chainId p = chainId0 /\
    Forall (fun q => ~ (assetId q = assetId0 /\ chainId q = chainId0)) before.

End Config.

(** ** The protocol, leader side: [Vector.executeUpdate] *)

Module Protocol.

(** [UpdateParams<T>]: the variant of [details] fixes the update type. *)
Inductive UpdateDetails : Type :=
| SetupDetails (counterpartyIdentifier : string) (timeout : Z) (networkContext : NetworkContext)
| DepositDetails (assetId : string)
| CreateDetails (createParams : Json)
| ResolveDetails (resolveParams : Json).

Record UpdateParams : Type := {
  p_channelAddress : string;
  details : UpdateDetails
}.

Definition type (params : UpdateParams) : UpdateType :=
  match details params with
  | SetupDetails _ _ _ => setup
  | DepositDetails _ => deposit
  | CreateDetails _ => create
  | ResolveDetails _ => resolve
  end.

Record OutboundChannelUpdateError : Type := {
  o_message : string;
  o_params : UpdateParams;
  o_context : gmap string CtxValue
}.

(** The value of a successful [sync.outbound]. *)
Record OutboundValue : Type := {
  updatedChannel : FullChannelState;
  updatedTransfers : option (list FullTransferState);
  updatedTransfer : option FullTransferState
}.

Record ChannelUpdateEvent : Type := {
  updatedChannelState : FullChannelState;
  e_updatedTransfers : option (list FullTransferState);
  e_updatedTransfer : option FullTransferState
}.

(** What [executeUpdate] and [lockedOperation] await on. *)
Inductive Call : Type -> Type :=
| StoreGetChannelState (channelAddress : string) : Call (option FullChannelState)
| AcquireLock (name : string) (isAlice : bool) (counterpartyIdentifier : string) : Call string
| SyncOutbound (params : UpdateParams) : Call (Result.t OutboundValue OutboundChannelUpdateError)
| PostChannelUpdateEvent (payload : ChannelUpdateEvent) : Call unit
| ReleaseLock (name key : string) (isAlice : bool) (counterpartyIdentifier : string) : Call unit.

Section Vector.

(** [this.publicIdentifier] and [OutboundChannelUpdateError.reasons.ChannelNotFound]. *)
Variable publicIdentifier : string.
Variable ChannelNotFound : string.

Definition lockedOperation (params : UpdateParams)
  : Prog Call (Result.t FullChannelState OutboundChannelUpdateError) :=
  outboundRes ← await (SyncOutbound params);
  match outboundRes with
  | Result.fail e => mret (Result.fail e)
  | Result.ok v =>
      _ ← await (PostChannelUpdateEvent
                   {| updatedChannelState := updatedChannel v;
                      e_updatedTransfers := updatedTransfers v;
                      e_updatedTransfer := updatedTransfer v |});
      mret (Result.ok (updatedChannel v))
  end.

Definition executeUpdate (params : UpdateParams)
  : Prog Call (Result.t FullChannelState OutboundChannelUpdateError) :=
  let continue (aliceIdentifier bobIdentifier : string) :=
    let isAlice := bool_decide (publicIdentifier = aliceIdentifier) in
    let counterpartyIdentifier := if isAlice then bobIdentifier else aliceIdentifier in
    key ← await (AcquireLock (p_channelAddress params) isAlice counterpartyIdentifier);
    outboundRes ← lockedOperation params;
    _ ← await (ReleaseLock (p_channelAddress params) key isAlice counterpartyIdentifier);
    mret outboundRes in
  match details params with
  | SetupDetails counterpartyIdentifier _ _ =>
      continue publicIdentifier counterpartyIdentifier
  | _ =>
      channel ← await (StoreGetChannelState (p_channelAddress params));
      match channel with
      | None =>
          mret (Result.fail {| o_message := ChannelNotFound; o_params := params; o_context := ∅ |})
      | Some channel => continue (aliceIdentifier channel) (bobIdentifier channel)
      end
  end.

End Vector.

Definition is_acquire (e : Event Call) : bool :=
  match ev_call e with AcquireLock _ _ _ => true | _ => false end.

Definition is_release (e : Event Call) : bool :=
  match ev_call e with ReleaseLock _ _ _ _ => true | _ => false end.

Definition is_outbound (e : Event Call) : bool :=
  match ev_call e with SyncOutbound _ => true | _ => false end.

(** An event that neither touches the lock nor is the protocol exchange. *)
Definition quiet (e : Event Call) : Prop :=
  is_acquire e = false /\ is_release e = false /\ is_outbound e = false.

(** A lock service that hands out the key ["key"], a store that holds
    [channel], and a counterparty whose answer to the exchange is [reply]. *)
Definition peers (channel : option FullChannelState)
    (reply : Result.t OutboundValue OutboundChannelUpdateError) : Handler Call unit :=
  fun X c w =>
    match c in Call X return X * unit with
    | StoreGetChannelState _ => (channel, tt)
    | AcquireLock _ _ _ => ("key", tt)
    | SyncOutbound _ => (reply, tt)
    | PostChannelUpdateEvent _ => (tt, tt)
    | ReleaseLock _ _ _ _ => (tt, tt)
    end.

End Protocol.

(** ** The engine: [VectorEngine.deposit] and [VectorEngine.restoreState] *)

Module Engine.

Record DepositParams : Type := {
  d_channelAddress : string;
  d_assetId : string;
  d_meta : option Json
}.

Record RestoreStateParams : Type := {
  chainId : Z;
  counterpartyIdentifier : string
}.

(** [new EngineError(message, channelAddress, context)] *)
Record EngineError : Type := {
  ee_message : string;
  ee_channelAddress : string;
  ee_context : gmap string CtxValue
}.

(** What [restoreState] may fail with: the joined schema errors, the error of
    the first messaging round, or an [EngineError] of its own. *)
Inductive RestoreError : Type :=
| SchemaError (messages : string)
| MessagingError (e : VectorError)
| RestoreFailed (e : EngineError).

(** The value sent back by the counterparty: [{ channel, activeTransfers }],
    either field possibly undefined. *)
Record RestoreData : Type := {
  rd_channel : option FullChannelState;
  rd_activeTransfers : option (list FullTransferState)
}.

(** The two [Result.ok] payloads passed to [sendRestoreStateMessage]:
    [{ chainId }] to request and [{ channelAddress }] to acknowledge. *)
Inductive RestoreMessage : Type :=
| RestoreRequest (chainId : Z)
| RestoreAck (channelAddress : string).

Record RestoreStatePayload : Type := {
  rs_channelAddress : string;
  rs_aliceIdentifier : string;
  rs_bobIdentifier : string;
  rs_chainId : Z
}.

(** What the two methods await on.  A store call that throws [e] replies
    [Result.fail e] (resp. [Some e.message] for the save). *)
Inductive Call : Type -> Type :=
| VectorDeposit (params : DepositParams) : Call (Result.t FullChannelState VectorError)
| SendRestoreStateMessage (msg : Result.t RestoreMessage EngineError) (to_ from : string)
    : Call (Result.t (option RestoreData) VectorError)
| ChainGetChannelAddress (alice bob channelFactoryAddress : string) (chainId : Z)
    : Call (Result.t string VectorError)
| ValidateChannelUpdateSignatures (channel : FullChannelState)
    (aliceSignature bobSignature : option string) (requiredSigners : string)
    : Call (Result.t unit VectorError)
| StoreGetChannelState (channelAddress : string) : Call (Result.t (option FullChannelState) VectorError)
| StoreSaveChannelStateAndTransfers (channel : FullChannelState)
    (activeTransfers : list FullTransferState) : Call (option string)
| PostRestoreStateEvent (payload : RestoreStatePayload) : Call unit.

Section VectorEngine.

(** [this.signer.address], [this.signer.publicIdentifier]. *)
Variable signerAddress : string.
Variable signerPublicIdentifier : string.

(** [OutboundChannelUpdateError.reasons.BadSignatures] and
    [InboundChannelUpdateError.reasons.BadSignatures]. *)
Variable OutboundBadSignatures : string.
Variable InboundBadSignatures : string.

(** The compiled ajv schemas: [None] when valid, else the joined messages. *)
Variable validateDeposit : DepositParams -> option string.
Variable validateRestoreState : RestoreStateParams -> option string.
Variable validateGetChannelState : string -> option string.

(** Pure helpers of vector-utils: [generateMerkleTreeData(_).root] and
    [getSignerAddressFromPublicIdentifier]. *)
Variable generateMerkleTreeRoot : list FullTransferState -> string.
Variable getSignerAddressFromPublicIdentifier : string -> string.

Definition plainError (msg : string) : VectorError := {| message := msg; context := ∅ |}.

Definition recoveryFailed (error : VectorError) : bool :=
  bool_decide (message error = OutboundBadSignatures)
  || ctx_is_string (context error !! "counterpartyError") InboundBadSignatures.

(** A reply of the protocol that the engine answers with another attempt. *)
Definition retried (r : Result.t FullChannelState VectorError) : Prop :=
  exists error, r = Result.fail error /\ recoveryFailed error = true.

(** The specification's words for the failures that are retried: "the
    failure is classified as BadSignatures (either the outbound error message
    or the counterparty error in its context)". *)
Definition classified_BadSignatures (r : Result.t FullChannelState VectorError) : Prop :=
  exists error,
    r = Result.fail error /\
    (message error = OutboundBadSignatures \/
     context error !! "counterpartyError" = Some (CStr InboundBadSignatures)).

(** The body of [for (const _ of Array(3).fill(0))]. *)
Fixpoint depositRetries (iterations : list Z) (params : DepositParams)
    (depositRes : Result.t FullChannelState VectorError)
  : Prog Call (Result.t FullChannelState VectorError) :=
  match iterations with
  | [] => mret depositRes
  | _ :: rest =>
      match depositRes with
      | Result.ok _ => mret depositRes
      | Result.fail error =>
          if negb (recoveryFailed error) then mret depositRes
          else
            depositRes ← await (VectorDeposit params);
            depositRetries rest params depositRes
      end
  end.

Definition deposit (params : DepositParams)
  : Prog Call (Result.t FullChannelState VectorError) :=
  match validateDeposit params with
  | Some errors => mret (Result.fail (plainError errors))
  | None =>
      depositRes ← await (VectorDeposit params);
      depositRetries (replicate 3 0) params depositRes
  end.

(** [this.getChannelState({ channelAddress })]: schema check, then the store
    read inside [try]/[catch]. *)
Definition getChannelState (channelAddress0 : string)
  : Prog Call (Result.t (option FullChannelState) VectorError) :=
  match validateGetChannelState channelAddress0 with
  | Some errors => mret (Result.fail (plainError errors))
  | None =>
      res ← await (StoreGetChannelState channelAddress0);
      match res with
      | Result.ok channel => mret (Result.ok channel)
      | Result.fail e => mret (Result.fail e)
      end
  end.

(** The helper [sendResponseToCounterparty(error?, context = {})] declared
    inside [restoreState]; it closes over [channel], which is undefined when
    the counterparty sent no channel: reading [channel.channelAddress] then
    throws. *)
Definition sendResponseToCounterparty (params : RestoreStateParams)
    (channel : option FullChannelState)
    (error : option string) (context0 : gmap string CtxValue)
  : Prog Call (Outcome (Result.t FullChannelState RestoreError)) :=
  let replyError (error : string) (context0 : gmap string CtxValue) :=
    match channel with
    | None => mret (Throws "TypeError: cannot read channelAddress of undefined")
    | Some channel =>
        let err :=
          {| ee_message := error;
             ee_channelAddress := channelAddress channel;
             ee_context :=
               <["counterpartyIdentifier" := CStr (counterpartyIdentifier params)]>
                 (<["method" := CStr "restoreState"]>
                    (<["chainId" := CNum (chainId params)]>
                       (<["signer" := CStr signerPublicIdentifier]> context0))) |} in
        _ ← await (SendRestoreStateMessage (Result.fail err)
                     (counterpartyIdentifier params) signerPublicIdentifier);
        mret (Returns (Result.fail (RestoreFailed err)))
    end in
  match error with
  | Some error => replyError error context0
  | None =>
      match channel with
      | None => mret (Throws "TypeError: cannot read channelAddress of undefined")
      | Some channel =>
          res ← await (SendRestoreStateMessage (Result.ok (RestoreAck (channelAddress channel)))
                         (counterpartyIdentifier params) signerPublicIdentifier);
          match res with
          | Result.fail e =>
              replyError "Restore failed: unable to ack" (<["error" := CStr (message e)]> ∅)
          | Result.ok _ => mret (Returns (Result.ok channel))
          end
      end
  end.

Definition restoreState (params : RestoreStateParams)
  : Prog Call (Outcome (Result.t FullChannelState RestoreError)) :=
  match validateRestoreState params with
  | Some errors => mret (Returns (Result.fail (SchemaError errors)))
  | None =>
  restoreDataRes ← await (SendRestoreStateMessage (Result.ok (RestoreRequest (chainId params)))
                            (counterpartyIdentifier params) signerPublicIdentifier);
  match restoreDataRes with
  | Result.fail e => mret (Returns (Result.fail (MessagingError e)))
  | Result.ok value =>
  let channel := value ≫= rd_channel in
  let activeTransfers := value ≫= rd_activeTransfers in
  let respond := sendResponseToCounterparty params channel in
  match channel, activeTransfers with
  | Some channel, Some activeTransfers =>
  let counterparty := getSignerAddressFromPublicIdentifier (counterpartyIdentifier params) in
  calculated ← await (ChainGetChannelAddress
                        (if bool_decide (alice channel = signerAddress) then signerAddress else counterparty)
                        (if bool_decide (bob channel = signerAddress) then signerAddress else counterparty)
                        (channelFactoryAddress (networkContext channel))
                        (chainId params));
  match calculated with
  | Result.fail e =>
      respond (Some "Restore failed: could not verify channelAddress")
        (context e ∪ <["error" := CStr (message e)]> ∅)
  | Result.ok calculated =>
  if negb (bool_decide (calculated = channelAddress channel)) then
    respond (Some "Restore failed: invalid channelAddress")
      (<["calculated" := CStr calculated]> ∅)
  else
  sigRes ← await (ValidateChannelUpdateSignatures channel
                    (aliceSignature (latestUpdate channel))
                    (bobSignature (latestUpdate channel)) "both");
  match sigRes with
  | Result.fail e =>
      respond (Some "Restore failed: invalid signatures")
        (<["error" := CStr (message e)]> (<["calculated" := CStr calculated]> ∅))
  | Result.ok _ =>
  let root := generateMerkleTreeRoot activeTransfers in
  if negb (bool_decide (root = merkleRoot channel)) then
    respond (Some "Restore failed: invalid merkleRoot")
      (<["activeTransfers" := CStrs (transferId <$> activeTransfers)]>
         (<["merkleRoot" := CStr (merkleRoot channel)]>
            (<["calculated" := CStr root]> ∅)))
  else
  existing ← getChannelState (channelAddress channel);
  match existing with
  | Result.fail e =>
      respond (Some "Restore failed: store.getChannelState faileds")
        (<["error" := CStr (message e)]> ∅)
  | Result.ok existing =>
  let nonce0 := nullish (nonce <$> existing) 0 in
  let diff := nonce channel - nonce0 in
  if (diff <=? 1) && negb (bool_decide (u_type (latestUpdate channel) = setup)) then
    respond (Some "Restore failed: syncable state")
      (<["toRestore" := CNum (nonce channel)]> (<["existing" := CNum nonce0]> ∅))
  else
  saved ← await (StoreSaveChannelStateAndTransfers channel activeTransfers);
  match saved with
  | Some thrown =>
      respond (Some "Restore failed: could not save state")
        (<["error" := CStr thrown]> ∅)
  | None =>
  returnVal ← respond None ∅;
  _ ← await (PostRestoreStateEvent
               {| rs_channelAddress := channelAddress channel;
                  rs_aliceIdentifier := aliceIdentifier channel;
                  rs_bobIdentifier := bobIdentifier channel;
                  rs_chainId := chainId params |});
  mret returnVal
  end end end end
  | _, _ => respond (Some "Restore failed: no data for restore") ∅
  end end end.

(** *** Reading a trace of [restoreState] *)

(** The state written by a call of [saveChannelStateAndTransfers]. *)
Definition saved_state (e : Event Call) : option (FullChannelState * list FullTransferState) :=
  match ev_call e with
  | StoreSaveChannelStateAndTransfers channel activeTransfers => Some (channel, activeTransfers)
  | _ => None
  end.

(** The payload posted on [RESTORE_STATE_EVENT]. *)
Definition restore_event (e : Event Call) : option RestoreStatePayload :=
  match ev_call e with
  | PostRestoreStateEvent payload => Some payload
  | _ => None
  end.

(** The channel read back from the local store, when the read succeeded. *)
Definition store_read (e : Event Call) : option (string * option FullChannelState) :=
  match e with
  | Ev c r =>
      match c in Call X return X -> option (string * option FullChannelState) with
      | StoreGetChannelState a =>
          fun r => match r with Result.ok existing => Some (a, existing) | Result.fail _ => None end
      | _ => fun _ => None
      end r
  end.

(** Verification (iv) as the specification words it: the restored nonce exceeds the
    local one (0 when the channel is not in the store) by more than one. *)
Definition nonce_beyond_sync (channel : FullChannelState) (existing : option FullChannelState) : Prop :=
  1 < nonce channel - nullish (nonce <$> existing) 0.

(** Verification (iv) as the code has it: a channel whose latest update is
    its [setup] is exempt. *)
Definition nonce_beyond_sync_or_setup (channel : FullChannelState)
    (existing : option FullChannelState) : Prop :=
  nonce_beyond_sync channel existing \/ u_type (latestUpdate channel) = setup.

(** The verifications of the payload [(channel, activeTransfers)] as they
    were answered in the run with trace [tr]; [nonce_ok] is verification
    (iv). *)
Record verified (nonce_ok : FullChannelState -> option FullChannelState -> Prop)
    (tr : list (Event Call)) (params : RestoreStateParams)
    (channel : FullChannelState) (activeTransfers : list FullTransferState) : Prop := {
  verified_address :
    let counterparty := getSignerAddressFromPublicIdentifier (counterpartyIdentifier params) in
    In (Ev (ChainGetChannelAddress
              (if bool_decide (alice channel = signerAddress) then signerAddress else counterparty)
              (if bool_decide (bob channel = signerAddress) then signerAddress else counterparty)
              (channelFactoryAddress (networkContext channel))
              (chainId params))
           (Result.ok (channelAddress channel))) tr;
  verified_signatures :
    In (Ev (ValidateChannelUpdateSignatures channel
              (aliceSignature (latestUpdate channel))
              (bobSignature (latestUpdate channel)) "both")
           (Result.ok tt)) tr;
  verified_merkleRoot :
    generateMerkleTreeRoot activeTransfers = merkleRoot channel;
  verified_nonce :
    exists existing,
      In (Some (channelAddress channel, existing)) (store_read <$> tr) /\ nonce_ok channel existing
}.

(** The first message of a restore: the request sent to the counterparty. *)
Definition restoreRequest (params : RestoreStateParams) : Call (Result.t (option RestoreData) VectorError) :=
  SendRestoreStateMessage (Result.ok (RestoreRequest (chainId params)))
    (counterpartyIdentifier params) signerPublicIdentifier.

End VectorEngine.

End Engine.

(** *** Concrete runs of the engine *)

Module EngineScenarios.
Import Engine.

Definition a_network : NetworkContext :=
  {| channelFactoryAddress := "0xFACTORY"; transferRegistryAddress := "0xREGISTRY";
     nc_chainId := 1337; providerUrl := "http://localhost:8545" |}.

(** A doubly signed channel between [0xALICE] and [0xBOB] at nonce [n] whose
    latest update has type [ty]. *)
Definition a_channel (ty : UpdateType) (n : Z) : FullChannelState :=
  {| channelAddress := "0xCHANNEL"; alice := "0xALICE"; bob := "0xBOB";
     aliceIdentifier := "vectorALICE"; bobIdentifier := "vectorBOB";
     nonce := n; merkleRoot := "0xEMPTYROOT"; networkContext := a_network;
     latestUpdate := {| u_type := ty; u_nonce := n;
                        aliceSignature := Some "0xSIGA"; bobSignature := Some "0xSIGB" |} |}.

(** Collaborators that never fail: the counterparty answers the restore
    request with [payload], the chain service derives [0xCHANNEL], the
    signatures verify, the local store holds [existing], and the protocol
    answers every deposit with [depositReply]. *)
Definition collaborators (payload : RestoreData) (existing : option FullChannelState)
    (depositReply : Result.t FullChannelState VectorError) : Handler Call unit :=
  fun X c w =>
    match c in Call X return X * unit with
    | VectorDeposit _ => (depositReply, tt)
    | SendRestoreStateMessage (Result.ok (RestoreRequest _)) _ _ => (Result.ok (Some payload), tt)
    | SendRestoreStateMessage _ _ _ => (Result.ok None, tt)
    | ChainGetChannelAddress _ _ _ _ => (Result.ok "0xCHANNEL", tt)
    | ValidateChannelUpdateSignatures _ _ _ _ => (Result.ok tt, tt)
    | StoreGetChannelState _ => (Result.ok existing, tt)
    | StoreSaveChannelStateAndTransfers _ _ => (None, tt)
    | PostRestoreStateEvent _ => (tt, tt)
    end.

(** Bob, who lost his store, asks Alice for the channel on chain 1337. *)
Definition bob_restores (root : string) : RestoreStateParams -> Prog Call _ :=
  restoreState "0xBOB" "vectorBOB" (fun _ => None) (fun _ => None)
    (fun _ => root) (fun _ => "0xALICE").

Definition bob_params : RestoreStateParams :=
  {| chainId := 1337; counterpartyIdentifier := "vectorALICE" |}.

Definition payload_of (channel : FullChannelState) : RestoreData :=
  {| rd_channel := Some channel; rd_activeTransfers := Some [] |}.

Definition a_deposit : DepositParams :=
  {| d_channelAddress := "0xCHANNEL"; d_assetId := "0xASSET"; d_meta := None |}.

Definition bad_signatures : VectorError :=
  {| message := "BadSignatures"; context := ∅ |}.

End EngineScenarios.

(** ** The router: forwarding and check-in *)

Module Router.

(** [NodeParams.ConditionalTransfer] as built by the router.  Integer
    strings ([amount], [timeout]) are kept as the integers they spell;
    [amount] is undefined when the balance of the sender transfer is empty. *)
Record TransferParams : Type := {
  tp_channelAddress : string;
  tp_amount : option Z;
  tp_assetId : string;
  tp_timeout : Z;
  tp_type : string;
  tp_publicIdentifier : string;
  tp_details : gmap string Json;
  tp_meta : RouterMeta
}.

(** [NodeParams.ResolveTransfer] *)
Record ResolveParams : Type := {
  rp_channelAddress : string;
  rp_transferId : string;
  rp_meta : gmap string Json;
  rp_transferResolver : option Json;
  rp_publicIdentifier : string
}.

Inductive Payload : Type :=
| CreatePayload (params : TransferParams)
| ResolvePayload (params : ResolveParams).

Inductive RouterUpdateType : Type :=
| TRANSFER_CREATION
| TRANSFER_RESOLUTION
| OTHER_UPDATE (name : string).

Inductive RouterUpdateStatus : Type := PENDING | PROCESSING | COMPLETE | FAILED | UNVERIFIED.

#[export] Instance RouterUpdateStatus_eq_dec : EqDecision RouterUpdateStatus.
Proof. solve_decision. Defined.

Record RouterUpdate : Type := {
  id : string;
  ru_channelAddress : string;
  type : RouterUpdateType;
  payload : Payload;
  status : RouterUpdateStatus;
  lastFailureReason : option CtxValue
}.

(** [NodeResponses.ConditionalTransfer] and [NodeResponses.ResolveTransfer] *)
Record NodeResponse : Type := {
  nr_channelAddress : string;
  nr_transferId : string;
  nr_routingId : option string
}.

Record ConditionalTransferCreatedPayload : Type := {
  c_transfer : FullTransferState;
  conditionType : string
}.

Record ConditionalTransferResolvedPayload : Type := {
  r_channelAddress : string;
  r_transfer : FullTransferState
}.

Record IsAlivePayload : Type := {
  ia_channelAddress : string;
  skipCheckIn : bool
}.

(** [ForwardTransferError.reasons] and [ForwardResolutionError.reasons]: the
    entries used by the functions below. *)
Record ForwardTransferErrorReasons : Type := {
  InvalidForwardingInfo : string;
  SenderChannelNotFound : string;
  UnableToCalculateSwap : string;
  RecipientChannelNotFound : string;
  ReceiverOffline : string;
  CheckInError : string
}.

Record ForwardResolutionErrorReasons : Type := {
  IncomingChannelNotFound : string;
  ErrorResolvingTransfer : string
}.

(** What the router awaits on: the node service, the router store, the
    helpers of [./services/transfer], and (last three) what the transfer
    service itself awaits on. *)
Inductive Call : Type -> Type :=
| GetStateChannel (channelAddress : string) (publicIdentifier : option string)
    : Call (Result.t (option FullChannelState) VectorError)
| GetStateChannelByParticipants (publicIdentifier counterparty : string) (chainId : Z)
    : Call (Result.t (option FullChannelState) VectorError)
| GetTransfersByRoutingId (routingId : option string) (publicIdentifier : string)
    : Call (Result.t (list FullTransferState) VectorError)
| ResolveTransfer (params : Payload) : Call (Result.t NodeResponse VectorError)
| QueueUpdate (channelAddress : string) (type : RouterUpdateType) (payload : Payload) : Call unit
| GetQueuedUpdates (channelAddress : string) (status : RouterUpdateStatus) : Call (list RouterUpdate)
| SetUpdateStatus (id : string) (status : RouterUpdateStatus) (lastFailureReason : option CtxValue)
    : Call unit
| CancelCreatedTransfer (cancellationReason : string) (toCancel : FullTransferState)
    (routerPublicIdentifier : string) (context : gmap string CtxValue)
    : Call (Result.t (option NodeResponse) VectorError)
| AttemptTransferWithCollateralization (params : TransferParams)
    (recipientChannel : FullChannelState) (routerPublicIdentifier : string) (requireOnline : bool)
    : Call (Result.t (option NodeResponse) VectorError)
| TransferWithCollateralization (params : Payload) (channel : FullChannelState)
    (routerPublicIdentifier : string)
    : Call (Result.t NodeResponse VectorError)
| Collateralize (params : TransferParams) (recipientChannel : FullChannelState) : Call unit
| SendIsAliveMessage (channelAddress : string) (routerPublicIdentifier : string)
    : Call (Result.t unit VectorError)
| ConditionalTransfer (params : TransferParams) : Call (Result.t NodeResponse VectorError).

Definition ForwardTransferError (reason : string) (context0 : gmap string CtxValue) : VectorError :=
  {| message := reason; context := context0 |}.

Definition noMeta : RouterMeta :=
  {| routingId := None; path := None; requireOnline := None; senderIdentifier := None;
     otherFields := ∅ |}.

Section Forwarding.

Variable routerPublicIdentifier : string.
Variable routerSignerAddress : string.

(** [TRANSFER_DECREMENT] of vector-types. *)
Variable TRANSFER_DECREMENT : Z.

Variable reasons : ForwardTransferErrorReasons.

(** [getSwappedAmount(fromAmount, fromAssetId, fromChainId, toAssetId, toChainId)]
    of [./services/swap]. *)
Variable getSwappedAmount : option Z -> string -> Z -> string -> Z -> Result.t Z VectorError.

(** [attemptTransferWithCollateralization] of [./services/transfer]. *)
Variable attemptTransferWithCollateralization :
  TransferParams -> FullChannelState -> string -> bool ->
  Prog Call (Result.t (option NodeResponse) VectorError).

(** The helper declared inside [forwardTransferCreation]. *)
Definition cancelSenderTransferAndReturnError (routingId0 : string)
    (senderTransfer : FullTransferState) (errorReason : string)
    (context0 : gmap string CtxValue)
  : Prog Call (Result.t NodeResponse VectorError) :=
  cancelRes ← await (CancelCreatedTransfer errorReason senderTransfer routerPublicIdentifier
                       (<["routingId" := CStr routingId0]> context0));
  match cancelRes with
  | Result.fail e => mret (Result.fail e)
  | Result.ok value =>
      mret (Result.fail (ForwardTransferError errorReason
        (<["senderTransferCancellation" := CStr (match value with
                                                     | Some _ => "executed"
                                                     | None => "enqueued"
                                                     end)]>
           (<["routingId" := CStr routingId0]>
              (<["senderTransfer" := CStr (transferId senderTransfer)]>
                 (<["senderChannel" := CStr (t_channelAddress senderTransfer)]> context0))))))
  end.

(** [{ senderIdentifier: ..., ...meta }]: the fields of [meta] are copied
    over the computed [senderIdentifier]; a [senderIdentifier] key of [meta]
    replaces the computed one whatever it holds, also [undefined] or
    [null]. *)
Definition newMeta (meta : RouterMeta) (initiator0 : string) (senderChannel : FullChannelState)
  : RouterMeta :=
  {| routingId := routingId meta;
     path := path meta;
     requireOnline := requireOnline meta;
     senderIdentifier :=
       match senderIdentifier meta with
       | Some given => Some given
       | None =>
           Some (Some (JStr (if bool_decide (initiator0 = bob senderChannel)
                             then bobIdentifier senderChannel
                             else aliceIdentifier senderChannel)))
       end;
     otherFields := otherFields meta |}.

(** "Create the params you will transfer with" *)
Definition transferParams (senderTransfer : FullTransferState) (conditionType0 : string)
    (meta : RouterMeta) (senderChannel recipientChannel : FullChannelState)
    (recipientAmount : option Z) (recipientAssetId0 : string) : TransferParams :=
  let details := delete "balance" (transferState senderTransfer) in
  {| tp_channelAddress := channelAddress recipientChannel;
     tp_amount := recipientAmount;
     tp_assetId := recipientAssetId0;
     tp_timeout := transferTimeout senderTransfer - TRANSFER_DECREMENT;
     tp_type := conditionType0;
     tp_publicIdentifier := routerPublicIdentifier;
     tp_details := details;
     tp_meta := newMeta meta (initiator senderTransfer) senderChannel |}.

Definition forwardTransferCreation (data : ConditionalTransferCreatedPayload)
  : Prog Call (Result.t NodeResponse VectorError) :=
  let senderTransfer := c_transfer data in
  let senderAmount := head (amount (t_balance senderTransfer)) in
  let senderAssetId := t_assetId senderTransfer in
  let senderChannelAddress := t_channelAddress senderTransfer in
  let meta := default noMeta (t_meta senderTransfer) in
  let path0 := path meta ≫= head in
  let invalid :=
    mret (Result.fail (ForwardTransferError (InvalidForwardingInfo reasons)
      (<["senderChannel" := CStr (t_channelAddress senderTransfer)]>
         (<["senderTransfer" := CStr (transferId senderTransfer)]>
            (<["meta" := CMeta meta]> ∅))))) in
  match routingId meta, path0, path0 ≫= recipient with
  | Some routingId0, Some path1, Some recipientIdentifier =>
  if negb (truthy_string routingId0) || negb (truthy_string recipientIdentifier) then invalid else
  senderChannelRes ← await (GetStateChannel senderChannelAddress (Some routerPublicIdentifier));
  match senderChannelRes with
  | Result.fail e =>
      mret (Result.fail (ForwardTransferError (SenderChannelNotFound reasons)
                           (<["nodeError" := CStr (message e)]> ∅)))
  | Result.ok None =>
      mret (Result.fail (ForwardTransferError (SenderChannelNotFound reasons)
                           (<["channelAddress" := CStr senderChannelAddress]> ∅)))
  | Result.ok (Some senderChannel) =>
  let senderChainId := nc_chainId (networkContext senderChannel) in
  let recipientAssetId0 := nullish (recipientAssetId path1) senderAssetId in
  let requireOnline0 := nullish (requireOnline meta) false in
  let recipientChainId0 := nullish (recipientChainId path1) senderChainId in
  let forward (recipientAmount : option Z) :=
    recipientChannelRes ← await (GetStateChannelByParticipants routerPublicIdentifier
                                   recipientIdentifier recipientChainId0);
    match recipientChannelRes with
    | Result.fail e =>
        cancelSenderTransferAndReturnError routingId0 senderTransfer
          (RecipientChannelNotFound reasons) (<["storeError" := CStr (message e)]> ∅)
    | Result.ok None =>
        cancelSenderTransferAndReturnError routingId0 senderTransfer
          (RecipientChannelNotFound reasons)
          (<["chainId" := CNum recipientChainId0]>
             (<["participants" := CStrs [routerPublicIdentifier; recipientIdentifier]]> ∅))
    | Result.ok (Some recipientChannel) =>
        let params := transferParams senderTransfer (conditionType data) meta
                        senderChannel recipientChannel recipientAmount recipientAssetId0 in
        transferRes ← attemptTransferWithCollateralization params recipientChannel
                        routerPublicIdentifier requireOnline0;
        match transferRes with
        | Result.ok (Some value) => mret (Result.ok value)
        | Result.ok None =>
            mret (Result.fail (ForwardTransferError (ReceiverOffline reasons)
              (<["recipientChannel" := CStr (channelAddress recipientChannel)]>
                 (<["senderTransfer" := CStr (transferId senderTransfer)]>
                    (<["routingId" := CStr routingId0]> ∅)))))
        | Result.fail error =>
            if truthy_ctx (context error !! "shouldCancelSender") then
              cancelSenderTransferAndReturnError routingId0 senderTransfer (message error) ∅
            else mret (Result.fail error)
        end
    end in
  if negb (bool_decide (recipientAssetId0 = senderAssetId))
     || negb (bool_decide (recipientChainId0 = senderChainId)) then
    match getSwappedAmount senderAmount senderAssetId senderChainId
            recipientAssetId0 recipientChainId0 with
    | Result.fail e =>
        cancelSenderTransferAndReturnError routingId0 senderTransfer
          (UnableToCalculateSwap reasons)
          (<["swapContext" := CObj (context e)]> (<["swapError" := CStr (message e)]> ∅))
    | Result.ok swapped => forward (Some swapped)
    end
  else forward senderAmount
  end
  | _, _, _ => invalid
  end.

End Forwarding.

Definition ctx_opt_string (o : option string) : CtxValue :=
  match o with Some s => CStr s | None => CUndefined end.

Definition ctx_opt_json (o : option Json) : CtxValue :=
  match o with Some j => CJson j | None => CUndefined end.

Section Resolution.

Variable routerPublicIdentifier : string.
Variable routerSignerAddress : string.
Variable resolutionReasons : ForwardResolutionErrorReasons.

(** Destructuring [routingId] out of an undefined [meta] throws. *)
Definition forwardTransferResolution (data : ConditionalTransferResolvedPayload)
  : Prog Call (Outcome (Result.t NodeResponse VectorError)) :=
  let channelAddress0 := r_channelAddress data in
  let transferId0 := transferId (r_transfer data) in
  let transferResolver0 := transferResolver (r_transfer data) in
  match t_meta (r_transfer data) with
  | None => mret (Throws "TypeError: cannot destructure routingId of undefined")
  | Some meta =>
  let routingId0 := routingId meta in
  transfersRes ← await (GetTransfersByRoutingId routingId0 routerPublicIdentifier);
  match transfersRes with
  | Result.fail e =>
      mret (Returns (Result.fail (ForwardTransferError (IncomingChannelNotFound resolutionReasons)
        (<["error" := CStr (message e)]> (<["routingId" := ctx_opt_string routingId0]> ∅)))))
  | Result.ok transfers =>
  match List.find (fun transfer => bool_decide (responder transfer = routerSignerAddress)) transfers with
  | None =>
      mret (Returns (Result.fail (ForwardTransferError (IncomingChannelNotFound resolutionReasons)
        (<["routingId" := ctx_opt_string routingId0]> ∅))))
  | Some incomingTransfer =>
  let resolveParams :=
    {| rp_channelAddress := t_channelAddress incomingTransfer;
       rp_transferId := transferId incomingTransfer;
       rp_meta := ∅;
       rp_transferResolver := transferResolver0;
       rp_publicIdentifier := routerPublicIdentifier |} in
  resolution ← await (ResolveTransfer (ResolvePayload resolveParams));
  match resolution with
  | Result.fail e =>
      _ ← await (QueueUpdate (t_channelAddress incomingTransfer) TRANSFER_RESOLUTION
                   (ResolvePayload resolveParams));
      mret (Returns (Result.fail (ForwardTransferError (ErrorResolvingTransfer resolutionReasons)
        (<["recipientChannelAddress" := CStr channelAddress0]>
           (<["recipientTransferId" := CStr transferId0]>
              (<["incomingTransferChannel" := CStr (t_channelAddress incomingTransfer)]>
                 (<["transferResolver" := ctx_opt_json transferResolver0]>
                    (<["routingId" := ctx_opt_string routingId0]>
                       (<["message" := CStr (message e)]> ∅)))))))))
  | Result.ok value => mret (Returns (Result.ok value))
  end end end end.

End Resolution.

Section CheckIn.

Variable routerPublicIdentifier : string.
Variable reasons : ForwardTransferErrorReasons.

(** [NodeError.reasons.Timeout] *)
Variable Timeout : string.

Definition statusAfterFailure (error : option CtxValue) : RouterUpdateStatus :=
  if ctx_is_string error Timeout then PENDING else FAILED.

(** The loop [for (const routerUpdate of updates)]; [erroredUpdates] is the
    array the loop pushes to. *)
Fixpoint processUpdates (channel : FullChannelState) (updates erroredUpdates : list RouterUpdate)
  : Prog Call (list RouterUpdate) :=
  match updates with
  | [] => mret erroredUpdates
  | routerUpdate :: rest =>
      _ ← await (SetUpdateStatus (id routerUpdate) PROCESSING None);
      match type routerUpdate with
      | TRANSFER_CREATION =>
          createRes ← await (TransferWithCollateralization (payload routerUpdate) channel
                               routerPublicIdentifier);
          match createRes with
          | Result.fail e =>
              let error := context e !! "transferError" in
              _ ← await (SetUpdateStatus (id routerUpdate) (statusAfterFailure error) error);
              processUpdates channel rest (erroredUpdates ++ [routerUpdate])
          | Result.ok _ => processUpdates channel rest erroredUpdates
          end
      | TRANSFER_RESOLUTION =>
          resolveRes ← await (ResolveTransfer (payload routerUpdate));
          match resolveRes with
          | Result.fail e =>
              let error := Some (CStr (message e)) in
              _ ← await (SetUpdateStatus (id routerUpdate) (statusAfterFailure error) error);
              processUpdates channel rest (erroredUpdates ++ [routerUpdate])
          | Result.ok _ => processUpdates channel rest erroredUpdates
          end
      | OTHER_UPDATE _ =>
          _ ← await (SetUpdateStatus (id routerUpdate) FAILED (Some (CStr "Unknown update type")));
          processUpdates channel rest erroredUpdates
      end
  end.

Definition handleIsAlive (data : IsAlivePayload) : Prog Call (Result.t unit VectorError) :=
  if skipCheckIn data then mret (Result.ok tt) else
  updates ← await (GetQueuedUpdates (ia_channelAddress data) PENDING);
  channelRes ← await (GetStateChannel (ia_channelAddress data) None);
  match channelRes with
  | Result.ok (Some channel) =>
      erroredUpdates ← processUpdates channel updates [];
      match erroredUpdates with
      | [] => mret (Result.ok tt)
      | _ :: _ =>
          mret (Result.fail (ForwardTransferError (CheckInError reasons)
                               (<["failedIds" := CStrs (id <$> erroredUpdates)]> ∅)))
      end
  | _ =>
      mret (Result.fail (ForwardTransferError (CheckInError reasons)
        (<["getChannelError" := ctx_opt_string (message <$> Result.getError channelRes)]> ∅)))
  end.

End CheckIn.

End Router.

(** ** The transfer service and the router store, from the specification *)

Module Transfer.
Import Router.

(** Modelled from the spec: [attemptTransferWithCollateralization] lives in
    [./services/transfer], which is not among the sources.  Section 4.2,
    step 6: (a) collateralize the recipient channel when the router's balance
    does not cover the amount; (b) probe the liveness of the recipient: when
    it is offline, return an error flagged [shouldCancelSender] if
    [requireOnline], else enqueue a [TRANSFER_CREATION] update and return
    success with an empty value; (c) otherwise submit the [create]. *)
Definition attemptTransferWithCollateralization (reasons : ForwardTransferErrorReasons)
    (params : TransferParams) (recipientChannel : FullChannelState)
    (routerPublicIdentifier : string) (requireOnline0 : bool)
  : Prog Call (Result.t (option NodeResponse) VectorError) :=
  _ ← await (Collateralize params recipientChannel);
  alive ← await (SendIsAliveMessage (channelAddress recipientChannel) routerPublicIdentifier);
  match alive with
  | Result.fail _ =>
      if requireOnline0 then
        mret (Result.fail (ForwardTransferError (ReceiverOffline reasons)
                             (<["shouldCancelSender" := CBool true]> ∅)))
      else
        _ ← await (QueueUpdate (channelAddress recipientChannel) TRANSFER_CREATION
                     (CreatePayload params));
        mret (Result.ok None)
  | Result.ok _ =>
      created ← await (ConditionalTransfer params);
      match created with
      | Result.ok value => mret (Result.ok (Some value))
      | Result.fail e => mret (Result.fail e)
      end
  end.

(** The helper as an opaque collaborator, for statements that do not depend
    on what it does. *)
Definition attemptTransferWithCollateralization_call
    (params : TransferParams) (recipientChannel : FullChannelState)
    (routerPublicIdentifier : string) (requireOnline0 : bool)
  : Prog Call (Result.t (option NodeResponse) VectorError) :=
  await (AttemptTransferWithCollateralization params recipientChannel
           routerPublicIdentifier requireOnline0).

End Transfer.

Module Store.
Import Router.

(** Modelled from the spec: the router store ([IRouterStore]) is not among
    the sources.  Section 3, QueuedRouterUpdate: rows with an id, a channel,
    a type, a payload, a status and a last failure reason; section 4.2: an
    update is enqueued with status PENDING; section 6: [queueUpdate],
    [getQueuedUpdates(channelAddress, status)], [setUpdateStatus].  Rows are
    kept in insertion order and numbered as they come. *)
Definition queueUpdate (channelAddress0 : string) (type0 : RouterUpdateType) (payload0 : Payload)
    (rows : list RouterUpdate) : list RouterUpdate :=
  rows ++ [ {| id := pretty (length rows); ru_channelAddress := channelAddress0;
               type := type0; payload := payload0; status := PENDING;
               lastFailureReason := None |} ].

Definition getQueuedUpdates (channelAddress0 : string) (status0 : RouterUpdateStatus)
    (rows : list RouterUpdate) : list RouterUpdate :=
  filter (fun u => ru_channelAddress u = channelAddress0 /\ status u = status0) rows.



End Store.

(** *** Reading a trace of the router *)

Module RouterTrace.
Import Router.

(** A call of [cancelCreatedTransfer]. *)
Definition is_cancel (e : Event Call) : bool :=
  match ev_call e with CancelCreatedTransfer _ _ _ _ => true | _ => false end.

(** The arguments of a call of [attemptTransferWithCollateralization]. *)
Definition attempted (e : Event Call) : option (TransferParams * FullChannelState * bool) :=
  match ev_call e with
  | AttemptTransferWithCollateralization params recipientChannel _ requireOnline0 =>
      Some (params, recipientChannel, requireOnline0)
  | _ => None
  end.

(** The sender channel read by [getStateChannel], when one was found. *)
Definition sender_channel (e : Event Call) : option FullChannelState :=
  match e with
  | Ev c r =>
      match c in Call X return X -> option FullChannelState with
      | GetStateChannel _ _ =>
          fun r => match r with Result.ok (Some channel) => Some channel | _ => None end
      | _ => fun _ => None
      end r
  end.



Section CheckInTraces.

Variable routerPublicIdentifier : string.
Variable Timeout : string.
Variable channel : FullChannelState.

(** The status written back after a failed attempt whose underlying error
    is [error]: PENDING when it is the timeout, FAILED otherwise. *)
Definition retry_or_give_up (error : option CtxValue) (st : RouterUpdateStatus) : Prop :=
  (error = Some (CStr Timeout) /\ st = PENDING) \/
  (error <> Some (CStr Timeout) /\ st = FAILED).

(** [handled u calls failed]: [calls] is what the check-in does for the
    queued update [u], and [failed] tells whether its attempt failed. *)
Inductive handled (u : RouterUpdate) : list (Event Call) -> bool -> Prop :=
| handled_creation value :
    type u = TRANSFER_CREATION ->
    handled u
      [ Ev (SetUpdateStatus (id u) PROCESSING None) tt;
        Ev (TransferWithCollateralization (payload u) channel routerPublicIdentifier)
           (Result.ok value) ]
      false
| handled_creation_failed e st :
    type u = TRANSFER_CREATION ->
    retry_or_give_up (context e !! "transferError") st ->
    handled u
      [ Ev (SetUpdateStatus (id u) PROCESSING None) tt;
        Ev (TransferWithCollateralization (payload u) channel routerPublicIdentifier)
           (Result.fail e);
        Ev (SetUpdateStatus (id u) st (context e !! "transferError")) tt ]
      true
| handled_resolution value :
    type u = TRANSFER_RESOLUTION ->
    handled u
      [ Ev (SetUpdateStatus (id u) PROCESSING None) tt;
        Ev (ResolveTransfer (payload u)) (Result.ok value) ]
      false
| handled_resolution_failed e st :
    type u = TRANSFER_RESOLUTION ->
    retry_or_give_up (Some (CStr (message e))) st ->
    handled u
      [ Ev (SetUpdateStatus (id u) PROCESSING None) tt;
        Ev (ResolveTransfer (payload u)) (Result.fail e);
        Ev (SetUpdateStatus (id u) st (Some (CStr (message e)))) tt ]
      true
| handled_unknown name :
    type u = OTHER_UPDATE name ->
    handled u
      [ Ev (SetUpdateStatus (id u) PROCESSING None) tt;
        Ev (SetUpdateStatus (id u) FAILED (Some (CStr "Unknown update type"))) tt ]
      false.

(** [drained updates calls errored]: [calls] handles the [updates] one after
    the other, in the order of the list, and [errored] are those whose
    attempt failed, in the same order. *)
Inductive drained : list RouterUpdate -> list (Event Call) -> list RouterUpdate -> Prop :=
| drained_nil : drained [] [] []
| drained_cons u rest calls failed calls' errored :
    handled u calls failed ->
    drained rest calls' errored ->
    drained (u :: rest) (calls ++ calls') ((if failed then [u] else []) ++ errored).

End CheckInTraces.

End RouterTrace.

(** *** Concrete runs of the router *)

Module RouterScenarios.
Import Router.

Definition the_reasons : ForwardTransferErrorReasons :=
  {| InvalidForwardingInfo := "Invalid information to forward transfer within meta";
     SenderChannelNotFound := "Sender channel not found";
     UnableToCalculateSwap := "Could not calculate swap";
     RecipientChannelNotFound := "Recipient channel not found";
     ReceiverOffline := "Recipient was not online, could not forward";
     CheckInError := "Error processing isAlive" |}.

Definition the_resolution_reasons : ForwardResolutionErrorReasons :=
  {| IncomingChannelNotFound := "Incoming channel for transfer not found";
     ErrorResolvingTransfer := "Error resolving transfer" |}.

Definition chain1 : NetworkContext :=
  {| channelFactoryAddress := "0xFACTORY"; transferRegistryAddress := "0xREGISTRY";
     nc_chainId := 1; providerUrl := "http://localhost:8545" |}.

Definition an_update : ChannelUpdate :=
  {| u_type := create; u_nonce := 7; aliceSignature := Some "0xSIGA"; bobSignature := Some "0xSIGB" |}.

(** The channel of the sender, Alice, with the router as Bob. *)
Definition sender_channel_state : FullChannelState :=
  {| channelAddress := "0xSENDERCHANNEL"; alice := "0xALICE"; bob := "0xROUTER";
     aliceIdentifier := "vectorALICE"; bobIdentifier := "vectorROUTER";
     nonce := 7; merkleRoot := "0xROOT"; networkContext := chain1; latestUpdate := an_update |}.

(** The channel of the recipient, Carol, with the router as Alice. *)
Definition recipient_channel_state : FullChannelState :=
  {| channelAddress := "0xRECIPIENTCHANNEL"; alice := "0xROUTER"; bob := "0xCAROL";
     aliceIdentifier := "vectorROUTER"; bobIdentifier := "vectorCAROL";
     nonce := 3; merkleRoot := "0xROOT"; networkContext := chain1; latestUpdate := an_update |}.

Definition to_carol (sender : option string) : RouterMeta :=
  {| routingId := Some "0xROUTING";
     path := Some [ {| recipient := Some "vectorCAROL"; recipientAssetId := None;
                       recipientChainId := None |} ];
     requireOnline := None;
     senderIdentifier := (fun given => Some (JStr given)) <$> sender;
     otherFields := ∅ |}.

(** The same meta with a [senderIdentifier] key that holds [null]. *)
Definition to_carol_null_sender : RouterMeta :=
  {| routingId := Some "0xROUTING";
     path := Some [ {| recipient := Some "vectorCAROL"; recipientAssetId := None;
                       recipientChainId := None |} ];
     requireOnline := None;
     senderIdentifier := Some (Some JNull);
     otherFields := ∅ |}.

(** A hashlock transfer of 100 created by Alice towards the router. *)
Definition a_transfer (meta : option RouterMeta) : FullTransferState :=
  {| t_balance := {| amount := [100; 0]; to := ["0xALICE"; "0xROUTER"] |};
     t_assetId := "0xTOKEN";
     t_channelAddress := "0xSENDERCHANNEL";
     transferId := "0xTRANSFER";
     transferDefinition := "0xHASHLOCK";
     initiator := "0xALICE";
     responder := "0xROUTER";
     transferTimeout := 86400;
     transferState :=
       <["balance" := JObj [("amount", JArr [JNum 100; JNum 0])]]>
         (<["lockHash" := JStr "0xLOCK"]> (<["expiry" := JStr "0"]> ∅));
     transferResolver := None;
     t_meta := meta |}.

Definition created (meta : option RouterMeta) : ConditionalTransferCreatedPayload :=
  {| c_transfer := a_transfer meta; conditionType := "HashlockTransfer" |}.

Definition a_response : NodeResponse :=
  {| nr_channelAddress := "0xRECIPIENTCHANNEL"; nr_transferId := "0xOUTGOING";
     nr_routingId := Some "0xROUTING" |}.

Definition an_error (msg : string) : VectorError := {| message := msg; context := ∅ |}.

(** What the collaborators of the router answer in a scenario. *)
Record Script : Type := {
  senderChannelReply : Result.t (option FullChannelState) VectorError;
  recipientChannelReply : Result.t (option FullChannelState) VectorError;
  attemptReply : Result.t (option NodeResponse) VectorError;
  cancelReply : Result.t (option NodeResponse) VectorError;
  aliveReply : Result.t unit VectorError;
  transfersReply : Result.t (list FullTransferState) VectorError;
  resolveReply : Result.t NodeResponse VectorError;
  createReply : Result.t NodeResponse VectorError;
  queuedReply : list RouterUpdate
}.

Definition scripted (sc : Script) : Handler Call unit :=
  fun X c w =>
    match c in Call X return X * unit with
    | GetStateChannel _ _ => (senderChannelReply sc, tt)
    | GetStateChannelByParticipants _ _ _ => (recipientChannelReply sc, tt)
    | GetTransfersByRoutingId _ _ => (transfersReply sc, tt)
    | ResolveTransfer _ => (resolveReply sc, tt)
    | QueueUpdate _ _ _ => (tt, tt)
    | GetQueuedUpdates _ _ => (queuedReply sc, tt)
    | SetUpdateStatus _ _ _ => (tt, tt)
    | CancelCreatedTransfer _ _ _ _ => (cancelReply sc, tt)
    | AttemptTransferWithCollateralization _ _ _ _ => (attemptReply sc, tt)
    | TransferWithCollateralization _ _ _ => (createReply sc, tt)
    | Collateralize _ _ => (tt, tt)
    | SendIsAliveMessage _ _ => (aliveReply sc, tt)
    | ConditionalTransfer _ => (createReply sc, tt)
    end.

(** Everybody is there and everything works. *)
Definition all_well : Script :=
  {| senderChannelReply := Result.ok (Some sender_channel_state);
     recipientChannelReply := Result.ok (Some recipient_channel_state);
     attemptReply := Result.ok (Some a_response);
     cancelReply := Result.ok (Some a_response);
     aliveReply := Result.ok tt;
     transfersReply := Result.ok [a_transfer (Some (to_carol None))];
     resolveReply := Result.ok a_response;
     createReply := Result.ok a_response;
     queuedReply := [] |}.



Definition no_swap : option Z -> string -> Z -> string -> Z -> Result.t Z VectorError :=
  fun _ _ _ _ _ => Result.fail (an_error "no swap configured").

(** The router of the scenarios forwards with a decrement of 4320. *)
Definition router_forwards :=
  forwardTransferCreation "vectorROUTER" 4320 the_reasons no_swap.

(** The transfer that Carol resolved with the preimage. *)
Definition resolved : ConditionalTransferResolvedPayload :=
  {| r_channelAddress := "0xRECIPIENTCHANNEL";
     r_transfer :=
       {| t_balance := {| amount := [0; 100]; to := ["0xROUTER"; "0xCAROL"] |};
          t_assetId := "0xTOKEN";
          t_channelAddress := "0xRECIPIENTCHANNEL";
          transferId := "0xOUTGOING";
          transferDefinition := "0xHASHLOCK";
          initiator := "0xROUTER";
          responder := "0xCAROL";
          transferTimeout := 82080;
          transferState := <["lockHash" := JStr "0xLOCK"]> (<["expiry" := JStr "0"]> ∅);
          transferResolver := Some (JObj [("preImage", JStr "0xPREIMAGE")]);
          t_meta := Some (to_carol (Some "vectorALICE")) |} |}.

Definition a_resolve : ResolveParams :=
  {| rp_channelAddress := "0xSENDERCHANNEL"; rp_transferId := "0xTRANSFER"; rp_meta := ∅;
     rp_transferResolver := Some (JObj [("preImage", JStr "0xPREIMAGE")]);
     rp_publicIdentifier := "vectorROUTER" |}.

Definition queued (id0 : string) (type0 : RouterUpdateType) : RouterUpdate :=
  {| id := id0; ru_channelAddress := "0xRECIPIENTCHANNEL"; type := type0;
     payload := ResolvePayload a_resolve; status := PENDING; lastFailureReason := None |}.

(** Three updates wait for Carol; creations time out, resolutions are
    refused. *)
Definition busy_queue : Script :=
  {| senderChannelReply := Result.ok (Some recipient_channel_state);
     recipientChannelReply := Result.ok (Some recipient_channel_state);
     attemptReply := Result.ok None;
     cancelReply := Result.ok None;
     aliveReply := Result.ok tt;
     transfersReply := Result.ok [];
     resolveReply := Result.fail (an_error "Transfer not found");
     createReply := Result.fail {| message := "Error creating transfer";
                                   context := <["transferError" := CStr "Timeout"]> ∅ |};
     queuedReply := [queued "1" TRANSFER_CREATION; queued "2" TRANSFER_RESOLUTION;
                     queued "3" (OTHER_UPDATE "Withdrawal")] |}.

(** The same three updates wait, but the store of the router holds no
    channel at the address of the signal. *)
Definition busy_queue_without_channel : Script :=
  {| senderChannelReply := Result.ok None;
     recipientChannelReply := Result.ok (Some recipient_channel_state);
     attemptReply := Result.ok None;
     cancelReply := Result.ok None;
     aliveReply := Result.ok tt;
     transfersReply := Result.ok [];
     resolveReply := Result.fail (an_error "Transfer not found");
     createReply := Result.fail {| message := "Error creating transfer";
                                   context := <["transferError" := CStr "Timeout"]> ∅ |};
     queuedReply := [queued "1" TRANSFER_CREATION; queued "2" TRANSFER_RESOLUTION;
                     queued "3" (OTHER_UPDATE "Withdrawal")] |}.

End RouterScenarios.

(** *** More ways to read a trace of the router *)

Module RouterViews.
Import Router.

(** A call of [attemptTransferWithCollateralization]. *)
Definition is_attempt (e : Event Call) : bool :=
  match ev_call e with AttemptTransferWithCollateralization _ _ _ _ => true | _ => false end.

(** What the transfer service answered to an attempt. *)
Definition attempt_reply (e : Event Call) : option (Result.t (option NodeResponse) VectorError) :=
  match e with
  | Ev c r =>
      match c in Call X return X -> option (Result.t (option NodeResponse) VectorError) with
      | AttemptTransferWithCollateralization _ _ _ _ => fun r => Some r
      | _ => fun _ => None
      end r
  end.

(** [getStateChannel] came back with an error or with no channel. *)
Definition channel_unresolved (e : Event Call) : bool :=
  match e with
  | Ev c r =>
      match c in Call X return X -> bool with
      | GetStateChannel _ _ => fun r => match r with Result.ok (Some _) => false | _ => true end
      | _ => fun _ => false
      end r
  end.

(** The updates loaded by [store.getQueuedUpdates]. *)
Definition loaded (e : Event Call) : option (list RouterUpdate) :=
  match e with
  | Ev c r =>
      match c in Call X return X -> option (list RouterUpdate) with
      | GetQueuedUpdates _ _ => fun r => Some r
      | _ => fun _ => None
      end r
  end.

(** The status written by a call of [store.setUpdateStatus]. *)
Definition status_written (e : Event Call) : option RouterUpdateStatus :=
  match ev_call e with SetUpdateStatus _ st _ => Some st | _ => None end.

(** The id marked PROCESSING by a call of [store.setUpdateStatus]. *)
Definition marked_processing (e : Event Call) : option string :=
  match ev_call e with SetUpdateStatus i PROCESSING _ => Some i | _ => None end.

End RouterViews.

(** ** More forwarding scenarios *)

Module ForwardingScenarios.
Import Router RouterScenarios.

(** The node of the router does not know the channel of the sender. *)
Definition no_sender_channel : Script :=
  {| senderChannelReply := Result.ok None;
     recipientChannelReply := Result.ok (Some recipient_channel_state);
     attemptReply := Result.ok (Some a_response);
     cancelReply := Result.ok (Some a_response);
     aliveReply := Result.ok tt;
     transfersReply := Result.ok [];
     resolveReply := Result.ok a_response;
     createReply := Result.ok a_response;
     queuedReply := [] |}.


(** The transfer service fails, and says whether the sender transfer is to
    be cancelled. *)
Definition refused (shouldCancelSender : bool) : Script :=
  {| senderChannelReply := Result.ok (Some sender_channel_state);
     recipientChannelReply := Result.ok (Some recipient_channel_state);
     attemptReply := Result.fail {| message := "Error creating transfer";
                                    context := <["shouldCancelSender" := CBool shouldCancelSender]> ∅ |};
     cancelReply := Result.ok (Some a_response);
     aliveReply := Result.ok tt;
     transfersReply := Result.ok [];
     resolveReply := Result.ok a_response;
     createReply := Result.ok a_response;
     queuedReply := [] |}.

End ForwardingScenarios.

(** ** The engine: the other RPC methods and the restore locks *)

Module EngineApi.

(** A stored channel or transfer with its dispute flag ([inDispute]). *)
Record StoredChannel : Type := {
  sc_state : FullChannelState;
  sc_inDispute : bool
}.

Record StoredTransfer : Type := {
  st_state : FullTransferState;
  st_inDispute : bool
}.

(** An entry of [ChainAddresses]. *)
Record ChainAddress : Type := {
  ca_channelFactoryAddress : string;
  ca_transferRegistryAddress : string
}.

(** [EngineParams.Setup] *)
Record SetupParams : Type := {
  su_counterpartyIdentifier : string;
  su_chainId : Z;
  su_timeout : string;
  su_meta : option Json
}.

(** The [networkContext] built by [setup]: the provider url is read out of
    a table and may be undefined. *)
Record SetupNetworkContext : Type := {
  snc_channelFactoryAddress : string;
  snc_transferRegistryAddress : string;
  snc_chainId : Z;
  snc_providerUrl : option string
}.

(** The parameters handed to [vector.setup]. *)
Record ProtocolSetup : Type := {
  ps_counterpartyIdentifier : string;
  ps_timeout : string;
  ps_networkContext : SetupNetworkContext;
  ps_meta : option Json
}.

(** Engine parameters: the fields the engine reads, and the rest. *)
Record ChannelParams : Type := {
  cp_channelAddress : string;
  cp_rest : Json
}.

(** [EngineParams.ResolveTransfer] *)
Record ResolveTransferParams : Type := {
  rt_channelAddress : string;
  rt_transferId : string;
  rt_meta : option Json;
  rt_transferResolver : Json
}.

(** [EngineParams.DisputeTransfer] and [EngineParams.DefundTransfer] *)
Record TransferIdParams : Type := {
  tp_transferId : string
}.

(** What an engine method fails with: a plain [Error] (the joined schema
    errors, or a fixed message), an [OutboundChannelUpdateError] built from
    a reason and the parameters of the call, or the error of a
    collaborator. *)
Inductive Failure (P : Type) : Type :=
| PlainError (msg : string)
| OutboundChannelUpdateError (reason : string) (params : P)
| Upstream (e : VectorError).

Arguments PlainError {P} msg.
Arguments OutboundChannelUpdateError {P} reason params.
Arguments Upstream {P} e.

(** The channel returned by [vector.create], with the [transferId] of the
    details of its latest update. *)
Record CreatedChannel : Type := {
  cc_channel : FullChannelState;
  cc_transferId : string
}.

(** [{ channel, transactionHash }] *)
(** The fields of a [WithdrawalReconciledPayload] that [withdraw] names. *)
Record WithdrawalReconciledPayload : Type := {
  wrp_channelAddress : string;
  wrp_transferId : string;
  wrp_transactionHash : option string
}.

Record WithdrawResponse : Type := {
  wr_channel : CreatedChannel;
  wr_transactionHash : option string
}.

(** What the methods call.  A store read that throws [e] replies
    [Result.fail e]; [attachOnce(timeout, fn)] of evt takes [fn] as the
    callback, not as a filter: it replies the first
    [WITHDRAWAL_RECONCILED_EVENT] posted, of whichever channel and transfer,
    or [None] when it times out; a lock service that throws replies [None], resp. [false]; the wait
    for a transaction is not guarded, it returns or throws. *)
Inductive Call : Type -> Type :=
| StoreGetChannelState (channelAddress : string)
    : Call (Result.t (option StoredChannel) VectorError)
| StoreGetTransferState (transferId : string)
    : Call (Result.t (option StoredTransfer) VectorError)
| StoreGetActiveTransfers (channelAddress : string)
    : Call (Result.t (list FullTransferState) VectorError)
| ChainGetChainProviders : Call (Result.t (gmap Z string) VectorError)
| VectorSetup (params : ProtocolSetup) : Call (Result.t FullChannelState VectorError)
| SendDeployChannelTx (channel : FullChannelState) : Call (Result.t string VectorError)
| TxWait (hash : string) : Call (Outcome unit)
| ConvertWithdrawParams (params : ChannelParams) (channel : StoredChannel)
    : Call (Result.t Json VectorError)
| VectorCreate (createParams : Json) : Call (Result.t CreatedChannel VectorError)
| VectorResolve (resolveParams : Json) : Call (Result.t FullChannelState VectorError)
| AttachOnceWithdrawalReconciled (timeout : Z) : Call (option WithdrawalReconciledPayload)
| SendDisputeChannelTx (channel : StoredChannel) : Call (Result.t string VectorError)
| SendDefundChannelTx (channel : StoredChannel) : Call (Result.t string VectorError)
| SendDisputeTransferTx (transferId : string) (activeTransfers : list FullTransferState)
    : Call (Result.t string VectorError)
| SendDefundTransferTx (transfer : StoredTransfer) : Call (Result.t string VectorError)
| SendRequestCollateralMessage (params : ChannelParams) (to_ from : string)
    : Call (Result.t unit VectorError)
| LockAcquire (name : string) (isAlice : bool) (counterpartyIdentifier : string)
    : Call (option string)
| LockRelease (name key : string) (isAlice : bool) (counterpartyIdentifier : string)
    : Call bool.

Section VectorEngine.

(** [this.signer.address] (also [this.signerAddress]) and
    [this.signer.publicIdentifier] (also [this.publicIdentifier]). *)
Variable signerAddress : string.
Variable publicIdentifier : string.

Variable chainAddresses : gmap Z ChainAddress.

(** [AUTODEPLOY_CHAIN_IDS] and the reasons of [OutboundChannelUpdateError]. *)
Variable AUTODEPLOY_CHAIN_IDS : list Z.
Variable ChannelNotFound : string.
Variable TransferNotFound : string.

(** The compiled ajv schemas: [None] when valid, else the joined messages. *)
Variable validateSetup : SetupParams -> option string.
Variable validateGetChannelState : string -> option string.
Variable validateGetTransferState : string -> option string.
Variable validateGetActiveTransfers : string -> option string.
Variable validateChannelParams : ChannelParams -> option string.
Variable validateResolveTransfer : ResolveTransferParams -> option string.

(** [convertResolveConditionParams] of [./paramConverter]. *)
Variable convertResolveConditionParams :
  ResolveTransferParams -> StoredTransfer -> Result.t Json VectorError.

(** *** The restore locks: [this.restoreLocks] is passed along *)

Definition lockError (msg : string) (channel : FullChannelState) : Engine.EngineError :=
  {| Engine.ee_message := msg;
     Engine.ee_channelAddress := channelAddress channel;
     Engine.ee_context := <["publicIdentifier" := CStr publicIdentifier]> ∅ |}.

Definition acquireRestoreLocks (channel : FullChannelState) (restoreLocks : gmap string string)
  : Prog Call (Result.t (option string) Engine.EngineError * gmap string string) :=
  if truthy_opt_string (restoreLocks !! channelAddress channel) then
    mret (Result.ok (restoreLocks !! channelAddress channel), restoreLocks)
  else
    let isAlice := bool_decide (alice channel = signerAddress) in
    lockVal ← await (LockAcquire (channelAddress channel) isAlice
                       (if isAlice then bobIdentifier channel else aliceIdentifier channel));
    match lockVal with
    | Some lockVal =>
        mret (Result.ok None, <[channelAddress channel := lockVal]> restoreLocks)
    | None =>
        mret (Result.fail (lockError "Failed to acquire restore lock" channel), restoreLocks)
    end.

Definition releaseRestoreLocks (channel : FullChannelState) (restoreLocks : gmap string string)
  : Prog Call (Result.t unit Engine.EngineError * gmap string string) :=
  match restoreLocks !! channelAddress channel with
  | Some key =>
      if truthy_string key then
        let isAlice := bool_decide (alice channel = signerAddress) in
        released ← await (LockRelease (channelAddress channel) key isAlice
                            (if isAlice then bobIdentifier channel else aliceIdentifier channel));
        if released : bool then
          mret (Result.ok tt, delete (channelAddress channel) restoreLocks)
        else
          mret (Result.fail (lockError "Failed to release restore lock" channel), restoreLocks)
      else mret (Result.ok tt, restoreLocks)
  | None => mret (Result.ok tt, restoreLocks)
  end.

(** *** Store reads behind a schema check and [try]/[catch] *)

Definition getChannelState {P} (channelAddress0 : string)
  : Prog Call (Result.t (option StoredChannel) (Failure P)) :=
  match validateGetChannelState channelAddress0 with
  | Some errors => mret (Result.fail (PlainError errors))
  | None =>
      res ← await (StoreGetChannelState channelAddress0);
      match res with
      | Result.ok channel => mret (Result.ok channel)
      | Result.fail e => mret (Result.fail (Upstream e))
      end
  end.

Definition getTransferState {P} (transferId0 : string)
  : Prog Call (Result.t (option StoredTransfer) (Failure P)) :=
  match validateGetTransferState transferId0 with
  | Some errors => mret (Result.fail (PlainError errors))
  | None =>
      res ← await (StoreGetTransferState transferId0);
      match res with
      | Result.ok transfer => mret (Result.ok transfer)
      | Result.fail e => mret (Result.fail (Upstream e))
      end
  end.

Definition getActiveTransfers {P} (channelAddress0 : string)
  : Prog Call (Result.t (list FullTransferState) (Failure P)) :=
  match validateGetActiveTransfers channelAddress0 with
  | Some errors => mret (Result.fail (PlainError errors))
  | None =>
      res ← await (StoreGetActiveTransfers channelAddress0);
      match res with
      | Result.ok transfers => mret (Result.ok transfers)
      | Result.fail e => mret (Result.fail (Upstream e))
      end
  end.

(** *** [setup] *)

Definition setup (params : SetupParams)
  : Prog Call (Outcome (Result.t FullChannelState (Failure SetupParams))) :=
  match validateSetup params with
  | Some errors => mret (Returns (Result.fail (PlainError errors)))
  | None =>
  chainProviders ← await ChainGetChainProviders;
  match chainProviders with
  | Result.fail e => mret (Returns (Result.fail (Upstream e)))
  | Result.ok chainProviders =>
  match chainAddresses !! su_chainId params with
  | None => mret (Throws "TypeError: cannot read channelFactoryAddress of undefined")
  | Some addresses =>
  setupRes ← await (VectorSetup
    {| ps_counterpartyIdentifier := su_counterpartyIdentifier params;
       ps_timeout := su_timeout params;
       ps_networkContext :=
         {| snc_channelFactoryAddress := ca_channelFactoryAddress addresses;
            snc_transferRegistryAddress := ca_transferRegistryAddress addresses;
            snc_chainId := su_chainId params;
            snc_providerUrl := chainProviders !! su_chainId params |};
       ps_meta := su_meta params |});
  match setupRes with
  | Result.fail e => mret (Returns (Result.fail (Upstream e)))
  | Result.ok channel =>
  if bool_decide (signerAddress = bob channel) then mret (Returns (Result.ok channel)) else
  if negb (bool_decide (nc_chainId (networkContext channel) ∈ AUTODEPLOY_CHAIN_IDS)) then
    mret (Returns (Result.ok channel))
  else
  deployRes ← await (SendDeployChannelTx channel);
  match deployRes with
  | Result.fail _ => mret (Returns (Result.ok channel))
  | Result.ok tx =>
      mined ← await (TxWait tx);
      match mined with
      | Throws exception => mret (Throws exception)
      | Returns _ => mret (Returns (Result.ok channel))
      end
  end end end end end.

(** *** [requestCollateral] *)

Definition requestCollateral (params : ChannelParams)
  : Prog Call (Result.t unit (Failure ChannelParams)) :=
  match validateChannelParams params with
  | Some errors => mret (Result.fail (PlainError errors))
  | None =>
  channelRes ← getChannelState (cp_channelAddress params);
  match channelRes with
  | Result.fail e => mret (Result.fail e)
  | Result.ok None => mret (Result.fail (OutboundChannelUpdateError ChannelNotFound params))
  | Result.ok (Some channel) =>
      request ← await (SendRequestCollateralMessage params
                         (if bool_decide (publicIdentifier = aliceIdentifier (sc_state channel))
                          then bobIdentifier (sc_state channel)
                          else aliceIdentifier (sc_state channel))
                         publicIdentifier);
      match request with
      | Result.ok v => mret (Result.ok v)
      | Result.fail e => mret (Result.fail (Upstream e))
      end
  end end.

(** *** [resolveTransfer] and [withdraw] *)

Definition resolveTransfer (params : ResolveTransferParams)
  : Prog Call (Result.t FullChannelState (Failure ResolveTransferParams)) :=
  match validateResolveTransfer params with
  | Some errors => mret (Result.fail (PlainError errors))
  | None =>
  transferRes ← getTransferState (rt_transferId params);
  match transferRes with
  | Result.fail e => mret (Result.fail e)
  | Result.ok None => mret (Result.fail (OutboundChannelUpdateError TransferNotFound params))
  | Result.ok (Some transfer) =>
  match convertResolveConditionParams params transfer with
  | Result.fail e => mret (Result.fail (Upstream e))
  | Result.ok resolveParams =>
      protocolRes ← await (VectorResolve resolveParams);
      match protocolRes with
      | Result.fail e => mret (Result.fail (Upstream e))
      | Result.ok res => mret (Result.ok res)
      end
  end end end.

Definition withdraw (params : ChannelParams)
  : Prog Call (Result.t WithdrawResponse (Failure ChannelParams)) :=
  match validateChannelParams params with
  | Some errors => mret (Result.fail (PlainError errors))
  | None =>
  channelRes ← getChannelState (cp_channelAddress params);
  match channelRes with
  | Result.fail e => mret (Result.fail e)
  | Result.ok None => mret (Result.fail (OutboundChannelUpdateError ChannelNotFound params))
  | Result.ok (Some channel) =>
  createResult ← await (ConvertWithdrawParams params channel);
  match createResult with
  | Result.fail e => mret (Result.fail (Upstream e))
  | Result.ok createParams =>
  protocolRes ← await (VectorCreate createParams);
  match protocolRes with
  | Result.fail e => mret (Result.fail (Upstream e))
  | Result.ok res =>
      event ← await (AttachOnceWithdrawalReconciled 90000);
      let transactionHash :=
        match event with
        | Some data => wrp_transactionHash data
        | None => None
        end in
      mret (Result.ok {| wr_channel := res; wr_transactionHash := transactionHash |})
  end end end end.

(** *** Dispute methods *)

Definition defundChannel (params : ChannelParams)
  : Prog Call (Result.t string (Failure ChannelParams)) :=
  channel ← getChannelState (cp_channelAddress params);
  match channel with
  | Result.fail e => mret (Result.fail e)
  | Result.ok None => mret (Result.fail (OutboundChannelUpdateError ChannelNotFound params))
  | Result.ok (Some state) =>
      if negb (sc_inDispute state) then mret (Result.fail (PlainError "Channel not in dispute"))
      else
        disputeRes ← await (SendDefundChannelTx state);
        match disputeRes with
        | Result.fail e => mret (Result.fail (Upstream e))
        | Result.ok hash => mret (Result.ok hash)
        end
  end.

Definition disputeTransfer (params : TransferIdParams)
  : Prog Call (Result.t string (Failure TransferIdParams)) :=
  transferRes ← getTransferState (tp_transferId params);
  match transferRes with
  | Result.fail e => mret (Result.fail e)
  | Result.ok None => mret (Result.fail (OutboundChannelUpdateError TransferNotFound params))
  | Result.ok (Some transfer) =>
      activeRes ← getActiveTransfers (t_channelAddress (st_state transfer));
      match activeRes with
      | Result.fail e => mret (Result.fail e)
      | Result.ok active =>
          disputeRes ← await (SendDisputeTransferTx (transferId (st_state transfer)) active);
          match disputeRes with
          | Result.fail e => mret (Result.fail (Upstream e))
          | Result.ok hash => mret (Result.ok hash)
          end
      end
  end.

Definition defundTransfer (params : TransferIdParams)
  : Prog Call (Result.t string (Failure TransferIdParams)) :=
  transferRes ← getTransferState (tp_transferId params);
  match transferRes with
  | Result.fail e => mret (Result.fail e)
  | Result.ok None => mret (Result.fail (OutboundChannelUpdateError TransferNotFound params))
  | Result.ok (Some transfer) =>
      if negb (st_inDispute transfer) then mret (Result.fail (PlainError "Transfer not in dispute"))
      else
        defundRes ← await (SendDefundTransferTx transfer);
        match defundRes with
        | Result.fail e => mret (Result.fail (Upstream e))
        | Result.ok hash => mret (Result.ok hash)
        end
  end.

End VectorEngine.

End EngineApi.

(** Views of the calls of the engine methods. *)

Module EngineApiTrace.
Import EngineApi.

Definition channel_read (e : Event Call)
  : option (Result.t (option StoredChannel) VectorError) :=
  match e with
  | Ev c r =>
      match c in Call X return X -> option (Result.t (option StoredChannel) VectorError) with
      | StoreGetChannelState _ => fun r => Some r
      | _ => fun _ => None
      end r
  end.

Definition transfer_read (e : Event Call)
  : option (Result.t (option StoredTransfer) VectorError) :=
  match e with
  | Ev c r =>
      match c in Call X return X -> option (Result.t (option StoredTransfer) VectorError) with
      | StoreGetTransferState _ => fun r => Some r
      | _ => fun _ => None
      end r
  end.

(** The channel whose active transfers were read, and the transfers. *)
Definition active_read (e : Event Call) : option (string * list FullTransferState) :=
  match e with
  | Ev c r =>
      match c in Call X return X -> option (string * list FullTransferState) with
      | StoreGetActiveTransfers channelAddress0 =>
          fun r => match r with
                   | Result.ok transfers => Some (channelAddress0, transfers)
                   | Result.fail _ => None
                   end
      | _ => fun _ => None
      end r
  end.

Definition providers_reply (e : Event Call) : option (Result.t (gmap Z string) VectorError) :=
  match e with
  | Ev c r =>
      match c in Call X return X -> option (Result.t (gmap Z string) VectorError) with
      | ChainGetChainProviders => fun r => Some r
      | _ => fun _ => None
      end r
  end.

Definition setup_asked (e : Event Call) : option ProtocolSetup :=
  match ev_call e with VectorSetup params => Some params | _ => None end.

Definition setup_reply (e : Event Call) : option (Result.t FullChannelState VectorError) :=
  match e with
  | Ev c r =>
      match c in Call X return X -> option (Result.t FullChannelState VectorError) with
      | VectorSetup _ => fun r => Some r
      | _ => fun _ => None
      end r
  end.

(** The channel whose multisig was sent for deployment. *)
Definition deployed (e : Event Call) : option FullChannelState :=
  match ev_call e with SendDeployChannelTx channel => Some channel | _ => None end.

(** The hash of a deployment that was broadcast. *)
Definition deploy_broadcast (e : Event Call) : option string :=
  match e with
  | Ev c r =>
      match c in Call X return X -> option string with
      | SendDeployChannelTx _ =>
          fun r => match r with Result.ok hash => Some hash | Result.fail _ => None end
      | _ => fun _ => None
      end r
  end.

Definition waited (e : Event Call) : option string :=
  match ev_call e with TxWait hash => Some hash | _ => None end.

(** What a wait for a transaction threw. *)
Definition wait_thrown (e : Event Call) : option string :=
  match e with
  | Ev c r =>
      match c in Call X return X -> option string with
      | TxWait _ =>
          fun r => match r with Throws exception => Some exception | Returns _ => None end
      | _ => fun _ => None
      end r
  end.

Definition created (e : Event Call) : option (Result.t CreatedChannel VectorError) :=
  match e with
  | Ev c r =>
      match c in Call X return X -> option (Result.t CreatedChannel VectorError) with
      | VectorCreate _ => fun r => Some r
      | _ => fun _ => None
      end r
  end.

Definition resolve_asked (e : Event Call) : option Json :=
  match ev_call e with VectorResolve resolveParams => Some resolveParams | _ => None end.

Definition defund_channel_sent (e : Event Call) : option StoredChannel :=
  match ev_call e with SendDefundChannelTx channel => Some channel | _ => None end.

Definition defund_transfer_sent (e : Event Call) : option StoredTransfer :=
  match ev_call e with SendDefundTransferTx transfer => Some transfer | _ => None end.

Definition dispute_transfer_sent (e : Event Call) : option (string * list FullTransferState) :=
  match ev_call e with
  | SendDisputeTransferTx transferId0 active => Some (transferId0, active)
  | _ => None
  end.

(** The recipient and the sender of a collateral request. *)
Definition collateral_requested (e : Event Call) : option (string * string) :=
  match ev_call e with
  | SendRequestCollateralMessage _ to_ from => Some (to_, from)
  | _ => None
  end.

End EngineApiTrace.

(** Scenarios for the engine methods: Alice's engine, her channel with Bob. *)

Module EngineApiScenarios.

Definition chain (chainId0 : Z) : NetworkContext :=
  {| channelFactoryAddress := "0xFACTORY"; transferRegistryAddress := "0xREGISTRY";
     nc_chainId := chainId0; providerUrl := "http://localhost:8545" |}.

Definition a_setup_update : ChannelUpdate :=
  {| u_type := setup; u_nonce := 1; aliceSignature := Some "0xSIGA"; bobSignature := Some "0xSIGB" |}.

Definition channel_on (chainId0 : Z) : FullChannelState :=
  {| channelAddress := "0xCHANNEL"; alice := "0xALICE"; bob := "0xBOB";
     aliceIdentifier := "vectorALICE"; bobIdentifier := "vectorBOB";
     nonce := 1; merkleRoot := "0xROOT"; networkContext := chain chainId0;
     latestUpdate := a_setup_update |}.

Import EngineApi.

Definition stored_channel (inDispute : bool) : StoredChannel :=
  {| sc_state := channel_on 1337; sc_inDispute := inDispute |}.

Definition a_withdrawal : FullTransferState :=
  {| t_balance := {| amount := [100; 0]; to := ["0xALICE"; "0xBOB"] |};
     t_assetId := "0xTOKEN";
     t_channelAddress := "0xCHANNEL";
     transferId := "0xTRANSFER";
     transferDefinition := "0xWITHDRAW";
     initiator := "0xALICE";
     responder := "0xBOB";
     transferTimeout := 86400;
     transferState := ∅;
     transferResolver := None;
     t_meta := None |}.

Definition stored_transfer (inDispute : bool) : StoredTransfer :=
  {| st_state := a_withdrawal; st_inDispute := inDispute |}.

Definition the_addresses : gmap Z ChainAddress :=
  {[ 1337 := {| ca_channelFactoryAddress := "0xFACTORY";
                ca_transferRegistryAddress := "0xREGISTRY" |} ]}.

Definition the_providers : gmap Z string := {[ 1337 := "http://localhost:8545" ]}.

Definition a_setup (chainId0 : Z) : SetupParams :=
  {| su_counterpartyIdentifier := "vectorBOB"; su_chainId := chainId0;
     su_timeout := "86400"; su_meta := None |}.

Definition on_channel : ChannelParams :=
  {| cp_channelAddress := "0xCHANNEL";
     cp_rest := JObj [("assetId", JStr "0xTOKEN"); ("amount", JStr "100")] |}.

Definition a_resolution : ResolveTransferParams :=
  {| rt_channelAddress := "0xCHANNEL"; rt_transferId := "0xTRANSFER"; rt_meta := None;
     rt_transferResolver := JObj [("responderSignature", JStr "0xSIG")] |}.

Definition converted (params : ResolveTransferParams) (transfer : StoredTransfer)
  : Result.t Json VectorError :=
  Result.ok (JObj [("channelAddress", JStr (t_channelAddress (st_state transfer)));
                   ("transferId", JStr (transferId (st_state transfer)));
                   ("transferResolver", rt_transferResolver params)]).

Definition a_created_channel : CreatedChannel :=
  {| cc_channel := channel_on 1337; cc_transferId := "0xTRANSFER" |}.

(** What the collaborators of the engine answer in a scenario. *)
Record Script : Type := {
  channelReply : Result.t (option StoredChannel) VectorError;
  transferReply : Result.t (option StoredTransfer) VectorError;
  setupReply : Result.t FullChannelState VectorError;
  txReply : Result.t string VectorError;
  reconciledReply : option WithdrawalReconciledPayload;
  lockReply : option string;
  releaseReply : bool
}.

Definition scripted (sc : Script) : Handler Call unit :=
  fun X c w =>
    match c in Call X return X * unit with
    | StoreGetChannelState _ => (channelReply sc, tt)
    | StoreGetTransferState _ => (transferReply sc, tt)
    | StoreGetActiveTransfers _ => (Result.ok [a_withdrawal], tt)
    | ChainGetChainProviders => (Result.ok the_providers, tt)
    | VectorSetup _ => (setupReply sc, tt)
    | SendDeployChannelTx _ => (txReply sc, tt)
    | TxWait _ => (Returns tt, tt)
    | ConvertWithdrawParams _ _ => (Result.ok (JObj [("type", JStr "Withdraw")]), tt)
    | VectorCreate _ => (Result.ok a_created_channel, tt)
    | VectorResolve _ => (Result.ok (channel_on 1337), tt)
    | AttachOnceWithdrawalReconciled _ => (reconciledReply sc, tt)
    | SendDisputeChannelTx _ => (txReply sc, tt)
    | SendDefundChannelTx _ => (txReply sc, tt)
    | SendDisputeTransferTx _ _ => (txReply sc, tt)
    | SendDefundTransferTx _ => (txReply sc, tt)
    | SendRequestCollateralMessage _ _ _ => (Result.ok tt, tt)
    | LockAcquire _ _ _ => (lockReply sc, tt)
    | LockRelease _ _ _ _ => (releaseReply sc, tt)
    end.

(** Everything works; the channel and the transfer are in dispute or not. *)
Definition working (inDispute : bool) : Script :=
  {| channelReply := Result.ok (Some (stored_channel inDispute));
     transferReply := Result.ok (Some (stored_transfer inDispute));
     setupReply := Result.ok (channel_on 1337);
     txReply := Result.ok "0xHASH";
     reconciledReply := None;
     lockReply := Some "key";
     releaseReply := true |}.

(** Everything works, and within the wait of [withdraw] a withdrawal of
    another transfer on another channel is reconciled. *)
Definition another_reconciled : Script :=
  {| channelReply := Result.ok (Some (stored_channel false));
     transferReply := Result.ok (Some (stored_transfer false));
     setupReply := Result.ok (channel_on 1337);
     txReply := Result.ok "0xHASH";
     reconciledReply := Some {| wrp_channelAddress := "0xOTHERCHANNEL";
                                wrp_transferId := "0xOTHERTRANSFER";
                                wrp_transactionHash := Some "0xOTHERHASH" |};
     lockReply := Some "key";
     releaseReply := true |}.

(** Alice's engine: chain 1337 is configured and deployed to automatically;
    every schema accepts. *)
Definition alice_setup :=
  EngineApi.setup "0xALICE" the_addresses [1337; 1338] (fun _ => None).

Definition alice_withdraw :=
  EngineApi.withdraw "Channel not found" (fun _ => None) (fun _ => None).

Definition alice_requestCollateral :=
  EngineApi.requestCollateral "vectorALICE" "Channel not found" (fun _ => None) (fun _ => None).

Definition alice_resolveTransfer :=
  EngineApi.resolveTransfer "Transfer not found" (fun _ => None) (fun _ => None) converted.

Definition alice_defundChannel :=
  EngineApi.defundChannel "Channel not found" (fun _ => None).

Definition alice_defundTransfer :=
  EngineApi.defundTransfer "Transfer not found" (fun _ => None).

Definition alice_disputeTransfer :=
  EngineApi.disputeTransfer "Transfer not found" (fun _ => None) (fun _ => None).

Definition alice_acquireRestoreLocks := EngineApi.acquireRestoreLocks "0xALICE" "vectorALICE".

Definition alice_releaseRestoreLocks := EngineApi.releaseRestoreLocks "0xALICE" "vectorALICE".

End EngineApiScenarios.

(** Views of the calls of the restore locks. *)

Module RestoreLockTrace.
Import EngineApi.

(** The key handed out by the lock service. *)
Definition lock_acquired (e : Event Call) : option string :=
  match e with
  | Ev c r =>
      match c in Call X return X -> option string with
      | LockAcquire _ _ _ => fun r => r
      | _ => fun _ => None
      end r
  end.

End RestoreLockTrace.

(** ** The protocol: [Vector.setup] and the handler of inbound messages *)

Module ProtocolApi.
Import Protocol.

(** What [setup] calls: [getCreate2MultisigAddress], and what
    [executeUpdate] calls. *)
Inductive Call : Type -> Type :=
| GetCreate2MultisigAddress (initiatorIdentifier responderIdentifier : string) (chainId : Z)
    (channelFactoryAddress0 : string) : Call (Result.t string VectorError)
| Leader {X : Type} (c : Protocol.Call X) : Call X.

(** A program of the leader side, run among the calls of the public methods. *)
Fixpoint lift {R : Type} (p : Prog Protocol.Call R) : Prog Call R :=
  match p with
  | Ret r => Ret r
  | Vis c k => Vis (Leader c) (fun x => lift (k x))
  end.

(** The error of [validateParamSchema]: an [OutboundChannelUpdateError]
    built from the reason [InvalidParams], the parameters as given and the
    schema error. *)
Record InvalidParamsError (P : Type) : Type := {
  ip_reason : string;
  ip_params : P;
  ip_error : string
}.

Arguments ip_reason {P} _.
Arguments ip_params {P} _.
Arguments ip_error {P} _.

(** What [setup] fails with. *)
Inductive ProtocolError : Type :=
| InvalidSetup (e : InvalidParamsError UpdateDetails)
| UpdateError (e : OutboundChannelUpdateError).

(** A received update: the sender, and the fields of the update. *)
Record ReceivedUpdate : Type := {
  fromIdentifier : string;
  r_update : ChannelUpdate
}.

(** The value of a received message: its keys, and the two updates, each of
    which may be undefined. *)
Record Received : Type := {
  keys : list string;
  update : option ReceivedUpdate;
  previousUpdate : option ReceivedUpdate
}.

(** The value of a successful [sync.inbound]. *)
Record InboundValue : Type := {
  i_updatedChannel : FullChannelState;
  updatedActiveTransfers : option (list FullTransferState);
  i_updatedTransfer : option FullTransferState
}.

(** What the handler of inbound messages calls. *)
Inductive InboundCall : Type -> Type :=
| SyncInbound (update0 : ReceivedUpdate) (previousUpdate0 : option ReceivedUpdate)
    (inbox : string) : InboundCall (Result.t InboundValue VectorError)
| PostInboundUpdateEvent (payload : ChannelUpdateEvent) : InboundCall unit.

Section Vector.

Variable publicIdentifier : string.

(** The reasons of [OutboundChannelUpdateError] used here. *)
Variable ChannelNotFound : string.
Variable InvalidParams : string.
Variable Create2Failed : string.

(** [validateSchema] of [./utils] gives the error, if any. *)
Definition validateParamSchema {P : Type} (validateSchema : P -> option string) (params : P)
  : option (InvalidParamsError P) :=
  match validateSchema params with
  | Some error =>
      if truthy_string error
      then Some {| ip_reason := InvalidParams; ip_params := params; ip_error := error |}
      else None
  | None => None
  end.

(** [validateSchema] against [ProtocolParams.SetupSchema] and against
    [TChannelUpdate]. *)
Variable validateSetupSchema : UpdateDetails -> option string.
Variable validateChannelUpdate : option ReceivedUpdate -> option string.

(** [ProtocolParams.Setup] is the [SetupDetails] of an update. *)
Definition setup (counterpartyIdentifier : string) (timeout : Z) (networkContext0 : NetworkContext)
  : Prog Call (Result.t FullChannelState ProtocolError) :=
  let params := SetupDetails counterpartyIdentifier timeout networkContext0 in
  match validateParamSchema validateSetupSchema params with
  | Some error => mret (Result.fail (InvalidSetup error))
  | None =>
      create2Res ← await (GetCreate2MultisigAddress publicIdentifier counterpartyIdentifier
                            (nc_chainId networkContext0)
                            (channelFactoryAddress networkContext0));
      match create2Res with
      | Result.fail e =>
          mret (Result.fail (UpdateError
                  {| o_message := Create2Failed;
                     o_params := {| p_channelAddress := ""; details := params |};
                     o_context := <["error" := CStr (message e)]> ∅ |}))
      | Result.ok channelAddress0 =>
          res ← lift (executeUpdate publicIdentifier ChannelNotFound
                        {| p_channelAddress := channelAddress0; details := params |});
          match res with
          | Result.ok channel => mret (Result.ok channel)
          | Result.fail e => mret (Result.fail (UpdateError e))
          end
      end
  end.

(** The callback given to [onReceiveProtocolMessage] in [setupServices].
    It throws when it reads [fromIdentifier] of an undefined update. *)
Definition onReceiveProtocolMessage (msg : Result.t Received VectorError) (from inbox : string)
  : Prog InboundCall (Outcome unit) :=
  if bool_decide (from = publicIdentifier) then mret (Returns tt) else
  match msg with
  | Result.fail _ => mret (Returns tt)
  | Result.ok received =>
  if negb (bool_decide ("update" ∈ keys received))
     || negb (bool_decide ("previousUpdate" ∈ keys received))
  then mret (Returns tt) else
  match validateParamSchema validateChannelUpdate (update received) with
  | Some _ => mret (Returns tt)
  | None =>
  let previousError := validateParamSchema validateChannelUpdate (previousUpdate received) in
  match previousError, previousUpdate received with
  | Some _, Some _ => mret (Returns tt)
  | _, _ =>
  match update received with
  | None => mret (Throws "TypeError: cannot read fromIdentifier of undefined")
  | Some update0 =>
  if bool_decide (fromIdentifier update0 = publicIdentifier) then mret (Returns tt) else
  inboundRes ← await (SyncInbound update0 (previousUpdate received) inbox);
  match inboundRes with
  | Result.fail _ => mret (Returns tt)
  | Result.ok v =>
      _ ← await (PostInboundUpdateEvent
                   {| updatedChannelState := i_updatedChannel v;
                      e_updatedTransfers := updatedActiveTransfers v;
                      e_updatedTransfer := i_updatedTransfer v |});
      mret (Returns tt)
  end end end end end.

End Vector.

End ProtocolApi.

(** Views of the calls of [setup] and of the inbound handler. *)

Module ProtocolApiTrace.
Import Protocol ProtocolApi.

Definition create2_asked (e : Event Call) : option (string * string * Z * string) :=
  match ev_call e with
  | GetCreate2MultisigAddress initiator0 responder0 chainId0 factory =>
      Some (initiator0, responder0, chainId0, factory)
  | _ => None
  end.

Definition create2_reply (e : Event Call) : option (Result.t string VectorError) :=
  match e with
  | Ev c r =>
      match c in Call X return X -> option (Result.t string VectorError) with
      | GetCreate2MultisigAddress _ _ _ _ => fun r => Some r
      | _ => fun _ => None
      end r
  end.

Definition lock_of {X : Type} (c : Protocol.Call X) : option (string * bool * string) :=
  match c with
  | AcquireLock name isAlice counterpartyIdentifier => Some (name, isAlice, counterpartyIdentifier)
  | _ => None
  end.

(** The lock taken: its name, the side, the counterparty. *)
Definition lock_taken (e : Event Call) : option (string * bool * string) :=
  match ev_call e with
  | Leader c => lock_of c
  | _ => None
  end.

Definition outbound_of {X : Type} (c : Protocol.Call X) : option UpdateParams :=
  match c with
  | SyncOutbound params => Some params
  | _ => None
  end.

(** The update proposed to the counterparty. *)
Definition exchanged (e : Event Call) : option UpdateParams :=
  match ev_call e with
  | Leader c => outbound_of c
  | _ => None
  end.

(** The update, the previous update and the inbox given to [sync.inbound]. *)
Definition applied (e : Event InboundCall)
  : option (ReceivedUpdate * option ReceivedUpdate * string) :=
  match ev_call e with
  | SyncInbound update0 previousUpdate0 inbox => Some (update0, previousUpdate0, inbox)
  | _ => None
  end.

(** The value of a [sync.inbound] that succeeded. *)
Definition inbound_value (e : Event InboundCall) : option InboundValue :=
  match e with
  | Ev c r =>
      match c in InboundCall X return X -> option InboundValue with
      | SyncInbound _ _ _ =>
          fun r => match r with Result.ok v => Some v | Result.fail _ => None end
      | _ => fun _ => None
      end r
  end.

Definition posted (e : Event InboundCall) : option ChannelUpdateEvent :=
  match ev_call e with
  | PostInboundUpdateEvent payload => Some payload
  | _ => None
  end.

End ProtocolApiTrace.

(** Scenarios for the inbound handler: Bob proposes a deposit to Alice. *)

Module ProtocolApiScenarios.
Import Protocol ProtocolApi.

Definition from_bob (nonce0 : Z) : ReceivedUpdate :=
  {| fromIdentifier := "vectorBOB";
     r_update := {| u_type := deposit; u_nonce := nonce0;
                    aliceSignature := None; bobSignature := Some "0xSIGB" |} |}.

Definition a_proposal : Received :=
  {| keys := ["update"; "previousUpdate"];
     update := Some (from_bob 3);
     previousUpdate := Some (from_bob 2) |}.

(** [sync.inbound] accepts and returns [channel]. *)
Definition accepting (channel : FullChannelState) : Handler InboundCall unit :=
  fun X c w =>
    match c in InboundCall X return X * unit with
    | SyncInbound _ _ _ =>
        (Result.ok {| i_updatedChannel := channel; updatedActiveTransfers := None;
                      i_updatedTransfer := None |}, tt)
    | PostInboundUpdateEvent _ => (tt, tt)
    end.

(** The schema asks for an update that is there. *)
Definition defined_update (u : option ReceivedUpdate) : option string :=
  match u with
  | Some _ => None
  | None => Some "should be object"
  end.

Definition alice_receives :=
  onReceiveProtocolMessage "vectorALICE" "Invalid params" defined_update.

End ProtocolApiScenarios.

(** ** The browser node: cross-chain transfers *)

Module BrowserNode.

(** A promise resolves with a value or rejects with what was thrown: an
    error object of a collaborator, or a [new Error(msg)]. *)
Inductive Exception : Type :=
| ErrorObject (e : VectorError)
| NewError (msg : string).

Inductive Settled (A : Type) : Type :=
| Resolves (a : A)
| Rejects (e : Exception).

Arguments Resolves {A} a.
Arguments Rejects {A} e.

(** The parameters of [crossChainTransfer].  Amounts are decimal strings;
    [x_meta] is a JSON object. *)
Record Params : Type := {
  x_amount : string;
  x_fromChainId : Z;
  x_fromAssetId : string;
  x_toChainId : Z;
  x_toAssetId : string;
  x_reconcileDeposit : option bool;
  x_withdrawalAddress : option string;
  x_meta : option (gmap string Json);
  x_crossChainTransferId : option string;
  x_startStage : option Z;
  x_preImage : option string;
  x_withdrawalAmount : option string
}.

(** [CrossChainTransferParams], as stored. *)
Record CrossChainTransferParams : Type := {
  s_amount : string;
  s_fromAssetId : string;
  s_fromChainId : Z;
  s_reconcileDeposit : bool;
  s_toAssetId : string;
  s_toChainId : Z;
  s_withdrawalAddress : option string;
  s_error : bool;
  s_preImage : option string;
  s_withdrawalAmount : option string
}.

(** [{ ...storeParams, error: true }] *)
Definition errored (storeParams : CrossChainTransferParams) : CrossChainTransferParams :=
  {| s_amount := s_amount storeParams;
     s_fromAssetId := s_fromAssetId storeParams;
     s_fromChainId := s_fromChainId storeParams;
     s_reconcileDeposit := s_reconcileDeposit storeParams;
     s_toAssetId := s_toAssetId storeParams;
     s_toChainId := s_toChainId storeParams;
     s_withdrawalAddress := s_withdrawalAddress storeParams;
     s_error := true;
     s_preImage := s_preImage storeParams;
     s_withdrawalAmount := s_withdrawalAmount storeParams |}.

(** [storeParams.preImage = preImage] *)
Definition with_preImage (storeParams : CrossChainTransferParams) (preImage : string)
  : CrossChainTransferParams :=
  {| s_amount := s_amount storeParams;
     s_fromAssetId := s_fromAssetId storeParams;
     s_fromChainId := s_fromChainId storeParams;
     s_reconcileDeposit := s_reconcileDeposit storeParams;
     s_toAssetId := s_toAssetId storeParams;
     s_toChainId := s_toChainId storeParams;
     s_withdrawalAddress := s_withdrawalAddress storeParams;
     s_error := s_error storeParams;
     s_preImage := Some preImage;
     s_withdrawalAmount := s_withdrawalAmount storeParams |}.

(** [storeParams.withdrawalAmount = withdrawalAmount] *)
Definition with_withdrawalAmount (storeParams : CrossChainTransferParams)
    (withdrawalAmount : option string) : CrossChainTransferParams :=
  {| s_amount := s_amount storeParams;
     s_fromAssetId := s_fromAssetId storeParams;
     s_fromChainId := s_fromChainId storeParams;
     s_reconcileDeposit := s_reconcileDeposit storeParams;
     s_toAssetId := s_toAssetId storeParams;
     s_toChainId := s_toChainId storeParams;
     s_withdrawalAddress := s_withdrawalAddress storeParams;
     s_error := s_error storeParams;
     s_preImage := s_preImage storeParams;
     s_withdrawalAmount := withdrawalAmount |}.

(** [StoredCrossChainTransfer] *)
Record StoredCrossChainTransfer : Type := {
  stored : CrossChainTransferParams;
  status : Z;
  crossChainTransferId : string
}.

(** The fields read of the receiver transfer: [transferId] and
    [balance.amount[0]]. *)
Record ReceiverTransfer : Type := {
  b_transferId : string;
  amount0 : option string
}.

(** The parameters of the hashlock transfer sent to the router. *)
Record HashlockTransferParams : Type := {
  h_amount : string;
  h_assetId : string;
  h_channelAddress : string;
  lockHash : string;
  expiry : string;
  h_type : string;
  h_recipient : string;
  h_recipientAssetId : string;
  h_recipientChainId : Z;
  h_meta : gmap string Json
}.

Record ResolveParams : Type := {
  r_channelAddress : string;
  r_transferId : string;
  r_preImage : string;
  r_meta : gmap string Json
}.

Record WithdrawParams : Type := {
  w_amount : string;
  w_assetId : string;
  w_channelAddress : string;
  w_recipient : string;
  w_meta : gmap string Json
}.

(** [{ withdrawalTx, withdrawalAmount }] *)
Record Answer : Type := {
  withdrawalTx : option string;
  withdrawalAmount : option string
}.

(** What [crossChainTransfer] calls: methods of the node (each answers with
    a result), the store of cross-chain transfers, the source of random
    bytes, and the event of a created transfer, filtered by routing id and
    channel: the listener is attached by one call and awaited by another. *)
Inductive Call : Type -> Type :=
| GetStateChannelByParticipants (counterparty : option string) (chainId : Z)
    : Call (Result.t (option FullChannelState) VectorError)
| GetRandomBytes32 : Call string
| SaveCrossChainTransfer (crossChainTransferId0 : string) (status0 : Z)
    (params : CrossChainTransferParams) : Call unit
| ReconcileDeposit (assetId channelAddress0 : string) (meta : gmap string Json)
    : Call (Result.t unit VectorError)
| GetStateChannel (channelAddress0 : string)
    : Call (Result.t (option FullChannelState) VectorError)
| ConditionalTransfer (params : HashlockTransferParams) : Call (Result.t unit VectorError)
| OnConditionalTransferCreated (routingId0 channelAddress0 : string) : Call unit
| GetTransferByRoutingId (channelAddress0 routingId0 : string)
    : Call (Result.t (option ReceiverTransfer) VectorError)
| ReceiverTransferCreated (routingId0 channelAddress0 : string) : Call (option ReceiverTransfer)
| ResolveTransfer (params : ResolveParams) : Call (Result.t unit VectorError)
| Withdraw (params : WithdrawParams) : Call (Result.t (option string) VectorError)
| RemoveCrossChainTransfer (crossChainTransferId0 : string) : Call unit
| GetCrossChainTransfers : Call (list StoredCrossChainTransfer).

(** An asynchronous function that may throw. *)
Abbreviation Task A := (Prog Call (Settled A)) (only parsing).

(** Awaits [p]; a rejection ends the caller. *)
Definition andThen {A B : Type} (p : Task A) (k : A -> Task B) : Task B :=
  r ← p;
  match r with
  | Resolves a => k a
  | Rejects e => mret (Rejects e)
  end.

(** One field of an object literal: present unless undefined. *)
Definition field (key : string) (value : option Json) (object : gmap string Json)
  : gmap string Json :=
  match value with
  | Some v => <[key := v]> object
  | None => object
  end.

(** [const { meta, ...res } = params] *)
Definition res (params : Params) : gmap string Json :=
  field "amount" (Some (JStr (x_amount params)))
  (field "fromChainId" (Some (JNum (x_fromChainId params)))
  (field "fromAssetId" (Some (JStr (x_fromAssetId params)))
  (field "toChainId" (Some (JNum (x_toChainId params)))
  (field "toAssetId" (Some (JStr (x_toAssetId params)))
  (field "reconcileDeposit" (JBool <$> x_reconcileDeposit params)
  (field "withdrawalAddress" (JStr <$> x_withdrawalAddress params)
  (field "crossChainTransferId" (JStr <$> x_crossChainTransferId params)
  (field "startStage" (JNum <$> x_startStage params)
  (field "preImage" (JStr <$> x_preImage params)
  (field "withdrawalAmount" (JStr <$> x_withdrawalAmount params) ∅)))))))))).

(** [{ ...a, ...b }]: the fields of [b] win. *)
Definition spread (a b : gmap string Json) : gmap string Json := b ∪ a.

(** [{ ...res, crossChainTransferId, routingId: crossChainTransferId, ...(meta ?? {}) }] *)
Definition updatedMeta (params : Params) (crossChainTransferId0 : string) : gmap string Json :=
  spread (<["routingId" := JStr crossChainTransferId0]>
            (<["crossChainTransferId" := JStr crossChainTransferId0]> (res params)))
         (default ∅ (x_meta params)).

(** [{ ...res, crossChainTransferId, ...(meta ?? {}) }] *)
Definition withdrawalMeta (params : Params) (crossChainTransferId0 : string) : gmap string Json :=
  spread (<["crossChainTransferId" := JStr crossChainTransferId0]> (res params))
         (default ∅ (x_meta params)).

Section BrowserNode.

(** [this.publicIdentifier] and [this.routerPublicIdentifier]. *)
Variable publicIdentifier : string.
Variable routerPublicIdentifier : option string.

(** [CrossChainTransferStatus] and [TransferNames.HashlockTransfer]. *)
Variable INITIAL DEPOSITED TRANSFER_1 TRANSFER_2 : Z.
Variable HashlockTransfer : string.

(** [soliditySha256(["bytes32"], [preImage])]: the hash, or the exception
    thrown for a preimage that is not made of 32 bytes. *)
Variable soliditySha256 : string -> Outcome string.

Definition missingChannel (chainId : Z) : Exception :=
  NewError ("Channel does not exist for chainId " ++ pretty chainId ++ " with "
            ++ default "undefined" routerPublicIdentifier).

(** [startStage < DEPOSITED]: the deposit, if asked for. *)
Definition depositStage (startStage : Z) (params : Params) (senderChannel : FullChannelState)
    (crossChainTransferId0 : string) (storeParams : CrossChainTransferParams)
    (updatedMeta : gmap string Json) : Task unit :=
  if startStage <? DEPOSITED then
    andThen
      (if default false (x_reconcileDeposit params) then
         depositRes ← await (ReconcileDeposit (x_fromAssetId params)
                               (channelAddress senderChannel) updatedMeta);
         match depositRes with
         | Result.fail e =>
             _ ← await (SaveCrossChainTransfer crossChainTransferId0 INITIAL
                          (errored storeParams));
             mret (Rejects (ErrorObject e))
         | Result.ok _ =>
             updated ← await (GetStateChannel (channelAddress senderChannel));
             mret (Resolves tt)
         end
       else mret (Resolves tt))
      (fun _ =>
         _ ← await (SaveCrossChainTransfer crossChainTransferId0 DEPOSITED storeParams);
         mret (Resolves tt))
  else mret (Resolves tt).

(** [startStage < TRANSFER_1]: the hashlock transfer to oneself through
    the router. *)
Definition transferStage (startStage : Z) (params : Params) (senderChannel : FullChannelState)
    (crossChainTransferId0 : string) (storeParams : CrossChainTransferParams)
    (updatedMeta : gmap string Json) (lockHash0 : string) : Task unit :=
  if startStage <? TRANSFER_1 then
    let transferParams :=
      {| h_amount := x_amount params;
         h_assetId := x_fromAssetId params;
         h_channelAddress := channelAddress senderChannel;
         lockHash := lockHash0;
         expiry := "0";
         h_type := HashlockTransfer;
         h_recipient := publicIdentifier;
         h_recipientAssetId := x_toAssetId params;
         h_recipientChainId := x_toChainId params;
         h_meta := updatedMeta |} in
    transferRes ← await (ConditionalTransfer transferParams);
    match transferRes with
    | Result.fail e =>
        _ ← await (SaveCrossChainTransfer crossChainTransferId0 DEPOSITED
                     (errored storeParams));
        mret (Rejects (ErrorObject e))
    | Result.ok senderTransfer =>
        _ ← await (SaveCrossChainTransfer crossChainTransferId0 TRANSFER_1 storeParams);
        mret (Resolves tt)
    end
  else mret (Resolves tt).

(** [startStage < TRANSFER_2]: the receiver transfer is taken from the
    store or awaited, then resolved.  Gives [receiverTransferData],
    [withdrawalAmount] and [storeParams] as they are afterwards. *)
Definition resolveStage (startStage : Z) (params : Params) (receiverChannel : FullChannelState)
    (crossChainTransferId0 : string) (storeParams : CrossChainTransferParams)
    (updatedMeta : gmap string Json) (preImage : string)
  : Task (option ReceiverTransfer * option string * CrossChainTransferParams) :=
  if startStage <? TRANSFER_2 then
    _ ← await (OnConditionalTransferCreated crossChainTransferId0
                 (channelAddress receiverChannel));
    transferRes ← await (GetTransferByRoutingId (channelAddress receiverChannel)
                           crossChainTransferId0);
    match transferRes with
    | Result.fail e => mret (Rejects (ErrorObject e))
    | Result.ok existingReceiverTransfer =>
        andThen
          (match existingReceiverTransfer with
           | Some existing =>
               mret (Resolves (None, b_transferId existing, amount0 existing))
           | None =>
               receiverTransferData ← await (ReceiverTransferCreated crossChainTransferId0
                                               (channelAddress receiverChannel));
               match receiverTransferData with
               | None =>
                   _ ← await (SaveCrossChainTransfer crossChainTransferId0 TRANSFER_1
                                (errored storeParams));
                   mret (Rejects (NewError "Failed to get receiver event"))
               | Some data => mret (Resolves (Some data, b_transferId data, amount0 data))
               end
           end)
          (fun '(receiverTransferData, receiverTransferId, withdrawalAmount0) =>
             let storeParams := with_withdrawalAmount storeParams withdrawalAmount0 in
             resolveRes ← await (ResolveTransfer
                                   {| r_channelAddress := channelAddress receiverChannel;
                                      r_transferId := receiverTransferId;
                                      r_preImage := preImage;
                                      r_meta := updatedMeta |});
             match resolveRes with
             | Result.fail e =>
                 _ ← await (SaveCrossChainTransfer crossChainTransferId0 TRANSFER_1
                              (errored storeParams));
                 mret (Rejects (ErrorObject e))
             | Result.ok resolvedTransfer =>
                 _ ← await (SaveCrossChainTransfer crossChainTransferId0 TRANSFER_2
                              (with_withdrawalAmount storeParams withdrawalAmount0));
                 mret (Resolves (receiverTransferData, withdrawalAmount0, storeParams))
             end)
    end
  else mret (Resolves (None, x_withdrawalAmount params, storeParams)).

(** The withdrawal, if an address was given, and the end. *)
Definition withdrawStage (params : Params) (receiverChannel : FullChannelState)
    (crossChainTransferId0 : string) (storeParams : CrossChainTransferParams)
    (receiverTransferData : option ReceiverTransfer) (withdrawalAmount0 : option string)
  : Task Answer :=
  andThen
    (match x_withdrawalAddress params with
     | Some withdrawalAddress =>
         if truthy_string withdrawalAddress then
           let withdrawalAmount1 :=
             match x_withdrawalAmount params with
             | Some given => Some given
             | None => receiverTransferData ≫= amount0
             end in
           match withdrawalAmount1 with
           | Some amount1 =>
               if truthy_string amount1 then
                 withdrawRes ← await (Withdraw
                                        {| w_amount := amount1;
                                           w_assetId := x_toAssetId params;
                                           w_channelAddress := channelAddress receiverChannel;
                                           w_recipient := withdrawalAddress;
                                           w_meta := withdrawalMeta params
                                                       crossChainTransferId0 |});
                 match withdrawRes with
                 | Result.fail e =>
                     _ ← await (SaveCrossChainTransfer crossChainTransferId0 TRANSFER_2
                                  (errored storeParams));
                     mret (Rejects (ErrorObject e))
                 | Result.ok transactionHash =>
                     mret (Resolves (transactionHash, withdrawalAmount1))
                 end
               else mret (Rejects (NewError "Error, withdrawal amount not specified"))
           | None => mret (Rejects (NewError "Error, withdrawal amount not specified"))
           end
         else mret (Resolves (None, withdrawalAmount0))
     | None => mret (Resolves (None, withdrawalAmount0))
     end)
    (fun '(withdrawalTx0, withdrawalAmount1) =>
       _ ← await (RemoveCrossChainTransfer crossChainTransferId0);
       mret (Resolves {| withdrawalTx := withdrawalTx0; withdrawalAmount := withdrawalAmount1 |})).

Definition crossChainTransfer (params : Params) : Task Answer :=
  let startStage := nullish (x_startStage params) INITIAL in
  let storeParams :=
    {| s_amount := x_amount params;
       s_fromAssetId := x_fromAssetId params;
       s_fromChainId := x_fromChainId params;
       s_reconcileDeposit := nullish (x_reconcileDeposit params) false;
       s_toAssetId := x_toAssetId params;
       s_toChainId := x_toChainId params;
       s_withdrawalAddress := x_withdrawalAddress params;
       s_error := false;
       s_preImage := None;
       s_withdrawalAmount := None |} in
  senderChannelRes ← await (GetStateChannelByParticipants routerPublicIdentifier
                              (x_fromChainId params));
  match senderChannelRes with
  | Result.fail e => mret (Rejects (ErrorObject e))
  | Result.ok senderChannel =>
  receiverChannelRes ← await (GetStateChannelByParticipants routerPublicIdentifier
                                (x_toChainId params));
  match receiverChannelRes with
  | Result.fail e => mret (Rejects (ErrorObject e))
  | Result.ok receiverChannel =>
  match senderChannel, receiverChannel with
  | None, _ => mret (Rejects (missingChannel (x_fromChainId params)))
  | Some _, None => mret (Rejects (missingChannel (x_toChainId params)))
  | Some senderChannel, Some receiverChannel =>
  crossChainTransferId0 ← match x_crossChainTransferId params with
                           | Some given => mret given
                           | None => await GetRandomBytes32
                           end;
  _ ← await (SaveCrossChainTransfer crossChainTransferId0 INITIAL storeParams);
  let updatedMeta := updatedMeta params crossChainTransferId0 in
  andThen (depositStage startStage params senderChannel crossChainTransferId0 storeParams
             updatedMeta) (fun _ =>
  preImage ← match x_preImage params with
              | Some given => mret given
              | None => await GetRandomBytes32
              end;
  match soliditySha256 preImage with
  | Throws exception => mret (Rejects (NewError exception))
  | Returns lockHash0 =>
  let storeParams := with_preImage storeParams preImage in
  andThen (transferStage startStage params senderChannel crossChainTransferId0 storeParams
             updatedMeta lockHash0) (fun _ =>
  andThen (resolveStage startStage params receiverChannel crossChainTransferId0 storeParams
             updatedMeta preImage)
    (fun '(receiverTransferData, withdrawalAmount0, storeParams) =>
  withdrawStage params receiverChannel crossChainTransferId0 storeParams
    receiverTransferData withdrawalAmount0))
  end)
  end end end.

(** [reclaimPendingCrossChainTransfer] *)
Definition reclaimPendingCrossChainTransfer (transferData : StoredCrossChainTransfer)
  : Task Answer :=
  crossChainTransfer
    {| x_amount := s_amount (stored transferData);
       x_fromChainId := s_fromChainId (stored transferData);
       x_fromAssetId := s_fromAssetId (stored transferData);
       x_toChainId := s_toChainId (stored transferData);
       x_toAssetId := s_toAssetId (stored transferData);
       x_reconcileDeposit := Some (s_reconcileDeposit (stored transferData));
       x_withdrawalAddress := s_withdrawalAddress (stored transferData);
       x_meta := None;
       x_crossChainTransferId := Some (crossChainTransferId transferData);
       x_startStage := Some (status transferData);
       x_preImage := s_preImage (stored transferData);
       x_withdrawalAmount := s_withdrawalAmount (stored transferData) |}.

(** The loop of [reclaimPendingCrossChainTransfers]. *)
Fixpoint reclaimEach (transfers : list StoredCrossChainTransfer) : Task unit :=
  match transfers with
  | [] => mret (Resolves tt)
  | transfer :: rest =>
      if s_error (stored transfer) then reclaimEach rest
      else andThen (reclaimPendingCrossChainTransfer transfer) (fun _ => reclaimEach rest)
  end.

Definition reclaimPendingCrossChainTransfers : Task unit :=
  transfers ← await GetCrossChainTransfers;
  reclaimEach transfers.

End BrowserNode.

End BrowserNode.

(** Views of the calls of [crossChainTransfer]. *)

Module BrowserNodeTrace.
Import BrowserNode.

(** The steps that move value. *)
Inductive Step : Type := DepositStep | TransferStep | ResolveStep | WithdrawStep.

(** The stage that was reached when a step is attempted. *)
Definition stageBefore (INITIAL DEPOSITED TRANSFER_1 TRANSFER_2 : Z) (step : Step) : Z :=
  match step with
  | DepositStep => INITIAL
  | TransferStep => DEPOSITED
  | ResolveStep => TRANSFER_1
  | WithdrawStep => TRANSFER_2
  end.

Definition failure {A : Type} (step : Step) (r : Result.t A VectorError)
  : option (Step * VectorError) :=
  match r with
  | Result.ok _ => None
  | Result.fail e => Some (step, e)
  end.

(** A step that failed, with the error of the node. *)
Definition failed_step (e : Event Call) : option (Step * VectorError) :=
  match e with
  | Ev c r =>
      match c in Call X return X -> option (Step * VectorError) with
      | ReconcileDeposit _ _ _ => failure DepositStep
      | ConditionalTransfer _ => failure TransferStep
      | ResolveTransfer _ => failure ResolveStep
      | Withdraw _ => failure WithdrawStep
      | _ => fun _ => None
      end r
  end.

(** The step attempted by a call. *)
Definition attempted_step (e : Event Call) : option Step :=
  match ev_call e with
  | ReconcileDeposit _ _ _ => Some DepositStep
  | ConditionalTransfer _ => Some TransferStep
  | ResolveTransfer _ => Some ResolveStep
  | Withdraw _ => Some WithdrawStep
  | _ => None
  end.

Definition saved (e : Event Call) : option (string * Z * CrossChainTransferParams) :=
  match ev_call e with
  | SaveCrossChainTransfer id0 status0 params => Some (id0, status0, params)
  | _ => None
  end.

Definition removed (e : Event Call) : option string :=
  match ev_call e with
  | RemoveCrossChainTransfer id0 => Some id0
  | _ => None
  end.

Definition is_remove (e : Event Call) : bool :=
  match ev_call e with RemoveCrossChainTransfer _ => true | _ => false end.

Definition transfer_sent (e : Event Call) : option HashlockTransferParams :=
  match ev_call e with
  | ConditionalTransfer params => Some params
  | _ => None
  end.

(** The channel and the routing id under which the receiver transfer is
    looked up in the store. *)
Definition looked_up (e : Event Call) : option (string * string) :=
  match ev_call e with
  | GetTransferByRoutingId channelAddress0 routingId0 => Some (channelAddress0, routingId0)
  | _ => None
  end.

(** The receiver transfer that the store already had. *)
Definition found (e : Event Call) : option ReceiverTransfer :=
  match e with
  | Ev c r =>
      match c in Call X return X -> option ReceiverTransfer with
      | GetTransferByRoutingId _ _ =>
          fun r => match r with Result.ok (Some t) => Some t | _ => None end
      | _ => fun _ => None
      end r
  end.

(** The stored transfers listed by [getCrossChainTransfers]. *)
Definition listed (e : Event Call) : option (list StoredCrossChainTransfer) :=
  match e with
  | Ev c r =>
      match c in Call X return X -> option (list StoredCrossChainTransfer) with
      | GetCrossChainTransfers => fun r => Some r
      | _ => fun _ => None
      end r
  end.

Definition resolves {A : Type} (r : Settled A) : bool :=
  match r with Resolves _ => true | Rejects _ => false end.

(** The transfer ids and routing ids named by a call. *)
Definition ids_of (e : Event Call) : list string :=
  match ev_call e with
  | SaveCrossChainTransfer id0 _ _ => [id0]
  | RemoveCrossChainTransfer id0 => [id0]
  | OnConditionalTransferCreated routingId0 _ => [routingId0]
  | GetTransferByRoutingId _ routingId0 => [routingId0]
  | ReceiverTransferCreated routingId0 _ => [routingId0]
  | _ => []
  end.

(** The meta sent along with a deposit, a transfer or a resolution. *)
Definition metas_of (e : Event Call) : list (gmap string Json) :=
  match ev_call e with
  | ReconcileDeposit _ _ meta => [meta]
  | ConditionalTransfer params => [h_meta params]
  | ResolveTransfer params => [r_meta params]
  | _ => []
  end.

(** A call that names no other id than [id0] and sends no other meta than
    [meta]. *)
Definition uses (id0 : string) (meta : gmap string Json) (e : Event Call) : Prop :=
  (forall i, In i (ids_of e) -> i = id0) /\
  (forall m, In m (metas_of e) -> m = meta).

(** A step is left out when its stage was reached before, or when it was
    not asked for. *)
Definition skips (DEPOSITED TRANSFER_1 TRANSFER_2 : Z) (startStage : Z) (params : Params)
    (step : Step) : Prop :=
  match step with
  | DepositStep =>
      DEPOSITED <= startStage \/ default false (x_reconcileDeposit params) = false
  | TransferStep => TRANSFER_1 <= startStage
  | ResolveStep => TRANSFER_2 <= startStage
  | WithdrawStep => truthy_opt_string (x_withdrawalAddress params) = false
  end.

(** Every failed step is reported: the run rejects with the error of the
    step, right after it saved the record, flagged as errored, at the stage
    reached before the step. *)
Definition marks_failure {A : Type} (stage : Step -> Z) (tr : list (Event Call))
    (r : Settled A) : Prop :=
  forall step e,
    In (Some (step, e)) (failed_step <$> tr) ->
    r = Rejects (ErrorObject e) /\
    exists id0 params,
      last tr = Some (Ev (SaveCrossChainTransfer id0 (stage step) params) tt) /\
      s_error params = true.

(** The record is removed by the last call of a run that resolves, and
    by no other call. *)
Definition removes_last {A : Type} (tr : list (Event Call)) (r : Settled A) : Prop :=
  (In true (is_remove <$> tr) <-> resolves r = true) /\
  Forall (fun e => is_remove e = false) (removelast tr).

End BrowserNodeTrace.

(** Scenarios for cross-chain transfers: a payment of 100 from chain 1 to
    chain 2 that is withdrawn on arrival. *)

Module BrowserNodeScenarios.
Import BrowserNode.

Definition channel_on (chainId : Z) (address : string) : FullChannelState :=
  {| channelAddress := address; alice := "0xROUTER"; bob := "0xUSER";
     aliceIdentifier := "vectorROUTER"; bobIdentifier := "vectorUSER";
     nonce := 4; merkleRoot := "0xROOT";
     networkContext := EngineApiScenarios.chain chainId;
     latestUpdate := EngineApiScenarios.a_setup_update |}.

Definition a_payment (startStage : option Z) : Params :=
  {| x_amount := "100";
     x_fromChainId := 1;
     x_fromAssetId := "0xTOKEN1";
     x_toChainId := 2;
     x_toAssetId := "0xTOKEN2";
     x_reconcileDeposit := Some true;
     x_withdrawalAddress := Some "0xDESTINATION";
     x_meta := None;
     x_crossChainTransferId := Some "0xCROSSCHAIN";
     x_startStage := startStage;
     x_preImage := Some "0xPREIMAGE";
     x_withdrawalAmount := None |}.

Definition received : ReceiverTransfer :=
  {| b_transferId := "0xRECEIVED"; amount0 := Some "99" |}.

(** What the node and the store answer in a scenario. *)
Record Script : Type := {
  transferReply : Result.t unit VectorError;
  lookupReply : Result.t (option ReceiverTransfer) VectorError
}.

Definition scripted (sc : Script) : Handler Call unit :=
  fun X c w =>
    match c in Call X return X * unit with
    | GetStateChannelByParticipants _ chainId =>
        (Result.ok (Some (channel_on chainId (if bool_decide (chainId = 1)
                                              then "0xCHANNEL1" else "0xCHANNEL2"))), tt)
    | GetRandomBytes32 => ("0xRANDOM", tt)
    | SaveCrossChainTransfer _ _ _ => (tt, tt)
    | ReconcileDeposit _ _ _ => (Result.ok tt, tt)
    | GetStateChannel address => (Result.ok (Some (channel_on 1 address)), tt)
    | ConditionalTransfer _ => (transferReply sc, tt)
    | OnConditionalTransferCreated _ _ => (tt, tt)
    | GetTransferByRoutingId _ _ => (lookupReply sc, tt)
    | ReceiverTransferCreated _ _ => (Some received, tt)
    | ResolveTransfer _ => (Result.ok tt, tt)
    | Withdraw _ => (Result.ok (Some "0xWITHDRAWAL"), tt)
    | RemoveCrossChainTransfer _ => (tt, tt)
    | GetCrossChainTransfers => ([], tt)
    end.

Definition router_unreachable : VectorError :=
  {| message := "Router unreachable"; context := ∅ |}.

(** The router does not take the transfer. *)
Definition refused : Script :=
  {| transferReply := Result.fail router_unreachable; lookupReply := Result.ok None |}.

(** The receiver transfer is in the store already. *)
Definition already_received : Script :=
  {| transferReply := Result.ok tt; lookupReply := Result.ok (Some received) |}.

(** The user's node: the stages are numbered from 0. *)
Definition user_transfers :=
  crossChainTransfer "vectorUSER" (Some "vectorROUTER") 0 1 2 3 "HashlockTransfer"
    (fun preImage => Returns (String.append "sha256:" preImage)).

(** The same node with a preimage that cannot be hashed. *)
Definition user_cannot_hash :=
  crossChainTransfer "vectorUSER" (Some "vectorROUTER") 0 1 2 3 "HashlockTransfer"
    (fun _ => Throws "incorrect data length").

End BrowserNodeScenarios.

(* ================================================================== *)
(** * Properties *)

(** ** Generic facts on runs *)

Lemma run_bind {E W A B} (h : Handler E W) (p : Prog E A) (f : A -> Prog E B) (w : W) :
  run h (bind p f) w =
  let '(a, t1, w1) := run h p w in
  let '(b, t2, w2) := run h (f a) w1 in
  (b, t1 ++ t2, w2).
Proof.
  revert w. induction p as [a|X e k IH]; intros w; simpl.
  - by destruct (run h (f a) w) as [[b t2] w2].
  - destruct (h X e w) as [x w1]. rewrite IH.
    destruct (run h (k x) w1) as [[a t1] w1'].
    by destruct (run h (f a) w1') as [[b t2] w2].
Qed.

(** Unfolds the monadic notation down to [Ret] and [Vis]. *)
Ltac prog_simpl :=
  repeat (unfold mbind, Prog_bind, mret, Prog_ret, await in *; cbn [bind run] in * ).

(** Names the reply of the handler to the next call of the run in the goal. *)
Ltac next_reply x w :=
  match goal with
  | |- context [?h ?X ?e ?w0] =>
      match type of h with Handler _ _ => destruct (h X e w0) as [x w] eqn:? end
  end.

(** Runs the program of the goal against [h]: names the reply to each call
    and splits on what the program inspects. *)
Ltac exec h :=
  repeat (prog_simpl;
          first
            [ match goal with
              | |- context [run _ (match ?x with _ => _ end) _] => destruct x eqn:?
              | |- context [run _ (bind (match ?x with _ => _ end) _) _] => destruct x eqn:?
              end
            | match goal with
              | |- context [h ?X ?e ?w0] => destruct (h X e w0) as [? ?] eqn:?
              end ]).

(** Membership in a trace that is given event by event. *)
Ltac in_trace := simpl; repeat (first [left; reflexivity | right]).

(** Splits a membership hypothesis over such a trace. *)
Ltac split_in H := simpl in H; repeat destruct H as [H|H]; try discriminate; try done.

Module ConfigProps.
Import Config.

Lemma matches_spec chainId0 assetId0 p :
  matches chainId0 assetId0 p = true <-> assetId p = assetId0 /\ chainId p = chainId0.
Proof.
  unfold matches. rewrite andb_true_iff, !bool_decide_eq_true. tauto.
Qed.

Lemma find_first_match profiles chainId0 assetId0 p :
  List.find (matches chainId0 assetId0) profiles = Some p <->
  first_match profiles chainId0 assetId0 p.
Proof.
  induction profiles as [|q l IH]; simpl.
  - split; [discriminate|]. intros (b & a & H & _). by destruct b.
  - destruct (matches chainId0 assetId0 q) eqn:Hq.
    + apply matches_spec in Hq. split.
      * intros [= <-]. exists [], l. split; [done|]. by destruct Hq.
      * intros (b & a & H & Ha & Hc & Hb). destruct b as [|q' b]; simpl in H.
        -- by inversion H.
        -- inversion H; subst q'. apply Forall_cons in Hb as [Hn _]. tauto.
    + assert (~ (assetId q = assetId0 /\ chainId q = chainId0)) as Hn.
      { rewrite <- matches_spec, Hq. discriminate. }
      rewrite IH. split.
      * intros (b & a & -> & Ha & Hc & Hb). exists (q :: b), a.
        split; [done|]. split; [done|]. split; [done|]. by constructor.
      * intros (b & a & H & Ha & Hc & Hb). destruct b as [|q' b]; simpl in H.
        -- inversion H; subst q. tauto.
        -- inversion H; subst. apply Forall_cons in Hb as [_ Hb]. by exists b, a.
Qed.

Lemma find_none_no_match profiles chainId0 assetId0 :
  List.find (matches chainId0 assetId0) profiles = None <->
  Forall (fun q => ~ (assetId q = assetId0 /\ chainId q = chainId0)) profiles.
Proof.
  induction profiles as [|q l IH]; simpl.
  - split; [constructor|done].
  - destruct (matches chainId0 assetId0 q) eqn:Hq.
    + apply matches_spec in Hq. split; [discriminate|].
      intros [Hn _]%Forall_cons. tauto.
    + rewrite IH. split.
      * intros Hl. constructor; [|done]. rewrite <- matches_spec, Hq. discriminate.
      * by intros [_ Hl]%Forall_cons.
Qed.

(** C10. [getRebalanceProfile chainId assetId] returns a profile exactly when
    that profile is the first configured one whose [assetId] and [chainId]
    both match; it fails exactly when no configured profile matches, and the
    failure is then [UnableToGetRebalanceProfile] with the context
    [{chainId, assetId}] and nothing else. *)
Theorem getRebalanceProfile_first_match_or_fail
    (profiles : list RebalanceProfile) (reason : string) (chainId0 : Z) (assetId0 : string) :
  (forall p, getRebalanceProfile profiles reason chainId0 assetId0 = Result.ok p <->
             first_match profiles chainId0 assetId0 p) /\
  (Result.isError (getRebalanceProfile profiles reason chainId0 assetId0) = true <->
   Forall (fun q => ~ (assetId q = assetId0 /\ chainId q = chainId0)) profiles) /\
  (forall e, getRebalanceProfile profiles reason chainId0 assetId0 = Result.fail e ->
             message e = reason /\
             context e !! "chainId" = Some (CNum chainId0) /\
             context e !! "assetId" = Some (CStr assetId0) /\
             dom (context e) = {["chainId"; "assetId"]}).
Proof.
  unfold getRebalanceProfile. split; [|split].
  - intros p. rewrite <- find_first_match.
    destruct (List.find _ _); split; congruence.
  - rewrite <- find_none_no_match. destruct (List.find _ _); simpl; split; congruence.
  - intros e. destruct (List.find _ _); [discriminate|]. intros [= <-]. simpl.
    split; [done|]. split; [done|]. split; [done|].
    rewrite !dom_insert_L, dom_empty_L. set_solver.
Qed.

(** Of two profiles for the same asset and chain, the first one is returned. *)
Example getRebalanceProfile_takes_the_first :
  let profile t := {| chainId := 1; assetId := "0xTOKEN"; reclaimThreshold := "200";
                      target := t; collateralizeThreshold := "50" |} in
  getRebalanceProfile [profile "100"; profile "150"] "Rebalance profile not found" 1 "0xTOKEN"
    = Result.ok (profile "100") /\
  Result.isError
    (getRebalanceProfile [profile "100"; profile "150"] "Rebalance profile not found" 1 "0xOTHER")
    = true.
Proof. split; reflexivity. Qed.

End ConfigProps.

Module ProtocolProps.
Import Protocol.

(** C2 (amended for the unknown channel).  In every run of [executeUpdate],
    whatever the store, the lock service and the counterparty answer:
    a setup goes straight to the lock, with this node as Alice; a deposit, a
    creation and a resolution first read the channel from the store, and
    what follows depends on that reply alone.  If the store has no channel,
    nothing else is done: the lock is not acquired, the exchange does not
    begin, and the call fails with [ChannelNotFound].  Otherwise the lock
    named by the channel address is acquired, with the flag that says whether
    this node is Alice and with the identifier of the counterparty; right
    after that the outbound exchange is run; after it has returned (and, on
    success, the update event was posted) the lock is released with the key
    that was acquired, the same flag and counterparty, as the last step, be
    the result [r] of the exchange a success or a failure; the result of the
    exchange is what is returned. *)
Theorem executeUpdate_holds_lock_around_exchange {W} (h : Handler Call W) (w : W)
    (publicIdentifier ChannelNotFound : string) (params : UpdateParams) :
  let tr := trace h (executeUpdate publicIdentifier ChannelNotFound params) w in
  let res := returned h (executeUpdate publicIdentifier ChannelNotFound params) w in
  let locked (aliceIdentifier0 bobIdentifier0 : string) (steps : list (Event Call)) :=
    let isAlice := bool_decide (publicIdentifier = aliceIdentifier0) in
    let counterparty := if isAlice then bobIdentifier0 else aliceIdentifier0 in
    exists key r,
      steps = Ev (AcquireLock (p_channelAddress params) isAlice counterparty) key
              :: Ev (SyncOutbound params) r
              :: match r with
                 | Result.ok v =>
                     [Ev (PostChannelUpdateEvent
                            {| updatedChannelState := updatedChannel v;
                               e_updatedTransfers := updatedTransfers v;
                               e_updatedTransfer := updatedTransfer v |}) tt]
                 | Result.fail _ => []
                 end
              ++ [Ev (ReleaseLock (p_channelAddress params) key isAlice counterparty) tt] /\
      res = match r with
            | Result.ok v => Result.ok (updatedChannel v)
            | Result.fail e => Result.fail e
            end in
  match details params with
  | SetupDetails counterpartyIdentifier _ _ => locked publicIdentifier counterpartyIdentifier tr
  | _ =>
      exists channel steps,
        tr = Ev (StoreGetChannelState (p_channelAddress params)) channel :: steps /\
        match channel with
        | Some channel => locked (aliceIdentifier channel) (bobIdentifier channel) steps
        | None =>
            steps = [] /\
            res = Result.fail {| o_message := ChannelNotFound; o_params := params;
                                 o_context := ∅ |}
        end
  end.
Proof.
  intros tr res locked. subst tr res locked.
  unfold executeUpdate, lockedOperation, trace, returned.
  destruct (details params) as [cp t nc|a0|c0|r0] eqn:Hd; prog_simpl.
  1: next_reply key w1; next_reply r w2; destruct r as [v|e]; prog_simpl.
  1: next_reply u w3; next_reply u' w4; destruct u, u'; by eexists key, (Result.ok v).
  1: next_reply u' w4; destruct u'; by eexists key, (Result.fail e).
  all: next_reply ch w1; exists ch; destruct ch as [ch|]; prog_simpl; [|by eexists].
  all: next_reply key w2; next_reply r w3; destruct r as [v|e]; prog_simpl.
  all: try (next_reply u w4; next_reply u' w5; destruct u, u'; eexists; split; [reflexivity|];
            by eexists key, (Result.ok v)).
  all: next_reply u' w5; destruct u'; eexists; split; [reflexivity|];
       by eexists key, (Result.fail e).
Qed.

(** C2, as the specification words it, fails for a deposit into a channel that the
    store does not hold: the store is read, the update is refused with
    [ChannelNotFound], and the lock was never acquired. *)
Lemma executeUpdate_unknown_channel_never_locks :
  let params := {| p_channelAddress := "0xCHANNEL"; details := DepositDetails "0xTOKEN" |} in
  let refusal := {| o_message := "refused"; o_params := params; o_context := ∅ |} in
  let run0 := run (peers None (Result.fail refusal))
                (executeUpdate "vectorALICE" "Channel not found" params) tt in
  type params = deposit /\
  run0.1.2 = [Ev (StoreGetChannelState "0xCHANNEL") None] /\
  ~ (exists e, In e run0.1.2 /\ is_acquire e = true) /\
  run0.1.1 = Result.fail {| o_message := "Channel not found"; o_params := params;
                            o_context := ∅ |}.
Proof.
  cbv zeta. split; [reflexivity|]. split; [reflexivity|]. split; [|reflexivity].
  intros (e & Hin & Hacq). simpl in Hin. destruct Hin as [<-|[]]. discriminate Hacq.
Qed.

(** A deposit that the counterparty refuses still releases the lock. *)
Example refused_deposit_releases_lock (e : OutboundChannelUpdateError) :
  let channel := EngineScenarios.a_channel create 5 in
  let params := {| p_channelAddress := "0xCHANNEL"; details := DepositDetails "0xTOKEN" |} in
  run (peers (Some channel) (Result.fail e)) (executeUpdate "vectorALICE" "not found" params) tt
  = (Result.fail e,
     [ Ev (StoreGetChannelState "0xCHANNEL") (Some channel);
       Ev (AcquireLock "0xCHANNEL" true "vectorBOB") "key";
       Ev (SyncOutbound params) (Result.fail e);
       Ev (ReleaseLock "0xCHANNEL" "key" true "vectorBOB") tt ],
     tt).
Proof. reflexivity. Qed.

End ProtocolProps.

Module EngineProps.
Import Engine.

Lemma depositRetries_calls {W} (h : Handler Call W) out inb params :
  forall iterations r0 w,
  exists more,
    trace h (depositRetries out inb iterations params r0) w
      = map (fun r => Ev (VectorDeposit params) r) more /\
    (length more <= length iterations)%nat /\
    Some (returned h (depositRetries out inb iterations params r0) w) = last (r0 :: more) /\
    (forall i r, (i + 1 < length (r0 :: more))%nat -> (r0 :: more) !! i = Some r -> retried out inb r) /\
    ((length more < length iterations)%nat ->
     ~ retried out inb (returned h (depositRetries out inb iterations params r0) w)).
Proof.
  unfold retried. induction iterations as [|z rest IH]; intros r0 w.
  - exists []. unfold trace, returned. simpl. split; [done|]. split; [done|]. split; [done|].
    split; [|lia]. intros i r Hi. simpl in Hi. lia.
  - unfold trace, returned in *. simpl. destruct r0 as [v|error].
    + exists []. simpl. split; [done|]. split; [lia|]. split; [done|].
      split; [intros i r Hi; simpl in Hi; lia|].
      intros _ (e & H & _). discriminate.
    + destruct (recoveryFailed out inb error) eqn:Hrec; simpl.
      * prog_simpl. next_reply r1 w1.
        destruct (IH r1 w1) as (more & Htr & Hlen & Hret & Hall & Hstop).
        destruct (run h (depositRetries out inb rest params r1) w1) as [[res tr] w2].
        simpl in *. subst tr. exists (r1 :: more). simpl.
        split; [done|]. split; [lia|]. split; [done|]. split.
        -- intros [|i] r Hi Hr; simpl in Hr.
           ++ inversion Hr; subst r. by exists error.
           ++ apply (Hall i r); [lia|done].
        -- intros Hlt. apply Hstop. lia.
      * exists []. simpl. split; [done|]. split; [lia|]. split; [done|].
        split; [intros i r Hi; simpl in Hi; lia|].
        intros _ (e & [= <-] & H). congruence.
Qed.

(** The test of the loop is the classification of the specification. *)
Lemma retried_classified out inb r :
  retried out inb r <-> classified_BadSignatures out inb r.
Proof.
  unfold retried, classified_BadSignatures, recoveryFailed, ctx_is_string.
  split; intros (error & -> & H); exists error; (split; [done|]).
  - apply orb_true_iff in H as [H|H]; [left; by apply bool_decide_eq_true in H|right].
    destruct (context error !! "counterpartyError") as [[]|]; try discriminate.
    by apply bool_decide_eq_true in H as ->.
  - apply orb_true_iff. destruct H as [H|H]; [left; by apply bool_decide_eq_true|right].
    rewrite H. by apply bool_decide_eq_true.
Qed.

(** C3. A [deposit] whose parameters pass the schema calls the protocol
    deposit between one and four times, always with the same parameters: one
    first attempt and at most three retries.  A reply is a [BadSignatures]
    failure when it is a failure whose message is the outbound
    [BadSignatures] reason or whose context holds the inbound one as
    [counterpartyError].  Each of the first three replies that is such a
    failure is followed by another attempt; every attempt but the last one
    was answered by such a failure, so a success or a failure of any other
    kind is never followed by a retry; the value returned is the reply to
    the last attempt; and when fewer than three retries were made, that last
    reply is not a [BadSignatures] failure.  Parameters that fail the schema
    are rejected without any attempt. *)
Theorem deposit_retries_bad_signatures_thrice {W} (h : Handler Call W) (w : W)
    (out inb : string) (validateDeposit : DepositParams -> option string)
    (params : DepositParams) :
  let tr := trace h (deposit out inb validateDeposit params) w in
  let res := returned h (deposit out inb validateDeposit params) w in
  let BadSignatures := classified_BadSignatures out inb in
  match validateDeposit params with
  | Some errors => tr = [] /\ res = Result.fail (plainError errors)
  | None =>
      exists replies,
        tr = map (fun r => Ev (VectorDeposit params) r) replies /\
        (1 <= length replies <= 4)%nat /\
        Some res = last replies /\
        (forall i r, replies !! i = Some r -> BadSignatures r -> (i < 3)%nat ->
                     (i + 1 < length replies)%nat) /\
        (forall i r, (i + 1 < length replies)%nat -> replies !! i = Some r -> BadSignatures r) /\
        ((length replies < 4)%nat -> ~ BadSignatures res)
  end.
Proof.
  intros tr res BadSignatures. subst tr res BadSignatures. unfold deposit.
  destruct (validateDeposit params) as [errors|]; [done|].
  unfold trace, returned. prog_simpl. next_reply r0 w1.
  destruct (depositRetries_calls h out inb params (replicate 3 0) r0 w1)
    as (more & Htr & Hlen & Hret & Hall & Hstop).
  unfold trace, returned in *.
  destruct (run h (depositRetries out inb (replicate 3 0) params r0) w1) as [[res tr] w2].
  simpl in *. subst tr. exists (r0 :: more). simpl.
  assert (Hlast : (length more < 3)%nat -> ~ classified_BadSignatures out inb res).
  { intros Hlt Hbad. apply Hstop; [lia|]. by apply retried_classified. }
  split; [done|]. split; [lia|]. split; [done|]. split; [|split].
  - intros i r Hr Hbad Hi.
    destruct (decide (i + 1 < S (length more))%nat) as [|Hge]; [done|]. exfalso.
    assert (Hi' : i = length more).
    { apply lookup_lt_Some in Hr. simpl in Hr. lia. }
    subst i. apply Hlast; [lia|].
    rewrite last_lookup in Hret. simpl in Hret. rewrite Hr in Hret. by inversion Hret.
  - intros i r Hi Hr. apply retried_classified. by apply (Hall i r).
  - intros Hlt. apply Hlast. lia.
Qed.

Import EngineScenarios.

(** As long as the signatures do not recover, the deposit is attempted four
    times: once, and three retries. *)
Example deposit_gives_up_after_three_retries :
  let h := collaborators (payload_of (a_channel create 2)) None (Result.fail bad_signatures) in
  run h (deposit "BadSignatures" "BadSignatures" (fun _ => None) a_deposit) tt
  = (Result.fail bad_signatures,
     [ Ev (VectorDeposit a_deposit) (Result.fail bad_signatures);
       Ev (VectorDeposit a_deposit) (Result.fail bad_signatures);
       Ev (VectorDeposit a_deposit) (Result.fail bad_signatures);
       Ev (VectorDeposit a_deposit) (Result.fail bad_signatures) ],
     tt).
Proof. reflexivity. Qed.

(** A failure that carries the inbound [BadSignatures] reason of the
    counterparty in its context is retried as well, whatever its message. *)
Example deposit_retries_counterparty_bad_signatures :
  let failure := {| message := "Counterparty failure";
                    context := <["counterpartyError" := CStr "InboundBadSignatures"]> ∅ |} in
  let h := collaborators (payload_of (a_channel create 2)) None (Result.fail failure) in
  run h (deposit "BadSignatures" "InboundBadSignatures" (fun _ => None) a_deposit) tt
  = (Result.fail failure,
     [ Ev (VectorDeposit a_deposit) (Result.fail failure);
       Ev (VectorDeposit a_deposit) (Result.fail failure);
       Ev (VectorDeposit a_deposit) (Result.fail failure);
       Ev (VectorDeposit a_deposit) (Result.fail failure) ],
     tt).
Proof. reflexivity. Qed.

(** Another failure is returned at once. *)
Example deposit_does_not_retry_other_failures :
  let failure := {| message := "Channel not found"; context := ∅ |} in
  let h := collaborators (payload_of (a_channel create 2)) None (Result.fail failure) in
  run h (deposit "BadSignatures" "BadSignatures" (fun _ => None) a_deposit) tt
  = (Result.fail failure, [ Ev (VectorDeposit a_deposit) (Result.fail failure) ], tt).
Proof. reflexivity. Qed.

End EngineProps.

Module RestoreProps.
Import Engine.

Section RestoreState.

Context {W : Type} (h : Handler Call W).
Variables signerAddress signerPublicIdentifier : string.
Variable validateRestoreState : RestoreStateParams -> option string.
Variable validateGetChannelState : string -> option string.
Variable generateMerkleTreeRoot : list FullTransferState -> string.
Variable getSignerAddressFromPublicIdentifier : string -> string.

Local Abbreviation restore :=
  (restoreState signerAddress signerPublicIdentifier validateRestoreState
     validateGetChannelState generateMerkleTreeRoot getSignerAddressFromPublicIdentifier).
Local Abbreviation checked :=
  (verified signerAddress generateMerkleTreeRoot getSignerAddressFromPublicIdentifier
     nonce_beyond_sync_or_setup).

Ltac start_restore :=
  unfold restoreState, sendResponseToCounterparty, getChannelState, restoreRequest, trace, returned;
  exec h; simpl.

Lemma nonce_check_passed (channel : FullChannelState) (existing : option FullChannelState) :
  (nonce channel - nullish (nonce <$> existing) 0 <=? 1)
    && negb (bool_decide (u_type (latestUpdate channel) = setup)) = false ->
  nonce_beyond_sync_or_setup channel existing.
Proof.
  intros [H|H]%andb_false_iff.
  - left. unfold nonce_beyond_sync. apply Z.leb_gt in H. lia.
  - right. by apply negb_false_iff, bool_decide_eq_true in H.
Qed.

Lemma restore_saves_verified (w : W) (params : RestoreStateParams) :
  forall channel ts,
    In (Some (channel, ts)) (saved_state <$> trace h (restore params) w) ->
    checked (trace h (restore params) w) params channel ts.
Proof.
  start_restore.
  all: intros channel ts Hin; repeat destruct Hin as [Hin|Hin]; try discriminate; try done.
  all: inversion Hin; subst; clear Hin.
  all: repeat match goal with
         | H : negb (bool_decide _) = false |- _ =>
             apply negb_false_iff, bool_decide_eq_true in H
         | u : unit |- _ => destruct u
         end.
  all: subst; split; [in_trace | in_trace | done |].
  all: eexists; split; [in_trace | by apply nonce_check_passed].
Qed.

Lemma restore_event_after_save (w : W) (params : RestoreStateParams) :
  forall payload,
    In (Some payload) (restore_event <$> trace h (restore params) w) ->
    exists channel ts,
      In (Ev (StoreSaveChannelStateAndTransfers channel ts) None) (trace h (restore params) w) /\
      payload = {| rs_channelAddress := channelAddress channel;
                   rs_aliceIdentifier := aliceIdentifier channel;
                   rs_bobIdentifier := bobIdentifier channel;
                   rs_chainId := chainId params |}.
Proof.
  start_restore.
  all: intros payload Hin; repeat destruct Hin as [Hin|Hin]; try discriminate; try done.
  all: inversion Hin; subst; clear Hin.
  all: eexists _, _; split; [in_trace | done].
Qed.

Lemma restore_rejects_unverified (w : W) (params : RestoreStateParams) :
  forall value channel,
    validateRestoreState params = None ->
    (h _ (restoreRequest signerPublicIdentifier params) w).1 = Result.ok value ->
    value ≫= rd_channel = Some channel ->
    ~ (exists ts, value ≫= rd_activeTransfers = Some ts /\
                  checked (trace h (restore params) w) params channel ts) ->
    exists err reply,
      last (trace h (restore params) w)
        = Some (Ev (SendRestoreStateMessage (Result.fail err)
                      (counterpartyIdentifier params) signerPublicIdentifier) reply) /\
      returned h (restore params) w = Returns (Result.fail (RestoreFailed err)) /\
      Forall (fun e => saved_state e = None /\ restore_event e = None)
        (trace h (restore params) w).
Proof.
  start_restore.
  all: intros value channel Hvalid Hreply Hchannel Hunverified; simplify_eq/=.
  all: try (eexists _, _; split; [reflexivity|]; split; [reflexivity|]; by repeat constructor).
  all: exfalso; apply Hunverified; eexists; split; [done|].
  all: repeat match goal with
         | H : negb (bool_decide _) = false |- _ =>
             apply negb_false_iff, bool_decide_eq_true in H
         | u : unit |- _ => destruct u
         end.
  all: subst; split; [in_trace | in_trace | done |].
  all: eexists; split; [in_trace | by apply nonce_check_passed].
Qed.

(** C1 (amended in (iv)).  In every run of [restoreState], whatever the
    counterparty, the chain service, the signature check and the store
    answer:
    - a channel and its transfers are handed to [saveChannelStateAndTransfers]
      only when they passed all verifications in that run: (i) the chain
      service derived the received [channelAddress] from the two
      participants, (ii) both signatures of [latestUpdate] verified, (iii) the
      merkle root of the received transfers is [channel.merkleRoot], and (iv)
      the restored nonce exceeds the local nonce (0 for a channel not in the
      store) by more than one or the latest update of the restored channel is
      its [setup];
    - [RESTORE_STATE_EVENT] is posted only after a save that succeeded;
    - when the counterparty sent a channel and some verification did not
      pass, the last thing the run does is to send the counterparty an error,
      that error is returned as a failure, and nothing is saved or posted. *)
Theorem restoreState_saves_only_verified_state (w : W) (params : RestoreStateParams) :
  let tr := trace h (restore params) w in
  (forall channel ts, In (Some (channel, ts)) (saved_state <$> tr) ->
                      checked tr params channel ts) /\
  (forall payload, In (Some payload) (restore_event <$> tr) ->
     exists channel ts,
       In (Ev (StoreSaveChannelStateAndTransfers channel ts) None) tr /\
       payload = {| rs_channelAddress := channelAddress channel;
                    rs_aliceIdentifier := aliceIdentifier channel;
                    rs_bobIdentifier := bobIdentifier channel;
                    rs_chainId := chainId params |}) /\
  (forall value channel,
     validateRestoreState params = None ->
     (h _ (restoreRequest signerPublicIdentifier params) w).1 = Result.ok value ->
     value ≫= rd_channel = Some channel ->
     ~ (exists ts, value ≫= rd_activeTransfers = Some ts /\ checked tr params channel ts) ->
     exists err reply,
       last tr = Some (Ev (SendRestoreStateMessage (Result.fail err)
                             (counterpartyIdentifier params) signerPublicIdentifier) reply) /\
       returned h (restore params) w = Returns (Result.fail (RestoreFailed err)) /\
       Forall (fun e => saved_state e = None /\ restore_event e = None) tr).
Proof.
  intros tr. split; [|split].
  - apply restore_saves_verified.
  - apply restore_event_after_save.
  - apply restore_rejects_unverified.
Qed.

End RestoreState.

Import EngineScenarios.

(** C1, as the specification words (iv), fails: Alice sends Bob a channel at nonce 1
    whose latest update is its setup, and Bob has no such channel (local
    nonce 0).  The restored nonce exceeds the local one by exactly one, yet
    the state is saved, the event is posted and the call succeeds. *)
Lemma restoreState_accepts_setup_one_ahead :
  let channel := a_channel setup 1 in
  let h := collaborators (payload_of channel) None (Result.ok channel) in
  let tr := trace h (bob_restores "0xEMPTYROOT" bob_params) tt in
  returned h (bob_restores "0xEMPTYROOT" bob_params) tt = Returns (Result.ok channel) /\
  In (Some (channel, [])) (saved_state <$> tr) /\
  In (Some {| rs_channelAddress := "0xCHANNEL"; rs_aliceIdentifier := "vectorALICE";
              rs_bobIdentifier := "vectorBOB"; rs_chainId := 1337 |}) (restore_event <$> tr) /\
  ~ verified "0xBOB" (fun _ => "0xEMPTYROOT") (fun _ => "0xALICE") nonce_beyond_sync
      tr bob_params channel [].
Proof.
  cbv zeta. split; [reflexivity|]. split; [vm_compute; tauto|]. split; [vm_compute; tauto|].
  intros [_ _ _ (existing & Hin & Hnonce)].
  unfold nonce_beyond_sync in Hnonce.
  repeat destruct Hin as [Hin|Hin]; try discriminate; try done.
  inversion Hin; subst. simpl in Hnonce. lia.
Qed.

(** The theorem at work on two runs: a channel at nonce 12 is saved after it
    passed the verifications, and a payload whose transfers do not hash to
    the merkle root of the channel is answered with an error. *)
Lemma restoreState_saves_only_verified_state_witness :
  (let channel := a_channel create 12 in
   let h := collaborators (payload_of channel) None (Result.ok channel) in
   verified "0xBOB" (fun _ => "0xEMPTYROOT") (fun _ => "0xALICE") nonce_beyond_sync_or_setup
     (trace h (bob_restores "0xEMPTYROOT" bob_params) tt) bob_params channel []) /\
  (let channel := a_channel create 12 in
   let h := collaborators (payload_of channel) None (Result.ok channel) in
   exists err reply,
     last (trace h (bob_restores "0xOTHERROOT" bob_params) tt)
       = Some (Ev (SendRestoreStateMessage (Result.fail err) "vectorALICE" "vectorBOB") reply) /\
     returned h (bob_restores "0xOTHERROOT" bob_params) tt = Returns (Result.fail (RestoreFailed err)) /\
     Forall (fun e => saved_state e = None /\ restore_event e = None)
       (trace h (bob_restores "0xOTHERROOT" bob_params) tt)).
Proof.
  split.
  - cbv zeta.
    apply (restoreState_saves_only_verified_state
             (collaborators (payload_of (a_channel create 12)) None (Result.ok (a_channel create 12)))
             "0xBOB" "vectorBOB" (fun _ => None) (fun _ => None)
             (fun _ => "0xEMPTYROOT") (fun _ => "0xALICE") tt bob_params).
    vm_compute. tauto.
  - cbv zeta.
    eapply (restoreState_saves_only_verified_state
              (collaborators (payload_of (a_channel create 12)) None (Result.ok (a_channel create 12)))
              "0xBOB" "vectorBOB" (fun _ => None) (fun _ => None)
              (fun _ => "0xOTHERROOT") (fun _ => "0xALICE") tt bob_params).
    + reflexivity.
    + reflexivity.
    + reflexivity.
    + intros (ts & Hts & [_ _ Hroot _]). simpl in Hroot. discriminate.
Defined.

End RestoreProps.

Module ForwardingProps.
Import Router Transfer RouterTrace.

Section Creation.

Context {W : Type} (h : Handler Call W).
Variable routerPublicIdentifier : string.
Variable TRANSFER_DECREMENT : Z.
Variable reasons : ForwardTransferErrorReasons.
Variable getSwappedAmount : option Z -> string -> Z -> string -> Z -> Result.t Z VectorError.

Local Abbreviation forward :=
  (forwardTransferCreation routerPublicIdentifier TRANSFER_DECREMENT reasons getSwappedAmount).

Ltac start_forward :=
  unfold forwardTransferCreation, cancelSenderTransferAndReturnError,
    attemptTransferWithCollateralization_call, trace, returned;
  exec h; simpl.

(** C7. When the meta of the incoming transfer has no [routingId], no [path]
    (or an empty one), or no [recipient] in [path[0]], [forwardTransferCreation]
    fails with [InvalidForwardingInfo] (context: the meta, the sender
    transfer and the sender channel) and awaits nothing: the trace is empty,
    so no cancellation of the sender transfer is submitted or enqueued, and
    the collaborators are left as they were.  This holds whatever the
    transfer service would do. *)
Theorem forwardTransferCreation_rejects_missing_routing_info
    (attempt : TransferParams -> FullChannelState -> string -> bool ->
               Prog Call (Result.t (option NodeResponse) VectorError))
    (w : W) (data : ConditionalTransferCreatedPayload) :
  let meta := default noMeta (t_meta (c_transfer data)) in
  routingId meta = None \/ path meta ≫= head = None \/
    (path meta ≫= head) ≫= recipient = None ->
  run h (forward attempt data) w =
    (Result.fail (ForwardTransferError (InvalidForwardingInfo reasons)
       (<["senderChannel" := CStr (t_channelAddress (c_transfer data))]>
          (<["senderTransfer" := CStr (transferId (c_transfer data))]>
             (<["meta" := CMeta meta]> ∅)))),
     [], w).
Proof.
  intros meta Hmissing. subst meta. unfold forwardTransferCreation.
  destruct (routingId _) as [rid|]; [|done].
  destruct (path _ ≫= head) as [p|]; [|done]. simpl in *.
  destruct (recipient p) as [rcp|]; [|done].
  exfalso. by destruct Hmissing as [?|[?|?]].
Qed.


Lemma swap_not_required (a b : string) (c d : Z) :
  negb (bool_decide (a = b)) || negb (bool_decide (c = d)) = false -> a = b /\ c = d.
Proof.
  intros [Ha Hc]%orb_false_iff.
  apply negb_false_iff, bool_decide_eq_true in Ha, Hc. done.
Qed.

Lemma swap_required (a b : string) (c d : Z) :
  negb (bool_decide (a = b)) || negb (bool_decide (c = d)) = true -> a <> b \/ c <> d.
Proof.
  intros [H|H]%orb_true_iff; apply negb_true_iff, bool_decide_eq_false in H; tauto.
Qed.

(** C4 (amended in the meta).  Whenever [forwardTransferCreation] hands a
    transfer to [attemptTransferWithCollateralization], the sender channel
    was read before and the parameters handed over are: as [details] the
    created transfer state without its [balance]; as [timeout] the sender's
    [transferTimeout] minus [TRANSFER_DECREMENT]; as [assetId] the asset of
    [path[0]], by default the sender's; as [amount] the sender amount, or the
    swapped amount when asset or chain differ; the recipient channel, the
    condition type and the router as [publicIdentifier]; and as [meta] the
    sender meta, field by field, where [senderIdentifier] is what the
    sender meta holds under that key if it has the key (be it [undefined] or
    [null]), and otherwise the identifier that the initiator has in the
    sender channel. *)
Theorem forwardTransferCreation_outgoing_params
    (w : W) (data : ConditionalTransferCreatedPayload) :
  let transfer := c_transfer data in
  let meta := default noMeta (t_meta transfer) in
  let tr := trace h (forward attemptTransferWithCollateralization_call data) w in
  forall params recipientChannel requireOnline0,
    In (Some (params, recipientChannel, requireOnline0)) (attempted <$> tr) ->
    exists senderChannel path1,
      In (Some senderChannel) (sender_channel <$> tr) /\
      path meta ≫= head = Some path1 /\
      let senderChainId := nc_chainId (networkContext senderChannel) in
      let recipientAssetId0 := nullish (recipientAssetId path1) (t_assetId transfer) in
      let recipientChainId0 := nullish (recipientChainId path1) senderChainId in
      tp_details params = delete "balance" (transferState transfer) /\
      tp_timeout params = transferTimeout transfer - TRANSFER_DECREMENT /\
      tp_assetId params = recipientAssetId0 /\
      ((recipientAssetId0 = t_assetId transfer /\ recipientChainId0 = senderChainId /\
        tp_amount params = head (amount (t_balance transfer)))
       \/
       ((recipientAssetId0 <> t_assetId transfer \/ recipientChainId0 <> senderChainId) /\
        exists swapped,
          getSwappedAmount (head (amount (t_balance transfer))) (t_assetId transfer)
            senderChainId recipientAssetId0 recipientChainId0 = Result.ok swapped /\
          tp_amount params = Some swapped)) /\
      tp_channelAddress params = channelAddress recipientChannel /\
      tp_type params = conditionType data /\
      tp_publicIdentifier params = routerPublicIdentifier /\
      requireOnline0 = nullish (requireOnline meta) false /\
      routingId (tp_meta params) = routingId meta /\
      path (tp_meta params) = path meta /\
      requireOnline (tp_meta params) = requireOnline meta /\
      otherFields (tp_meta params) = otherFields meta /\
      senderIdentifier (tp_meta params)
        = Some (default (Some (JStr (if bool_decide (initiator transfer = bob senderChannel)
                                     then bobIdentifier senderChannel
                                     else aliceIdentifier senderChannel)))
                        (senderIdentifier meta)).
Proof.
  start_forward.
  all: intros params recipientChannel requireOnline0 Hin; split_in Hin.
  all: inversion Hin; subst; clear Hin.
  all: eexists _, _; (split; [in_trace|]); (split; [reflexivity|]); simpl.
  all: repeat (split; [try reflexivity; try congruence|]).
  all: try by destruct (senderIdentifier _).
  all: match goal with
       | H : negb _ || negb _ = true |- _ =>
           right; split; [by apply swap_required|]; by eexists
       | H : negb _ || negb _ = false |- _ =>
           left; by apply swap_not_required in H as [? ?]
       end.
Qed.

End Creation.

Section Resolution.

Context {W : Type} (h : Handler Call W).
Variable routerPublicIdentifier : string.
Variable routerSignerAddress : string.
Variable reasons : ForwardResolutionErrorReasons.

(** C8. For a resolved transfer that carries a meta, [forwardTransferResolution]
    first asks the node for the transfers with the [routingId] of that meta.
    If the lookup fails, or if none of the transfers has the router's signer
    address as [responder], it fails with [IncomingChannelNotFound] and does
    nothing else.  Otherwise it takes the first transfer whose [responder] is
    the router's signer address and submits one resolve of that transfer, in
    the channel of that transfer, with the [transferResolver] of the resolved
    transfer; a success is returned as it is; after a failure it enqueues a
    [TRANSFER_RESOLUTION] update that holds the same resolve parameters and
    returns [ErrorResolvingTransfer].  No run ever calls
    [cancelCreatedTransfer]. *)
Theorem forwardTransferResolution_resolves_sender_side
    (w : W) (data : ConditionalTransferResolvedPayload) (meta : RouterMeta) :
  let p := forwardTransferResolution routerPublicIdentifier routerSignerAddress reasons data in
  let tr := trace h p w in
  let res := returned h p w in
  t_meta (r_transfer data) = Some meta ->
  Forall (fun e => is_cancel e = false) tr /\
  exists transfersRes rest,
    tr = Ev (GetTransfersByRoutingId (routingId meta) routerPublicIdentifier) transfersRes :: rest /\
    match transfersRes with
    | Result.fail _ =>
        rest = [] /\
        exists e, res = Returns (Result.fail e) /\ message e = IncomingChannelNotFound reasons
    | Result.ok transfers =>
        match List.find (fun t => bool_decide (responder t = routerSignerAddress)) transfers with
        | None =>
            rest = [] /\
            exists e, res = Returns (Result.fail e) /\ message e = IncomingChannelNotFound reasons
        | Some incomingTransfer =>
            let resolveParams :=
              ResolvePayload
                {| rp_channelAddress := t_channelAddress incomingTransfer;
                   rp_transferId := transferId incomingTransfer;
                   rp_meta := ∅;
                   rp_transferResolver := transferResolver (r_transfer data);
                   rp_publicIdentifier := routerPublicIdentifier |} in
            exists resolution,
              match resolution with
              | Result.ok value =>
                  rest = [Ev (ResolveTransfer resolveParams) resolution] /\
                  res = Returns (Result.ok value)
              | Result.fail _ =>
                  rest = [Ev (ResolveTransfer resolveParams) resolution;
                          Ev (QueueUpdate (t_channelAddress incomingTransfer)
                                TRANSFER_RESOLUTION resolveParams) tt] /\
                  exists e, res = Returns (Result.fail e) /\
                            message e = ErrorResolvingTransfer reasons
              end
        end
    end.
Proof.
  intros p tr res Hmeta. subst p tr res.
  unfold forwardTransferResolution, trace, returned. rewrite Hmeta.
  exec h; simpl.
  all: split; [by repeat constructor|].
  all: eexists _, _; (split; [reflexivity|]); simpl.
  all: repeat match goal with
         | H : List.find _ _ = _ |- _ => rewrite H
         | u : unit |- _ => destruct u
         end.
  all: try (split; [reflexivity|]; by eexists).
  all: first [ by eexists (Result.ok _)
             | eexists (Result.fail _); split; [reflexivity|]; by eexists ].
Qed.

End Resolution.

Section CheckIn.

Context {W : Type} (h : Handler Call W).
Variable routerPublicIdentifier : string.
Variable reasons : ForwardTransferErrorReasons.
Variable Timeout : string.

Lemma retry_or_give_up_status (error : option CtxValue) :
  retry_or_give_up Timeout error (statusAfterFailure Timeout error).
Proof.
  unfold retry_or_give_up, statusAfterFailure, ctx_is_string.
  destruct error as [[]|]; try (right; split; [congruence|done]).
  case_bool_decide; [left|right]; split; congruence.
Qed.

Lemma processUpdates_drains (channel : FullChannelState) (updates : list RouterUpdate) :
  forall acc w,
  exists errored,
    drained routerPublicIdentifier Timeout channel updates
      (trace h (processUpdates routerPublicIdentifier Timeout channel updates acc) w) errored /\
    returned h (processUpdates routerPublicIdentifier Timeout channel updates acc) w
      = acc ++ errored.
Proof.
  unfold trace, returned.
  induction updates as [|u rest IH]; intros acc w.
  - exists []. simpl. split; [constructor|]. by rewrite app_nil_r.
  - cbn [processUpdates]. prog_simpl. next_reply u0 w1. destruct u0.
    destruct (type u) as [| |name] eqn:Hty; prog_simpl.
    + next_reply r w2. destruct r as [v|e]; prog_simpl.
      * destruct (IH acc w2) as (errored & Hd & Hr).
        destruct (run h _ w2) as [[res tr] w3]. simpl in *.
        exists errored. split; [|done].
        apply (drained_cons _ _ _ u rest [_; _] false tr errored); [|done].
        by apply handled_creation.
      * next_reply u1 w3. destruct u1.
        destruct (IH (acc ++ [u]) w3) as (errored & Hd & Hr).
        destruct (run h _ w3) as [[res tr] w4]. simpl in *.
        exists (u :: errored). split; [|by rewrite Hr, <- app_assoc].
        apply (drained_cons _ _ _ u rest [_; _; _] true tr errored); [|done].
        apply handled_creation_failed; [done|]. apply retry_or_give_up_status.
    + next_reply r w2. destruct r as [v|e]; prog_simpl.
      * destruct (IH acc w2) as (errored & Hd & Hr).
        destruct (run h _ w2) as [[res tr] w3]. simpl in *.
        exists errored. split; [|done].
        apply (drained_cons _ _ _ u rest [_; _] false tr errored); [|done].
        by apply handled_resolution.
      * next_reply u1 w3. destruct u1.
        destruct (IH (acc ++ [u]) w3) as (errored & Hd & Hr).
        destruct (run h _ w3) as [[res tr] w4]. simpl in *.
        exists (u :: errored). split; [|by rewrite Hr, <- app_assoc].
        apply (drained_cons _ _ _ u rest [_; _; _] true tr errored); [|done].
        apply handled_resolution_failed; [done|]. apply retry_or_give_up_status.
    + next_reply u1 w2. destruct u1.
      destruct (IH acc w2) as (errored & Hd & Hr).
      destruct (run h _ w2) as [[res tr] w3]. simpl in *.
      exists errored. split; [|done].
      apply (drained_cons _ _ _ u rest [_; _] false tr errored); [|done].
      by apply handled_unknown with name.
Qed.

(** C9 (amended for the channel that cannot be read).  With [skipCheckIn]
    set, [handleIsAlive] returns success and awaits nothing: the queue is not
    touched.  Otherwise it first loads the updates of the channel that are
    PENDING, then reads the channel; if the read fails or gives no channel it
    stops there with [CheckInError], and the loaded updates are neither
    marked nor attempted.  With a channel, the rest of
    the trace handles the loaded updates one after the other in the order in
    which the store returned them ([drained]): each update is first marked
    PROCESSING, then attempted (a creation by [transferWithCollateralization],
    a resolution by [resolveTransfer]; an update of another type is marked
    FAILED without attempt), and after a failed attempt its status is set to
    PENDING exactly when the underlying error (the [transferError] of the
    context for a creation, the message for a resolution) is the timeout,
    and to FAILED otherwise.  The call succeeds when no attempt failed and
    else fails with [CheckInError] listing the failed ids in that order. *)
Theorem handleIsAlive_drains_pending_updates_in_order (w : W) (data : IsAlivePayload) :
  let p := handleIsAlive routerPublicIdentifier reasons Timeout data in
  if skipCheckIn data then run h p w = (Result.ok tt, [], w)
  else
    exists updates channelRes rest,
      trace h p w = Ev (GetQueuedUpdates (ia_channelAddress data) PENDING) updates
                    :: Ev (GetStateChannel (ia_channelAddress data) None) channelRes
                    :: rest /\
      match channelRes with
      | Result.ok (Some channel) =>
          exists errored,
            drained routerPublicIdentifier Timeout channel updates rest errored /\
            returned h p w =
              match errored with
              | [] => Result.ok tt
              | _ :: _ => Result.fail (ForwardTransferError (CheckInError reasons)
                                         (<["failedIds" := CStrs (id <$> errored)]> ∅))
              end
      | _ =>
          rest = [] /\
          exists e, returned h p w = Result.fail e /\ message e = CheckInError reasons
      end.
Proof.
  intros p. subst p. unfold handleIsAlive.
  destruct (skipCheckIn data); [done|].
  unfold trace, returned. prog_simpl.
  next_reply updates w1. next_reply channelRes w2.
  destruct channelRes as [[channel|]|e]; prog_simpl.
  - rewrite run_bind.
    destruct (processUpdates_drains channel updates [] w2) as (errored & Hd & Hr).
    unfold trace, returned in Hd, Hr.
    destruct (run h (processUpdates _ _ _ _ _) w2) as [[res tr] w3]. simpl in *. subst res.
    eexists updates, _, _. split.
    + destruct errored; simpl; reflexivity.
    + exists errored. split.
      * destruct errored; simpl; by rewrite app_nil_r.
      * by destruct errored.
  - eexists updates, _, _. simpl. split; [reflexivity|]. split; [done|]. by eexists.
  - eexists updates, _, _. simpl. split; [reflexivity|]. split; [done|]. by eexists.
Qed.

End CheckIn.

Section Offline.

Import Store.

Context {S : Type} (node : Handler Call S).
Variable routerPublicIdentifier : string.
Variable TRANSFER_DECREMENT : Z.
Variable reasons : ForwardTransferErrorReasons.
Variable getSwappedAmount : option Z -> string -> Z -> string -> Z -> Result.t Z VectorError.

Local Abbreviation attempt := (attemptTransferWithCollateralization reasons).
Local Abbreviation forward :=
  (forwardTransferCreation routerPublicIdentifier TRANSFER_DECREMENT reasons
     getSwappedAmount attempt).



End Offline.

Import RouterScenarios.

(** C4, as the specification words the meta, fails: Alice's transfer already carries
    [senderIdentifier = "vectorMALLORY"] in its meta.  The transfer is
    forwarded, and the meta handed over keeps that value instead of Alice's
    identifier in the sender channel, although Alice is the initiator. *)
Lemma forwardTransferCreation_keeps_given_senderIdentifier :
  let data := created (Some (to_carol (Some "vectorMALLORY"))) in
  let tr := trace (scripted all_well)
              (router_forwards attemptTransferWithCollateralization_call data) tt in
  exists params,
    In (Some (params, recipient_channel_state, false)) (attempted <$> tr) /\
    initiator (c_transfer data) = alice sender_channel_state /\
    senderIdentifier (tp_meta params) = Some (Some (JStr "vectorMALLORY")) /\
    senderIdentifier (tp_meta params)
      <> Some (Some (JStr (aliceIdentifier sender_channel_state))).
Proof.
  cbv zeta. eexists. split; [in_trace|]. split; [reflexivity|]. split; [reflexivity|].
  simpl. discriminate.
Qed.

(** The theorem on the forwarding of Alice's transfer: the timeout handed
    over is 86400 - 4320, the details are the transfer state without its
    balance, and the meta names Alice as the sender. *)
Lemma forwardTransferCreation_outgoing_params_witness :
  let data := created (Some (to_carol None)) in
  let tr := trace (scripted all_well)
              (router_forwards attemptTransferWithCollateralization_call data) tt in
  exists params,
    In (Some (params, recipient_channel_state, false)) (attempted <$> tr) /\
    tp_timeout params = 82080 /\
    tp_details params = <["lockHash" := JStr "0xLOCK"]> (<["expiry" := JStr "0"]> ∅) /\
    tp_amount params = Some 100 /\
    senderIdentifier (tp_meta params) = Some (Some (JStr "vectorALICE")).
Proof.
  cbv zeta. eexists. split; [in_trace|].
  destruct (forwardTransferCreation_outgoing_params (scripted all_well) "vectorROUTER" 4320
              the_reasons no_swap tt (created (Some (to_carol None)))
              _ recipient_channel_state false ltac:(in_trace))
    as (senderChannel & path1 & Hsender & Hpath & Hdetails & Htimeout & _ & Hamount & _).
  split; [exact Htimeout|]. split; [|split; reflexivity].
  rewrite Hdetails. vm_compute. reflexivity.
Defined.

(** A [senderIdentifier] key that holds [null] is handed over as it is: the
    spread does not fall back to Alice's identifier. *)
Example forwardTransferCreation_keeps_null_senderIdentifier :
  let data := created (Some to_carol_null_sender) in
  let tr := trace (scripted all_well)
              (router_forwards attemptTransferWithCollateralization_call data) tt in
  exists params,
    In (Some (params, recipient_channel_state, false)) (attempted <$> tr) /\
    senderIdentifier (tp_meta params) = Some (Some JNull).
Proof.
  cbv zeta. eexists. split; [in_trace|]. reflexivity.
Qed.



(** The theorem on a transfer without meta. *)
Lemma forwardTransferCreation_rejects_missing_routing_info_witness :
  returned (scripted all_well)
    (router_forwards attemptTransferWithCollateralization_call (created None)) tt
  = Result.fail (ForwardTransferError "Invalid information to forward transfer within meta"
      (<["senderChannel" := CStr "0xSENDERCHANNEL"]>
         (<["senderTransfer" := CStr "0xTRANSFER"]> (<["meta" := CMeta noMeta]> ∅)))) /\
  trace (scripted all_well)
    (router_forwards attemptTransferWithCollateralization_call (created None)) tt = [].
Proof.
  unfold returned, trace, router_forwards.
  rewrite (forwardTransferCreation_rejects_missing_routing_info (scripted all_well)
             "vectorROUTER" 4320 the_reasons no_swap
             attemptTransferWithCollateralization_call tt (created None)).
  - split; reflexivity.
  - left. reflexivity.
Defined.

Import Store.


(** The theorem on Carol's resolution: the router's side never cancels. *)
Lemma forwardTransferResolution_resolves_sender_side_witness :
  Forall (fun e => is_cancel e = false)
    (trace (scripted all_well)
       (forwardTransferResolution "vectorROUTER" "0xROUTER" the_resolution_reasons resolved) tt).
Proof.
  exact (proj1 (forwardTransferResolution_resolves_sender_side (scripted all_well)
                  "vectorROUTER" "0xROUTER" the_resolution_reasons tt resolved
                  (to_carol (Some "vectorALICE")) eq_refl)).
Defined.

(** Carol's resolution reaches Alice's transfer with Carol's preimage. *)
Example resolution_is_forwarded_with_the_same_resolver :
  trace (scripted all_well)
    (forwardTransferResolution "vectorROUTER" "0xROUTER" the_resolution_reasons resolved) tt
  = [ Ev (GetTransfersByRoutingId (Some "0xROUTING") "vectorROUTER")
         (Result.ok [a_transfer (Some (to_carol None))]);
      Ev (ResolveTransfer (ResolvePayload
            {| rp_channelAddress := "0xSENDERCHANNEL"; rp_transferId := "0xTRANSFER";
               rp_meta := ∅;
               rp_transferResolver := Some (JObj [("preImage", JStr "0xPREIMAGE")]);
               rp_publicIdentifier := "vectorROUTER" |}))
         (Result.ok a_response) ].
Proof. reflexivity. Qed.

(** C9, as the specification words it, fails when the channel of the signal cannot
    be read: three updates are pending and [skipCheckIn] is false, but the
    store of the router returns no channel.  The updates are loaded and the
    check-in fails with [CheckInError]; no update is marked PROCESSING, none
    is attempted and no status is set. *)
Lemma handleIsAlive_leaves_updates_of_unknown_channel :
  let data := {| ia_channelAddress := "0xRECIPIENTCHANNEL"; skipCheckIn := false |} in
  let p := handleIsAlive "vectorROUTER" the_reasons "Timeout" data in
  let tr := trace (scripted busy_queue_without_channel) p tt in
  skipCheckIn data = false /\
  tr = [ Ev (GetQueuedUpdates "0xRECIPIENTCHANNEL" PENDING)
            [queued "1" TRANSFER_CREATION; queued "2" TRANSFER_RESOLUTION;
             queued "3" (OTHER_UPDATE "Withdrawal")];
         Ev (GetStateChannel "0xRECIPIENTCHANNEL" None) (Result.ok None) ] /\
  (forall id0 status0 reason, ~ In (Ev (SetUpdateStatus id0 status0 reason) tt) tr) /\
  exists e, returned (scripted busy_queue_without_channel) p tt = Result.fail e /\
            message e = CheckInError the_reasons.
Proof.
  cbv zeta. split; [reflexivity|]. split; [reflexivity|]. split.
  - intros id0 status0 reason Hin. simpl in Hin. destruct Hin as [H|[H|[]]]; discriminate H.
  - by eexists.
Qed.

(** Carol checks in while three updates wait: each is marked PROCESSING and
    then handled, in the order of the queue; the creation that timed out goes
    back to PENDING, the resolution that was refused is FAILED. *)
Example check_in_drains_the_queue_in_order :
  let data := {| ia_channelAddress := "0xRECIPIENTCHANNEL"; skipCheckIn := false |} in
  let timed_out := {| message := "Error creating transfer";
                      context := <["transferError" := CStr "Timeout"]> ∅ |} in
  trace (scripted busy_queue) (handleIsAlive "vectorROUTER" the_reasons "Timeout" data) tt
  = [ Ev (GetQueuedUpdates "0xRECIPIENTCHANNEL" PENDING) (queuedReply busy_queue);
      Ev (GetStateChannel "0xRECIPIENTCHANNEL" None) (Result.ok (Some recipient_channel_state));
      Ev (SetUpdateStatus "1" PROCESSING None) tt;
      Ev (TransferWithCollateralization (ResolvePayload a_resolve) recipient_channel_state
            "vectorROUTER") (Result.fail timed_out);
      Ev (SetUpdateStatus "1" PENDING (Some (CStr "Timeout"))) tt;
      Ev (SetUpdateStatus "2" PROCESSING None) tt;
      Ev (ResolveTransfer (ResolvePayload a_resolve)) (Result.fail (an_error "Transfer not found"));
      Ev (SetUpdateStatus "2" FAILED (Some (CStr "Transfer not found"))) tt;
      Ev (SetUpdateStatus "3" PROCESSING None) tt;
      Ev (SetUpdateStatus "3" FAILED (Some (CStr "Unknown update type"))) tt ].
Proof. reflexivity. Qed.

(** The modelled store returns the pending updates of a channel in the order
    in which they were enqueued. *)
Lemma getQueuedUpdates_after_queueUpdate (a : string) (t : RouterUpdateType) (p : Payload)
    (rows : list RouterUpdate) :
  getQueuedUpdates a PENDING (queueUpdate a t p rows)
  = getQueuedUpdates a PENDING rows
    ++ [ {| id := pretty (length rows); ru_channelAddress := a; type := t; payload := p;
            status := PENDING; lastFailureReason := None |} ].
Proof.
  unfold getQueuedUpdates, queueUpdate. rewrite filter_app. f_equal.
  rewrite filter_cons, decide_True; by simpl.
Qed.

End ForwardingProps.

(** ** Further properties of the router *)

Module ForwardingRuns.
Import Router Transfer RouterTrace RouterViews.

Section Creation.

Context {W : Type} (h : Handler Call W).
Variable routerPublicIdentifier : string.
Variable TRANSFER_DECREMENT : Z.
Variable reasons : ForwardTransferErrorReasons.
Variable getSwappedAmount : option Z -> string -> Z -> string -> Z -> Result.t Z VectorError.

Local Abbreviation forward :=
  (forwardTransferCreation routerPublicIdentifier TRANSFER_DECREMENT reasons getSwappedAmount
     attemptTransferWithCollateralization_call).

Ltac start :=
  unfold forwardTransferCreation, cancelSenderTransferAndReturnError,
    attemptTransferWithCollateralization_call, trace, returned;
  exec h; simpl.

(** X1. When the sender channel cannot be read (the node answers with an
    error or with no channel), [forwardTransferCreation] fails with
    [SenderChannelNotFound] and that read is the only thing it did: the
    sender transfer is not cancelled and nothing is forwarded. *)
Theorem forwardTransferCreation_leaves_transfer_without_sender_channel
    (w : W) (data : ConditionalTransferCreatedPayload) :
  In true (channel_unresolved <$> trace h (forward data) w) ->
  exists reply,
    trace h (forward data) w
      = [Ev (GetStateChannel (t_channelAddress (c_transfer data))
               (Some routerPublicIdentifier)) reply] /\
    exists e, returned h (forward data) w = Result.fail e /\
              message e = SenderChannelNotFound reasons.
Proof.
  start.
  all: intros Hin; split_in Hin.
  all: eexists; (split; [reflexivity|]); by eexists.
Qed.


(** X3. In every run of [forwardTransferCreation] the transfer service is
    asked at most once, the sender transfer is cancelled at most once, the
    cancellation (if any) is the last thing the run does, and a run that
    cancelled never reports success. *)
Theorem forwardTransferCreation_cancels_at_most_once_and_last
    (w : W) (data : ConditionalTransferCreatedPayload) :
  let tr := trace h (forward data) w in
  (length (filter (fun e => is_attempt e = true) tr) <= 1)%nat /\
  (length (filter (fun e => is_cancel e = true) tr) <= 1)%nat /\
  Forall (fun e => is_cancel e = false) (removelast tr) /\
  (In true (is_cancel <$> tr) -> Result.isError (returned h (forward data) w) = true).
Proof.
  start.
  all: (split; [vm_compute; lia|]); (split; [vm_compute; lia|]).
  all: (split; [by repeat constructor|]).
  all: intros Hin; split_in Hin.
Qed.

(** X4. The answer of the transfer service decides the outcome.  A created
    transfer is returned as the success; an empty success becomes the
    [ReceiverOffline] failure; an error that is not flagged
    [shouldCancelSender] is returned as it is; in these three cases the
    sender transfer is left alone.  An error flagged [shouldCancelSender]
    makes the run end with the cancellation of the sender transfer, with
    the message of that error as the reason. *)
Theorem forwardTransferCreation_follows_the_attempt
    (w : W) (data : ConditionalTransferCreatedPayload)
    (reply : Result.t (option NodeResponse) VectorError) :
  let tr := trace h (forward data) w in
  let res := returned h (forward data) w in
  In (Some reply) (attempt_reply <$> tr) ->
  match reply with
  | Result.ok (Some value) => res = Result.ok value /\ Forall (fun e => is_cancel e = false) tr
  | Result.ok None =>
      (exists e, res = Result.fail e /\ message e = ReceiverOffline reasons) /\
      Forall (fun e => is_cancel e = false) tr
  | Result.fail error =>
      if truthy_ctx (context error !! "shouldCancelSender") then
        exists context0 cancelRes,
          last tr = Some (Ev (CancelCreatedTransfer (message error) (c_transfer data)
                                routerPublicIdentifier context0) cancelRes)
      else res = Result.fail error /\ Forall (fun e => is_cancel e = false) tr
  end.
Proof.
  start.
  all: intros Hin; split_in Hin.
  all: injection Hin as <-.
  all: repeat match goal with H : truthy_ctx _ = _ |- _ => rewrite H end.
  all: try (split; [|by repeat constructor]); try reflexivity; try by eexists.
  all: by eexists _, _.
Qed.

(** X5. [forwardTransferCreation] reports success only for a transfer that
    the transfer service created: whenever it returns a value, that value is
    what the service answered to the attempt. *)
Theorem forwardTransferCreation_succeeds_only_with_a_created_transfer
    (w : W) (data : ConditionalTransferCreatedPayload) (value : NodeResponse) :
  returned h (forward data) w = Result.ok value ->
  In (Some (Result.ok (Some value))) (attempt_reply <$> trace h (forward data) w).
Proof.
  start.
  all: try discriminate.
  all: intros [= <-]; in_trace.
Qed.

End Creation.

Section CheckIn.

Context {W : Type} (h : Handler Call W).
Variable routerPublicIdentifier : string.
Variable reasons : ForwardTransferErrorReasons.
Variable Timeout : string.

Lemma statusAfterFailure_cases (error : option CtxValue) :
  statusAfterFailure Timeout error = PENDING \/ statusAfterFailure Timeout error = FAILED.
Proof. unfold statusAfterFailure. destruct (ctx_is_string _ _); tauto. Qed.

Ltac finish_marks Hm :=
  simpl; split; [f_equal; exact Hm|]; split; by repeat constructor.

Lemma processUpdates_marks (channel : FullChannelState) (updates : list RouterUpdate) :
  forall acc w,
    let tr := trace h (processUpdates routerPublicIdentifier Timeout channel updates acc) w in
    omap marked_processing tr = id <$> updates /\
    Forall (fun e => status_written e <> Some COMPLETE) tr /\
    Forall (fun e => channel_unresolved e = false /\ loaded e = None) tr.
Proof.
  unfold trace. induction updates as [|u rest IH]; intros acc w.
  - simpl. by repeat split.
  - cbn [processUpdates]. prog_simpl. next_reply u0 w1. destruct u0.
    destruct (type u) as [| |name]; prog_simpl.
    + next_reply r w2. destruct r as [v|e]; prog_simpl.
      * destruct (IH acc w2) as (Hm & Hc & Hu).
        destruct (run h _ w2) as [[res tr] w3]. simpl in *.
        finish_marks Hm.
      * next_reply u1 w3. destruct u1.
        destruct (IH (acc ++ [u]) w3) as (Hm & Hc & Hu).
        destruct (run h _ w3) as [[res tr] w4]. simpl in *.
        destruct (statusAfterFailure_cases (context e !! "transferError")) as [-> | ->];
          finish_marks Hm.
    + next_reply r w2. destruct r as [v|e]; prog_simpl.
      * destruct (IH acc w2) as (Hm & Hc & Hu).
        destruct (run h _ w2) as [[res tr] w3]. simpl in *.
        finish_marks Hm.
      * next_reply u1 w3. destruct u1.
        destruct (IH (acc ++ [u]) w3) as (Hm & Hc & Hu).
        destruct (run h _ w3) as [[res tr] w4]. simpl in *.
        destruct (statusAfterFailure_cases (Some (CStr (message e)))) as [-> | ->];
          finish_marks Hm.
    + next_reply u1 w2. destruct u1.
      destruct (IH acc w2) as (Hm & Hc & Hu).
      destruct (run h _ w2) as [[res tr] w3]. simpl in *.
      finish_marks Hm.
Qed.

(** X6. [handleIsAlive] never writes the status COMPLETE: an update whose
    attempt succeeded is left PROCESSING.  When the channel was read, the
    updates marked PROCESSING are exactly the updates that the store
    returned, each once and in that order; when the channel could not be
    read, no update is marked. *)
Theorem handleIsAlive_marks_each_update_once_and_never_complete
    (w : W) (data : IsAlivePayload) :
  let tr := trace h (handleIsAlive routerPublicIdentifier reasons Timeout data) w in
  Forall (fun e => status_written e <> Some COMPLETE) tr /\
  forall updates,
    In (Some updates) (loaded <$> tr) ->
    omap marked_processing tr
      = if existsb channel_unresolved tr then [] else id <$> updates.
Proof.
  unfold handleIsAlive, trace.
  destruct (skipCheckIn data); [simpl; by split|].
  prog_simpl. next_reply updates w1. next_reply channelRes w2.
  destruct channelRes as [[channel|]|e]; prog_simpl.
  - rewrite run_bind.
    destruct (processUpdates_marks channel updates [] w2) as (Hm & Hc & Hu).
    unfold trace in Hm, Hc, Hu.
    destruct (run h (processUpdates _ _ _ _ _) w2) as [[errored tr] w3]. simpl in *.
    assert (existsb channel_unresolved tr = false) as Hex.
    { clear -Hu. induction Hu as [|e l [He _] Hl IH]; [done|]. simpl. by rewrite He, IH. }
    destruct errored; simpl; rewrite app_nil_r.
    all: split; [by repeat constructor|].
    all: intros updates' [Hin|[Hin|Hin]]; try discriminate.
    all: try (injection Hin as <-; by rewrite Hex).
    all: exfalso; clear -Hin Hu.
    all: induction Hu as [|e l [_ He] Hl IH]; [done|]; destruct Hin as [Hin|Hin]; [|by apply IH].
    all: congruence.
  - simpl. split; [by repeat constructor|]. intros updates' Hin. split_in Hin.
  - simpl. split; [by repeat constructor|]. intros updates' Hin. split_in Hin.
Qed.

End CheckIn.

Import RouterScenarios ForwardingScenarios.

Lemma forwardTransferCreation_leaves_transfer_without_sender_channel_witness :
  let h := scripted no_sender_channel in
  let p := router_forwards attemptTransferWithCollateralization_call
             (created (Some (to_carol None))) in
  exists reply,
    trace h p tt = [Ev (GetStateChannel "0xSENDERCHANNEL" (Some "vectorROUTER")) reply] /\
    exists e, returned h p tt = Result.fail e /\ message e = "Sender channel not found".
Proof.
  cbv zeta.
  apply (forwardTransferCreation_leaves_transfer_without_sender_channel
           (scripted no_sender_channel) "vectorROUTER" 4320 the_reasons no_swap tt
           (created (Some (to_carol None)))).
  in_trace.
Defined.


Lemma forwardTransferCreation_follows_the_attempt_witness :
  let h := scripted (refused true) in
  let p := router_forwards attemptTransferWithCollateralization_call
             (created (Some (to_carol None))) in
  exists context0 cancelRes,
    last (trace h p tt)
      = Some (Ev (CancelCreatedTransfer "Error creating transfer"
                    (a_transfer (Some (to_carol None))) "vectorROUTER" context0) cancelRes).
Proof.
  cbv zeta.
  exact (forwardTransferCreation_follows_the_attempt
           (scripted (refused true)) "vectorROUTER" 4320 the_reasons no_swap tt
           (created (Some (to_carol None)))
           (Result.fail {| message := "Error creating transfer";
                           context := <["shouldCancelSender" := CBool true]> ∅ |})
           ltac:(in_trace)).
Defined.

Lemma forwardTransferCreation_succeeds_only_with_a_created_transfer_witness :
  In (Some (Result.ok (Some a_response)))
     (attempt_reply <$> trace (scripted all_well)
        (router_forwards attemptTransferWithCollateralization_call
           (created (Some (to_carol None)))) tt).
Proof.
  apply (forwardTransferCreation_succeeds_only_with_a_created_transfer
           (scripted all_well) "vectorROUTER" 4320 the_reasons no_swap tt
           (created (Some (to_carol None))) a_response).
  reflexivity.
Defined.

End ForwardingRuns.

(** ** The engine: the other RPC methods *)

Module EngineApiProps.
Import EngineApi EngineApiTrace.

Section Methods.

Context {W : Type} (h : Handler Call W).
Variable signerAddress : string.
Variable publicIdentifier : string.
Variable chainAddresses : gmap Z ChainAddress.
Variable AUTODEPLOY_CHAIN_IDS : list Z.
Variable ChannelNotFound : string.
Variable TransferNotFound : string.
Variable validateSetup : SetupParams -> option string.
Variable validateGetChannelState : string -> option string.
Variable validateGetTransferState : string -> option string.
Variable validateGetActiveTransfers : string -> option string.
Variable validateChannelParams : ChannelParams -> option string.
Variable validateResolveTransfer : ResolveTransferParams -> option string.
Variable convertResolveConditionParams :
  ResolveTransferParams -> StoredTransfer -> Result.t Json VectorError.

Local Abbreviation setup_ :=
  (setup signerAddress chainAddresses AUTODEPLOY_CHAIN_IDS validateSetup).

Ltac start :=
  unfold setup, withdraw, requestCollateral, resolveTransfer, defundChannel, defundTransfer,
    disputeTransfer, getChannelState, getTransferState, getActiveTransfers, trace, returned;
  exec h; simpl.

(** X7. The result of [setup] is the result of the protocol, whatever
    becomes of sending the deployment; only when the wait for a deployment
    that was broadcast throws, [setup] throws the same.  The multisig is
    sent for deployment exactly when the protocol succeeded, the signer is
    not Bob of the channel and the chain of the channel is one of
    [AUTODEPLOY_CHAIN_IDS]; and [setup] waits for exactly the deployments
    that were broadcast. *)
Theorem setup_returns_the_protocol_result_and_deploys_as_alice
    (w : W) (params : SetupParams) (res : Result.t FullChannelState VectorError) :
  let tr := trace h (setup_ params) w in
  In (Some res) (setup_reply <$> tr) ->
  match omap wait_thrown tr with
  | [] =>
      returned h (setup_ params) w
        = Returns (match res with
                   | Result.ok channel => Result.ok channel
                   | Result.fail e => Result.fail (Upstream e)
                   end)
  | exception :: _ => returned h (setup_ params) w = Throws exception
  end /\
  (forall channel,
     In (Some channel) (deployed <$> tr) <->
     res = Result.ok channel /\ signerAddress <> bob channel /\
     nc_chainId (networkContext channel) ∈ AUTODEPLOY_CHAIN_IDS) /\
  (forall hash, In (Some hash) (waited <$> tr) <-> In (Some hash) (deploy_broadcast <$> tr)).
Proof using Type.
  clear validateGetChannelState validateGetTransferState validateGetActiveTransfers.
  start.
  all: intros Hin; split_in Hin.
  all: injection Hin as <-.
  all: (split; [reflexivity|]).
  all: repeat match goal with
         | H : bool_decide _ = true |- _ => apply bool_decide_eq_true in H
         | H : bool_decide _ = false |- _ => apply bool_decide_eq_false in H
         | H : negb _ = true |- _ => apply negb_true_iff in H
         | H : negb _ = false |- _ => apply negb_false_iff in H
         end.
  all: split;
         [ intros channel; split;
           [ intros Hd; split_in Hd; try (injection Hd as <-)
           | intros (Hr & Hb & Hc); try discriminate Hr; try (injection Hr as <-) ]
         | intros hash; split; intros Hd; split_in Hd; try (injection Hd as <-) ].
  all: try tauto; try congruence; try solve [in_trace].
Qed.

(** X8. For a chain without configured addresses [setup] throws while it
    builds the network context: the protocol is never asked, and the chain
    providers were the only thing consulted. *)
Theorem setup_throws_for_a_chain_without_addresses
    (w : W) (params : SetupParams) (providers : gmap Z string) :
  chainAddresses !! su_chainId params = None ->
  In (Some (Result.ok providers)) (providers_reply <$> trace h (setup_ params) w) ->
  trace h (setup_ params) w = [Ev ChainGetChainProviders (Result.ok providers)] /\
  exists exception, returned h (setup_ params) w = Throws exception.
Proof using Type.
  intros Hnone. start.
  all: intros Hin; split_in Hin.
  all: try congruence.
  injection Hin as <-. split; [reflexivity|]. by eexists.
Qed.

Local Abbreviation withdraw_ :=
  (withdraw ChannelNotFound validateGetChannelState validateChannelParams).

(** X9. Once the protocol created the withdrawal transfer, [withdraw]
    succeeds with that channel whether or not the withdrawal is
    reconciled: the last thing it does is to wait, for at most 90000 ms,
    for a reconciliation event.  The wait names neither the channel nor the
    transfer: it ends with the first event posted, and the transaction hash
    of the answer is the one of that event, whatever withdrawal it is of;
    the hash is undefined after a timeout. *)
Theorem withdraw_succeeds_without_the_transaction
    (w : W) (params : ChannelParams) (res : CreatedChannel) :
  let tr := trace h (withdraw_ params) w in
  In (Some (Result.ok res)) (created <$> tr) ->
  exists event,
    last tr = Some (Ev (AttachOnceWithdrawalReconciled 90000) event) /\
    returned h (withdraw_ params) w
      = Result.ok {| wr_channel := res;
                     wr_transactionHash := match event with
                                           | Some data => wrp_transactionHash data
                                           | None => None
                                           end |}.
Proof using Type.
  start.
  all: intros Hin; split_in Hin.
  all: injection Hin as <-.
  all: by eexists.
Qed.

Local Abbreviation defundChannel_ := (defundChannel ChannelNotFound validateGetChannelState).

(** X10. [defundChannel] sends a defund transaction only for the channel
    that the store returned, and only if that channel is in dispute. *)
Theorem defundChannel_only_for_a_disputed_channel
    (w : W) (params : ChannelParams) (state : StoredChannel) :
  let tr := trace h (defundChannel_ params) w in
  In (Some state) (defund_channel_sent <$> tr) ->
  sc_inDispute state = true /\
  In (Some (Result.ok (Some state))) (channel_read <$> tr).
Proof using Type.
  start.
  all: intros Hin; split_in Hin.
  all: injection Hin as <-.
  all: split; [by apply negb_false_iff | in_trace].
Qed.

Local Abbreviation defundTransfer_ := (defundTransfer TransferNotFound validateGetTransferState).

(** X11. [defundTransfer] sends a defund transaction only for the transfer
    that the store returned, and only if that transfer is in dispute. *)
Theorem defundTransfer_only_for_a_disputed_transfer
    (w : W) (params : TransferIdParams) (transfer : StoredTransfer) :
  let tr := trace h (defundTransfer_ params) w in
  In (Some transfer) (defund_transfer_sent <$> tr) ->
  st_inDispute transfer = true /\
  In (Some (Result.ok (Some transfer))) (transfer_read <$> tr).
Proof using Type.
  start.
  all: intros Hin; split_in Hin.
  all: injection Hin as <-.
  all: split; [by apply negb_false_iff | in_trace].
Qed.

Local Abbreviation disputeTransfer_ :=
  (disputeTransfer TransferNotFound validateGetTransferState validateGetActiveTransfers).

(** X12. [disputeTransfer] disputes the transfer that the store returned
    for the given id, together with the active transfers that the store
    returned for the channel of that stored transfer; unlike the defund
    methods it does not look at the dispute flag. *)
Theorem disputeTransfer_disputes_the_stored_transfer_with_its_channel
    (w : W) (params : TransferIdParams) (id0 : string) (active : list FullTransferState) :
  let tr := trace h (disputeTransfer_ params) w in
  In (Some (id0, active)) (dispute_transfer_sent <$> tr) ->
  exists transfer,
    In (Some (Result.ok (Some transfer))) (transfer_read <$> tr) /\
    id0 = transferId (st_state transfer) /\
    In (Some (t_channelAddress (st_state transfer), active)) (active_read <$> tr).
Proof using Type.
  start.
  all: intros Hin; split_in Hin.
  all: injection Hin as <- <-.
  all: eexists; split; [in_trace|]; split; [reflexivity|in_trace].
Qed.

Local Abbreviation resolveTransfer_ :=
  (resolveTransfer TransferNotFound validateGetTransferState validateResolveTransfer
     convertResolveConditionParams).

(** X13. [resolveTransfer] hands to the protocol only the conversion of its
    parameters against the transfer that the store returned for the
    [transferId] of the parameters, which passed the schema. *)
Theorem resolveTransfer_resolves_the_converted_stored_transfer
    (w : W) (params : ResolveTransferParams) (resolveParams : Json) :
  let tr := trace h (resolveTransfer_ params) w in
  In (Some resolveParams) (resolve_asked <$> tr) ->
  validateResolveTransfer params = None /\
  exists transfer,
    In (Some (Result.ok (Some transfer))) (transfer_read <$> tr) /\
    convertResolveConditionParams params transfer = Result.ok resolveParams.
Proof using Type.
  start.
  all: intros Hin; split_in Hin.
  all: injection Hin as <-.
  all: split; [done|]; eexists; split; [in_trace|done].
Qed.

Local Abbreviation requestCollateral_ :=
  (requestCollateral publicIdentifier ChannelNotFound validateGetChannelState
     validateChannelParams).

(** X14. [requestCollateral] sends its request in the name of the engine to
    the other participant of the channel that the store returned: to Bob
    when the engine is Alice of the channel, else to Alice. *)
Theorem requestCollateral_asks_the_counterparty
    (w : W) (params : ChannelParams) (to_ from : string) :
  let tr := trace h (requestCollateral_ params) w in
  In (Some (to_, from)) (collateral_requested <$> tr) ->
  from = publicIdentifier /\
  exists channel,
    In (Some (Result.ok (Some channel))) (channel_read <$> tr) /\
    (publicIdentifier = aliceIdentifier (sc_state channel) ->
       to_ = bobIdentifier (sc_state channel)) /\
    (publicIdentifier <> aliceIdentifier (sc_state channel) ->
       to_ = aliceIdentifier (sc_state channel)).
Proof using Type.
  start.
  all: intros Hin; split_in Hin.
  all: injection Hin as <- <-.
  all: split; [done|]; eexists; split; [in_trace|].
  all: case_bool_decide; split; intros; congruence.
Qed.

End Methods.

Import EngineApiScenarios.

(** Finds an event in the trace of a scenario. *)
Ltac in_scenario := vm_compute; repeat (first [left; reflexivity | right]).

Lemma setup_returns_the_protocol_result_and_deploys_as_alice_witness :
  let h := scripted (working false) in
  let tr := trace h (alice_setup (a_setup 1337)) tt in
  returned h (alice_setup (a_setup 1337)) tt = Returns (Result.ok (channel_on 1337)) /\
  (forall channel,
     In (Some channel) (deployed <$> tr) <->
     Result.ok (channel_on 1337) = Result.ok (Err := VectorError) channel /\
     "0xALICE" <> bob channel /\
     nc_chainId (networkContext channel) ∈ [1337; 1338]) /\
  (forall hash, In (Some hash) (waited <$> tr) <-> In (Some hash) (deploy_broadcast <$> tr)).
Proof.
  cbv zeta.
  apply (setup_returns_the_protocol_result_and_deploys_as_alice
           (scripted (working false)) "0xALICE" the_addresses [1337; 1338] (fun _ => None) tt
           (a_setup 1337) (Result.ok (channel_on 1337))).
  in_scenario.
Defined.

Lemma setup_throws_for_a_chain_without_addresses_witness :
  let h := scripted (working false) in
  trace h (alice_setup (a_setup 5)) tt = [Ev ChainGetChainProviders (Result.ok the_providers)] /\
  exists exception, returned h (alice_setup (a_setup 5)) tt = Throws exception.
Proof.
  cbv zeta.
  apply (setup_throws_for_a_chain_without_addresses
           (scripted (working false)) "0xALICE" the_addresses [1337; 1338] (fun _ => None) tt
           (a_setup 5) the_providers).
  - reflexivity.
  - in_scenario.
Defined.

Lemma withdraw_succeeds_without_the_transaction_witness :
  let h := scripted (working false) in
  exists event,
    last (trace h (alice_withdraw on_channel) tt)
      = Some (Ev (AttachOnceWithdrawalReconciled 90000) event) /\
    returned h (alice_withdraw on_channel) tt
      = Result.ok {| wr_channel := a_created_channel;
                     wr_transactionHash := match event with
                                           | Some data => wrp_transactionHash data
                                           | None => None
                                           end |}.
Proof.
  cbv zeta.
  apply (withdraw_succeeds_without_the_transaction
           (scripted (working false)) "Channel not found" (fun _ => None) (fun _ => None) tt
           on_channel a_created_channel).
  in_scenario.
Defined.

(** Alice withdraws with transfer [0xTRANSFER] on [0xCHANNEL]; the event
    that ends her wait is of another transfer on another channel, and its
    transaction hash is the one she is answered. *)
Example withdraw_answers_the_hash_of_another_withdrawal :
  let h := scripted another_reconciled in
  cp_channelAddress on_channel = "0xCHANNEL" /\
  cc_transferId a_created_channel = "0xTRANSFER" /\
  last (trace h (alice_withdraw on_channel) tt)
    = Some (Ev (AttachOnceWithdrawalReconciled 90000)
              (Some {| wrp_channelAddress := "0xOTHERCHANNEL";
                       wrp_transferId := "0xOTHERTRANSFER";
                       wrp_transactionHash := Some "0xOTHERHASH" |})) /\
  returned h (alice_withdraw on_channel) tt
    = Result.ok {| wr_channel := a_created_channel; wr_transactionHash := Some "0xOTHERHASH" |}.
Proof. cbv zeta. repeat split; reflexivity. Qed.

Lemma defundChannel_only_for_a_disputed_channel_witness :
  sc_inDispute (stored_channel true) = true /\
  In (Some (Result.ok (Some (stored_channel true))))
     (channel_read <$> trace (scripted (working true)) (alice_defundChannel on_channel) tt).
Proof.
  apply (defundChannel_only_for_a_disputed_channel
           (scripted (working true)) "Channel not found" (fun _ => None) tt on_channel
           (stored_channel true)).
  in_scenario.
Defined.

Lemma defundTransfer_only_for_a_disputed_transfer_witness :
  st_inDispute (stored_transfer true) = true /\
  In (Some (Result.ok (Some (stored_transfer true))))
     (transfer_read <$> trace (scripted (working true))
        (alice_defundTransfer {| tp_transferId := "0xTRANSFER" |}) tt).
Proof.
  apply (defundTransfer_only_for_a_disputed_transfer
           (scripted (working true)) "Transfer not found" (fun _ => None) tt
           {| tp_transferId := "0xTRANSFER" |} (stored_transfer true)).
  in_scenario.
Defined.

Lemma disputeTransfer_disputes_the_stored_transfer_with_its_channel_witness :
  let tr := trace (scripted (working false))
              (alice_disputeTransfer {| tp_transferId := "0xTRANSFER" |}) tt in
  exists transfer,
    In (Some (Result.ok (Some transfer))) (transfer_read <$> tr) /\
    "0xTRANSFER" = transferId (st_state transfer) /\
    In (Some (t_channelAddress (st_state transfer), [a_withdrawal])) (active_read <$> tr).
Proof.
  cbv zeta.
  apply (disputeTransfer_disputes_the_stored_transfer_with_its_channel
           (scripted (working false)) "Transfer not found" (fun _ => None) (fun _ => None) tt
           {| tp_transferId := "0xTRANSFER" |} "0xTRANSFER" [a_withdrawal]).
  in_scenario.
Defined.

Lemma resolveTransfer_resolves_the_converted_stored_transfer_witness :
  (fun _ : ResolveTransferParams => @None string) a_resolution = None /\
  exists transfer,
    In (Some (Result.ok (Some transfer)))
       (transfer_read <$> trace (scripted (working false))
          (alice_resolveTransfer a_resolution) tt) /\
    converted a_resolution transfer
      = Result.ok (JObj [("channelAddress", JStr "0xCHANNEL");
                         ("transferId", JStr "0xTRANSFER");
                         ("transferResolver", JObj [("responderSignature", JStr "0xSIG")])]).
Proof.
  apply (resolveTransfer_resolves_the_converted_stored_transfer
           (scripted (working false)) "Transfer not found" (fun _ => None) (fun _ => None)
           converted tt a_resolution).
  in_scenario.
Defined.

Lemma requestCollateral_asks_the_counterparty_witness :
  let tr := trace (scripted (working false)) (alice_requestCollateral on_channel) tt in
  "vectorALICE" = "vectorALICE" /\
  exists channel,
    In (Some (Result.ok (Some channel))) (channel_read <$> tr) /\
    ("vectorALICE" = aliceIdentifier (sc_state channel) ->
       "vectorBOB" = bobIdentifier (sc_state channel)) /\
    ("vectorALICE" <> aliceIdentifier (sc_state channel) ->
       "vectorBOB" = aliceIdentifier (sc_state channel)).
Proof.
  cbv zeta.
  apply (requestCollateral_asks_the_counterparty
           (scripted (working false)) "vectorALICE" "Channel not found" (fun _ => None)
           (fun _ => None) tt on_channel "vectorBOB" "vectorALICE").
  in_scenario.
Defined.

End EngineApiProps.

(** ** The engine: the restore locks *)

Module RestoreLockProps.
Import EngineApi RestoreLockTrace.

Section Locks.

Context {W W' : Type} (h : Handler Call W) (h' : Handler Call W').
Variable signerAddress : string.
Variable publicIdentifier : string.

Local Abbreviation acquire := (acquireRestoreLocks signerAddress publicIdentifier).
Local Abbreviation release := (releaseRestoreLocks signerAddress publicIdentifier).

(** What [acquireRestoreLocks] leaves in the table when the lock service
    hands out [key]. *)
Lemma acquired_table (w : W) (channel : FullChannelState) (locks : gmap string string)
    (key : string) :
  truthy_opt_string (locks !! channelAddress channel) = false ->
  In (Some key) (lock_acquired <$> trace h (acquire channel locks) w) ->
  (returned h (acquire channel locks) w).2 = <[channelAddress channel := key]> locks.
Proof using Type.
  intros Hfree. unfold acquireRestoreLocks, trace, returned. rewrite Hfree.
  prog_simpl. next_reply lockVal w1. destruct lockVal as [lockVal|]; simpl.
  - by intros [[= ->]|[]].
  - by intros [|[]].
Qed.

(** X15. A restore lock is released with the key it was acquired with.
    After [acquireRestoreLocks] obtained a (non-empty) key for the channel,
    [releaseRestoreLocks] makes one call: it releases the lock of that
    channel with that key, for the same side and counterparty.  If the lock
    service accepts, the entry of the channel is gone from the table; if
    it throws, the call fails and the key stays in the table. *)
Theorem restore_lock_is_released_with_its_key
    (w : W) (w' : W') (channel : FullChannelState) (locks : gmap string string)
    (key : string) :
  let isAlice := bool_decide (alice channel = signerAddress) in
  let counterparty := if isAlice then bobIdentifier channel else aliceIdentifier channel in
  let held := (returned h (acquire channel locks) w).2 in
  truthy_opt_string (locks !! channelAddress channel) = false ->
  In (Some key) (lock_acquired <$> trace h (acquire channel locks) w) ->
  truthy_string key = true ->
  exists released : bool,
    trace h' (release channel held) w'
      = [Ev (LockRelease (channelAddress channel) key isAlice counterparty) released] /\
    returned h' (release channel held) w'
      = if released
        then (Result.ok tt, delete (channelAddress channel) locks)
        else (Result.fail (lockError publicIdentifier "Failed to release restore lock" channel),
              held).
Proof using Type.
  intros isAlice counterparty held Hfree Hin Hkey.
  assert (held = <[channelAddress channel := key]> locks) as -> by by apply acquired_table.
  unfold releaseRestoreLocks, trace, returned.
  rewrite lookup_insert_eq, Hkey.
  prog_simpl. next_reply released w1. exists released.
  split; [by destruct released|].
  destruct released; simpl; [|done].
  by rewrite delete_insert_eq.
Qed.

(** X16. While a restore lock is held, acquiring it again does not ask the
    lock service: the call succeeds (with the held key as its value) and
    leaves the table as it is. *)
Theorem held_restore_lock_is_not_acquired_again
    (w : W) (w' : W') (channel : FullChannelState) (locks : gmap string string)
    (key : string) :
  let held := (returned h (acquire channel locks) w).2 in
  truthy_opt_string (locks !! channelAddress channel) = false ->
  In (Some key) (lock_acquired <$> trace h (acquire channel locks) w) ->
  truthy_string key = true ->
  trace h' (acquire channel held) w' = [] /\
  returned h' (acquire channel held) w' = (Result.ok (Some key), held).
Proof using Type.
  intros held Hfree Hin Hkey.
  assert (held = <[channelAddress channel := key]> locks) as -> by by apply acquired_table.
  unfold acquireRestoreLocks, trace, returned.
  rewrite lookup_insert_eq. simpl. by rewrite Hkey.
Qed.

(** After a successful release the table holds no key for the channel. *)
Lemma released_table (w : W) (channel : FullChannelState) (locks : gmap string string) :
  (returned h (release channel locks) w).1 = Result.ok tt ->
  truthy_opt_string ((returned h (release channel locks) w).2 !! channelAddress channel) = false.
Proof using Type.
  unfold releaseRestoreLocks, returned.
  destruct (locks !! channelAddress channel) as [key|] eqn:Hkey.
  - destruct (truthy_string key) eqn:Htruthy.
    + prog_simpl. next_reply released w1. destruct released; simpl; [|discriminate].
      intros _. by rewrite lookup_delete_eq.
    + simpl. intros _. by rewrite Hkey.
  - simpl. intros _. by rewrite Hkey.
Qed.

(** X17. Releasing twice is harmless: after a [releaseRestoreLocks] that
    succeeded, a second one makes no call, succeeds and leaves the table
    as it is. *)
Theorem released_restore_lock_is_not_released_again
    (w : W) (w' : W') (channel : FullChannelState) (locks : gmap string string) :
  let left := (returned h (release channel locks) w).2 in
  (returned h (release channel locks) w).1 = Result.ok tt ->
  trace h' (release channel left) w' = [] /\
  returned h' (release channel left) w' = (Result.ok tt, left).
Proof using Type.
  intros left Hok. apply released_table in Hok. fold left in Hok.
  generalize dependent left. intros left Hfree.
  unfold releaseRestoreLocks, trace, returned.
  destruct (left !! channelAddress channel) as [key|]; [|done].
  simpl in Hfree. by rewrite Hfree.
Qed.

End Locks.

Import EngineApiScenarios.

Lemma restore_lock_is_released_with_its_key_witness :
  let h := scripted (working false) in
  let held := (returned h (alice_acquireRestoreLocks (channel_on 1337) ∅) tt).2 in
  exists released : bool,
    trace h (alice_releaseRestoreLocks (channel_on 1337) held) tt
      = [Ev (LockRelease "0xCHANNEL" "key" (bool_decide ("0xALICE" = "0xALICE"))
               (if bool_decide ("0xALICE" = "0xALICE") then "vectorBOB" else "vectorALICE"))
            released] /\
    returned h (alice_releaseRestoreLocks (channel_on 1337) held) tt
      = if released
        then (Result.ok tt, delete "0xCHANNEL" ∅)
        else (Result.fail (lockError "vectorALICE" "Failed to release restore lock"
                             (channel_on 1337)), held).
Proof.
  cbv zeta.
  apply (restore_lock_is_released_with_its_key
           (scripted (working false)) (scripted (working false)) "0xALICE" "vectorALICE" tt tt
           (channel_on 1337) ∅ "key").
  - reflexivity.
  - vm_compute. by left.
  - reflexivity.
Defined.

Lemma held_restore_lock_is_not_acquired_again_witness :
  let h := scripted (working false) in
  let held := (returned h (alice_acquireRestoreLocks (channel_on 1337) ∅) tt).2 in
  trace h (alice_acquireRestoreLocks (channel_on 1337) held) tt = [] /\
  returned h (alice_acquireRestoreLocks (channel_on 1337) held) tt
    = (Result.ok (Some "key"), held).
Proof.
  cbv zeta.
  apply (held_restore_lock_is_not_acquired_again
           (scripted (working false)) (scripted (working false)) "0xALICE" "vectorALICE" tt tt
           (channel_on 1337) ∅ "key").
  - reflexivity.
  - vm_compute. by left.
  - reflexivity.
Defined.

Lemma released_restore_lock_is_not_released_again_witness :
  let h := scripted (working false) in
  let left := (returned h (alice_releaseRestoreLocks (channel_on 1337)
                             {[ "0xCHANNEL" := "key" ]}) tt).2 in
  trace h (alice_releaseRestoreLocks (channel_on 1337) left) tt = [] /\
  returned h (alice_releaseRestoreLocks (channel_on 1337) left) tt = (Result.ok tt, left).
Proof.
  cbv zeta.
  apply (released_restore_lock_is_not_released_again
           (scripted (working false)) (scripted (working false)) "0xALICE" "vectorALICE" tt tt
           (channel_on 1337) {[ "0xCHANNEL" := "key" ]}).
  reflexivity.
Defined.

End RestoreLockProps.

(** ** The protocol: [Vector.setup] and the handler of inbound messages *)

Module ProtocolApiProps.
Import Protocol ProtocolApi ProtocolApiTrace.

Section Setup.

Context {W : Type} (h : Handler Call W).
Variable publicIdentifier : string.
Variable ChannelNotFound : string.
Variable InvalidParams : string.
Variable Create2Failed : string.
Variable validateSetupSchema : UpdateDetails -> option string.

Local Abbreviation setup_ :=
  (setup publicIdentifier ChannelNotFound InvalidParams Create2Failed validateSetupSchema).

(** X18. [setup] asks for the create2 address of the channel between the
    signer and the counterparty on the chain and factory of the network
    context.  It takes the lock named by that address as Alice, with the
    counterparty of the parameters, and proposes the setup of the channel
    at that address.  When the address cannot be computed, nothing else
    is done and the failure is [Create2Failed] on a channel without
    address, with the message of the cause in its context. *)
Theorem setup_locks_the_create2_address_as_alice
    (w : W) (counterpartyIdentifier : string) (timeout : Z) (networkContext0 : NetworkContext) :
  let params := SetupDetails counterpartyIdentifier timeout networkContext0 in
  let tr := trace h (setup_ counterpartyIdentifier timeout networkContext0) w in
  Forall (fun e => create2_asked e = None \/
                   create2_asked e = Some (publicIdentifier, counterpartyIdentifier,
                                           nc_chainId networkContext0,
                                           channelFactoryAddress networkContext0)) tr /\
  (forall lock, In (Some lock) (lock_taken <$> tr) ->
     exists address, In (Some (Result.ok address)) (create2_reply <$> tr) /\
                     lock = (address, true, counterpartyIdentifier)) /\
  (forall update0, In (Some update0) (exchanged <$> tr) ->
     exists address, In (Some (Result.ok address)) (create2_reply <$> tr) /\
                     update0 = {| p_channelAddress := address; details := params |}) /\
  (forall e, In (Some (Result.fail e)) (create2_reply <$> tr) ->
     length tr = 1%nat /\
     returned h (setup_ counterpartyIdentifier timeout networkContext0) w
       = Result.fail (UpdateError
           {| o_message := Create2Failed;
              o_params := {| p_channelAddress := ""; details := params |};
              o_context := <["error" := CStr (message e)]> ∅ |})).
Proof using Type.
  unfold setup, executeUpdate, lockedOperation, validateParamSchema, trace, returned.
  cbn [details].
  rewrite bool_decide_eq_true_2 by done.
  destruct (validateSetupSchema _) as [error|]; [destruct (truthy_string error)|].
  all: repeat (prog_simpl; cbn [lift bind run];
               first [ match goal with
                       | |- context [run _ ?p _] =>
                           match p with
                           | context [match ?x with _ => _ end] => is_var x; destruct x
                           end
                       end
                     | match goal with
                       | |- context [h ?X ?e ?w0] => destruct (h X e w0) as [? ?] eqn:?
                       end ]).
  all: simpl.
  all: split; [repeat (constructor; [first [by left | by right]|]); constructor|].
  all: split; [intros lock Hin; split_in Hin|].
  all: try (injection Hin as <-; eexists; split; [in_trace|reflexivity]).
  all: split; [intros update0 Hin; split_in Hin|].
  all: try (injection Hin as <-; eexists; split; [in_trace|reflexivity]).
  all: intros cause Hin; split_in Hin.
  all: by injection Hin as <-.
Qed.

End Setup.

Section Inbound.

Context {W : Type} (h : Handler InboundCall W).
Variable publicIdentifier : string.
Variable InvalidParams : string.
Variable validateChannelUpdate : option ReceivedUpdate -> option string.

Local Abbreviation receive :=
  (onReceiveProtocolMessage publicIdentifier InvalidParams validateChannelUpdate).

Ltac start :=
  unfold onReceiveProtocolMessage, trace, returned;
  repeat (prog_simpl;
          first [ match goal with
                  | |- context [run _ (match ?x with _ => _ end) _] => destruct x eqn:?
                  end
                | match goal with
                  | |- context [h ?X ?e ?w0] => destruct (h X e w0) as [? ?] eqn:?
                  end ]);
  simpl.

(** X19. The handler of inbound messages gives an update to [sync.inbound]
    only if the message comes from somebody else, is not an error, has the
    keys [update] and [previousUpdate], its update passes the schema and
    was not sent by the signer, and its previous update passes the schema
    or is undefined.  What is given is the update, the previous update and
    the inbox of the message. *)
Theorem onReceiveProtocolMessage_applies_only_foreign_well_formed_updates
    (w : W) (msg : Result.t Received VectorError) (from inbox : string)
    (update0 : ReceivedUpdate) (previous : option ReceivedUpdate) (inbox0 : string) :
  In (Some (update0, previous, inbox0)) (applied <$> trace h (receive msg from inbox) w) ->
  from <> publicIdentifier /\
  fromIdentifier update0 <> publicIdentifier /\
  inbox0 = inbox /\
  exists received,
    msg = Result.ok received /\
    update received = Some update0 /\
    previousUpdate received = previous /\
    "update" ∈ keys received /\ "previousUpdate" ∈ keys received /\
    validateParamSchema InvalidParams validateChannelUpdate (Some update0) = None /\
    (previous <> None ->
     validateParamSchema InvalidParams validateChannelUpdate previous = None).
Proof using Type.
  start.
  all: intros Hin; split_in Hin.
  all: injection Hin as <- <- <-.
  all: repeat match goal with
         | H : bool_decide _ = false |- _ => apply bool_decide_eq_false in H
         | H : negb _ || negb _ = false |- _ =>
             apply orb_false_iff in H as [?%negb_false_iff%bool_decide_eq_true
                                            ?%negb_false_iff%bool_decide_eq_true]
         end.
  all: split; [done|]; split; [done|]; split; [done|].
  all: eexists; split; [reflexivity|].
  all: repeat (split; [done|]).
  all: try done.
  all: congruence.
Qed.

(** X20. The handler publishes a channel update exactly for the updates
    that [sync.inbound] applied, with the channel and the transfers that
    it returned; and it asks [sync.inbound] at most once. *)
Theorem onReceiveProtocolMessage_publishes_what_was_applied
    (w : W) (msg : Result.t Received VectorError) (from inbox : string) :
  let tr := trace h (receive msg from inbox) w in
  omap posted tr
    = (fun v => {| updatedChannelState := i_updatedChannel v;
                   e_updatedTransfers := updatedActiveTransfers v;
                   e_updatedTransfer := i_updatedTransfer v |}) <$> omap inbound_value tr /\
  (length (omap applied tr) <= 1)%nat.
Proof using Type.
  start.
  all: split; [reflexivity|lia].
Qed.

End Inbound.

Import ProtocolApiScenarios.

Lemma onReceiveProtocolMessage_applies_only_foreign_well_formed_updates_witness :
  "vectorBOB" <> "vectorALICE" /\
  fromIdentifier (from_bob 3) <> "vectorALICE" /\
  "inbox-1" = "inbox-1" /\
  exists received,
    Result.ok a_proposal = Result.ok (Err := VectorError) received /\
    update received = Some (from_bob 3) /\
    previousUpdate received = Some (from_bob 2) /\
    "update" ∈ keys received /\ "previousUpdate" ∈ keys received /\
    validateParamSchema "Invalid params" defined_update (Some (from_bob 3)) = None /\
    (Some (from_bob 2) <> None ->
     validateParamSchema "Invalid params" defined_update (Some (from_bob 2)) = None).
Proof.
  apply (onReceiveProtocolMessage_applies_only_foreign_well_formed_updates
           (accepting (EngineApiScenarios.channel_on 1337)) "vectorALICE" "Invalid params"
           defined_update tt (Result.ok a_proposal) "vectorBOB" "inbox-1"
           (from_bob 3) (Some (from_bob 2)) "inbox-1").
  vm_compute. by left.
Defined.

End ProtocolApiProps.

(** ** The browser node: cross-chain transfers *)

Module BrowserNodeProps.
Import BrowserNode BrowserNodeTrace.

(** A rejection ends the sequence; otherwise the traces follow each other. *)
Lemma run_andThen {W A B} (h : Handler Call W) (p : Prog Call (Settled A))
    (k : A -> Prog Call (Settled B)) (w : W) :
  run h (andThen p k) w =
  let '(r, t1, w1) := run h p w in
  match r with
  | Resolves a => let '(b, t2, w2) := run h (k a) w1 in (b, t1 ++ t2, w2)
  | Rejects e => (Rejects e, t1, w1)
  end.
Proof.
  unfold andThen, mbind, Prog_bind. rewrite run_bind.
  destruct (run h p w) as [[[a|e] t1] w1]; simpl.
  - by destruct (run h (k a) w1) as [[b t2] w2].
  - by rewrite app_nil_r.
Qed.

Lemma removelast_app_keeps {A} (P : A -> Prop) (l1 l2 : list A) :
  Forall P l1 -> Forall P (removelast l2) -> Forall P (removelast (l1 ++ l2)).
Proof.
  intros H1 H2. destruct l2 as [|x l2].
  - rewrite app_nil_r. clear H2. induction H1 as [|y l Hy Hl IH]; [constructor|].
    destruct l; [constructor|]. simpl in *. constructor; [done|]. apply IH.
  - rewrite removelast_app by done. apply Forall_app. by split.
Qed.

Lemma removes_last_rejected {A} (tr : list (Event Call)) (e : Exception) :
  Forall (fun e => is_remove e = false) tr -> removes_last (A := A) tr (Rejects e).
Proof.
  intros Hkeep. split.
  - split; [|discriminate]. intros Hin. exfalso.
    induction Hkeep as [|x l Hx Hl IH]; [done|]. destruct Hin as [Hin|Hin]; [congruence|tauto].
  - rewrite <- (app_nil_r tr). apply removelast_app_keeps; [done|constructor].
Qed.

Lemma removes_last_after {A} (t1 t2 : list (Event Call)) (r : Settled A) :
  Forall (fun e => is_remove e = false) t1 -> removes_last t2 r -> removes_last (t1 ++ t2) r.
Proof.
  intros Hkeep [Hiff Hlast]. split; [|by apply removelast_app_keeps].
  rewrite <- Hiff, fmap_app. split; [|intros Hin; apply in_or_app; tauto].
  intros [Hin|Hin]%in_app_or; [|done]. exfalso. clear -Hkeep Hin.
  induction Hkeep as [|x l Hx Hl IH]; [done|]. destruct Hin as [Hin|Hin]; [congruence|tauto].
Qed.

Lemma removes_last_cons {A} (e : Event Call) (t : list (Event Call)) (r : Settled A) :
  is_remove e = false -> removes_last t r -> removes_last (e :: t) r.
Proof. intros He Ht. apply (removes_last_after [e] t); [by constructor|done]. Qed.

Lemma marks_failure_nil {A} (stage : Step -> Z) (r : Settled A) : marks_failure stage [] r.
Proof. by intros step e []. Qed.

Lemma marks_failure_cons {A} (stage : Step -> Z) (e : Event Call) (t : list (Event Call))
    (r : Settled A) :
  failed_step e = None -> marks_failure stage t r -> marks_failure stage (e :: t) r.
Proof.
  intros He Ht step err [Hin|Hin]; [congruence|].
  destruct (Ht step err Hin) as (Hr & id0 & params & Hlast & Herr).
  split; [done|]. exists id0, params. split; [|done].
  rewrite last_cons. by rewrite Hlast.
Qed.

Lemma marks_failure_after {A B} (stage : Step -> Z) (t1 t2 : list (Event Call)) (a : A)
    (r : Settled B) :
  marks_failure stage t1 (Resolves a) -> marks_failure stage t2 r ->
  marks_failure stage (t1 ++ t2) r.
Proof.
  intros H1 H2 step err Hin. rewrite fmap_app in Hin.
  apply in_app_or in Hin as [Hin|Hin]; [by destruct (H1 step err Hin)|].
  destruct (H2 step err Hin) as (Hr & id0 & params & Hlast & Herr).
  split; [done|]. exists id0, params. split; [|done].
  rewrite last_app. by rewrite Hlast.
Qed.

Lemma marks_failure_cast {A B} (stage : Step -> Z) (t : list (Event Call)) (e : Exception) :
  marks_failure (A := A) stage t (Rejects e) -> marks_failure (A := B) stage t (Rejects e).
Proof.
  intros Ht step err Hin. destruct (Ht step err Hin) as (Hr & Hlast).
  split; [congruence|done].
Qed.

Lemma none_found (t : list (Event Call)) (x : ReceiverTransfer) :
  Forall (fun e => found e = None) t -> In (Some x) (found <$> t) -> False.
Proof.
  intros Hnone Hin. induction Hnone as [|e l He Hl IH]; [done|].
  destruct Hin as [Hin|Hin]; [congruence|tauto].
Qed.

Lemma found_app (t1 t2 : list (Event Call)) (x : ReceiverTransfer) :
  Forall (fun e => found e = None) t1 ->
  In (Some x) (found <$> (t1 ++ t2)) -> In (Some x) (found <$> t2).
Proof.
  intros Hnone Hin. rewrite fmap_app in Hin.
  apply in_app_or in Hin as [Hin|Hin]; [|done]. by destruct (none_found t1 x).
Qed.

(** Splits on what the program at the head of a sequence inspects. *)
Ltac split_head p :=
  lazymatch p with
  | bind ?q _ => split_head q
  | match ?x with _ => _ end => destruct x eqn:?
  end.

(** Runs the program of the goal against [h], stage after stage. *)
Ltac exec_stages h :=
  unfold mbind, Prog_bind, mret, Prog_ret, await;
  repeat (cbn [bind run];
          first
            [ match goal with
              | |- context [run _ ?p _] => split_head p
              end
            | match goal with
              | |- context [h ?X ?e ?w0] => destruct (h X e w0) as [? ?] eqn:?
              end ]).

Section CrossChainTransfer.

Context {W : Type} (h : Handler Call W).
Variable publicIdentifier : string.
Variable routerPublicIdentifier : option string.
Variable INITIAL DEPOSITED TRANSFER_1 TRANSFER_2 : Z.
Variable HashlockTransfer : string.
Variable soliditySha256 : string -> Outcome string.

Local Abbreviation transfer :=
  (crossChainTransfer publicIdentifier routerPublicIdentifier INITIAL DEPOSITED TRANSFER_1
     TRANSFER_2 HashlockTransfer soliditySha256).
Local Abbreviation deposit_ := (depositStage INITIAL DEPOSITED).
Local Abbreviation transfer_ :=
  (transferStage publicIdentifier DEPOSITED TRANSFER_1 HashlockTransfer).
Local Abbreviation resolve_ := (resolveStage TRANSFER_1 TRANSFER_2).
Local Abbreviation withdraw_ := (withdrawStage TRANSFER_2).

(** Runs one stage against [h]. *)
Ltac stage :=
  unfold depositStage, transferStage, resolveStage, withdrawStage, andThen, trace, returned;
  exec_stages h; simpl.

(** Proves by computation a property of each event of a trace given event by
    event. *)
Ltac each_event := repeat (constructor; [by simpl|]); try constructor.

(** *** The record is removed at the very end, or never *)

Lemma depositStage_keeps_record startStage params senderChannel id0 storeParams meta w :
  Forall (fun e => is_remove e = false)
    (trace h (deposit_ startStage params senderChannel id0 storeParams meta) w).
Proof using Type. stage. all: each_event. Qed.

Lemma transferStage_keeps_record startStage params senderChannel id0 storeParams meta lockHash0 w :
  Forall (fun e => is_remove e = false)
    (trace h (transfer_ startStage params senderChannel id0 storeParams meta lockHash0) w).
Proof using Type. stage. all: each_event. Qed.

Lemma resolveStage_keeps_record startStage params receiverChannel id0 storeParams meta preImage w :
  Forall (fun e => is_remove e = false)
    (trace h (resolve_ startStage params receiverChannel id0 storeParams meta preImage) w).
Proof using Type. stage. all: each_event. Qed.

Lemma withdrawStage_removes_last params receiverChannel id0 storeParams data amount1 w :
  removes_last
    (trace h (withdraw_ params receiverChannel id0 storeParams data amount1) w)
    (returned h (withdraw_ params receiverChannel id0 storeParams data amount1) w).
Proof using Type.
  unfold removes_last. stage.
  all: split; [split; [intros Hin; split_in Hin | intros Hr; try discriminate; in_trace]|].
  all: each_event.
Qed.

(** Takes the run of the stage at the head of the goal apart, with what the
    lemma of that stage says of its run. *)
Ltac next_stage Hd Ht Hr Hw :=
  try rewrite run_andThen;
  match goal with
  | |- context [run h ?p ?w0] =>
      let Hst := fresh "Hst" in
      lazymatch p with
      | depositStage _ _ ?a ?b ?c ?d ?e ?f => pose proof (Hd a b c d e f w0) as Hst
      | transferStage _ _ _ _ ?a ?b ?c ?d ?e ?f ?g =>
          pose proof (Ht a b c d e f g w0) as Hst
      | resolveStage _ _ ?a ?b ?c ?d ?e ?f ?g => pose proof (Hr a b c d e f g w0) as Hst
      | withdrawStage _ ?a ?b ?c ?d ?e ?f => pose proof (Hw a b c d e f w0) as Hst
      end;
      unfold trace, returned in Hst; revert Hst;
      let r := fresh "r" in let t := fresh "t" in let w := fresh "w" in
      destruct (run h p w0) as [[r t] w]; intros Hst; simpl in Hst
  end.

(** Walks through [crossChainTransfer]: one goal for each place where the
    run can end, with the lemmas of the stages that were run. *)
Ltac walk_withdraw Hd Ht Hr Hw := next_stage Hd Ht Hr Hw; simpl.

Ltac walk_resolve Hd Ht Hr Hw :=
  next_stage Hd Ht Hr Hw;
  match goal with
  | r : Settled _ |- _ => destruct r as [[[? ?] ?]|?]; simpl; [walk_withdraw Hd Ht Hr Hw|]
  end.

Ltac walk_transfer Hd Ht Hr Hw :=
  destruct (x_preImage _) as [?|] eqn:?; prog_simpl;
  [| let pre := fresh "preImage" in let w5 := fresh "w" in next_reply pre w5];
  (destruct (soliditySha256 _) as [?|?] eqn:?; simpl;
   [ next_stage Hd Ht Hr Hw;
     match goal with
     | r : Settled unit |- _ => destruct r as [[]|?]; simpl; [walk_resolve Hd Ht Hr Hw|]
     end
   | ]).

Ltac walk_deposit Hd Ht Hr Hw :=
  destruct (x_crossChainTransferId _) as [?|] eqn:?; prog_simpl;
  [| let id := fresh "id" in let w3 := fresh "w" in next_reply id w3];
  (let u := fresh "u" in let w4 := fresh "w" in next_reply u w4; destruct u);
  next_stage Hd Ht Hr Hw;
  match goal with
  | r : Settled unit |- _ => destruct r as [[]|?]; simpl; [walk_transfer Hd Ht Hr Hw|]
  end.

Ltac walk Hd Ht Hr Hw :=
  unfold crossChainTransfer, trace, returned;
  prog_simpl;
  let res1 := fresh "senderChannelRes" in let w1 := fresh "w" in
  next_reply res1 w1; destruct res1 as [[senderChannel|]|?]; simpl;
  [ let res2 := fresh "receiverChannelRes" in let w2 := fresh "w" in
    next_reply res2 w2; destruct res2 as [[receiverChannel|]|?]; simpl;
    [ walk_deposit Hd Ht Hr Hw | | ]
  | let res2 := fresh "receiverChannelRes" in let w2 := fresh "w" in
    next_reply res2 w2; destruct res2 as [?|?]; simpl
  | ].

(** X21. The stored record of a cross-chain transfer is removed exactly
    when [crossChainTransfer] resolves, as the last thing it does: after
    any rejection the record is still in the store. *)
Theorem crossChainTransfer_removes_the_record_exactly_when_it_resolves
    (w : W) (params : Params) :
  let tr := trace h (transfer params) w in
  (In true (is_remove <$> tr) <-> resolves (returned h (transfer params) w) = true) /\
  Forall (fun e => is_remove e = false) (removelast tr).
Proof using Type.
  change (removes_last (trace h (transfer params) w) (returned h (transfer params) w)).
  walk depositStage_keeps_record transferStage_keeps_record resolveStage_keeps_record
    withdrawStage_removes_last.
  all: repeat first
         [ assumption
         | apply removes_last_cons; [reflexivity|]
         | apply removes_last_after; [assumption|]
         | apply removes_last_rejected; first [assumption | constructor] ].
Qed.

(** *** A failed step leaves an errored record *)

Local Abbreviation stage_before := (stageBefore INITIAL DEPOSITED TRANSFER_1 TRANSFER_2).

Ltac marked :=
  let Hin := fresh "Hin" in
  intros ? ? Hin; split_in Hin; injection Hin as <- <-;
  repeat match goal with u : unit |- _ => destruct u end;
  (split; [reflexivity | by eexists _, _]).

Lemma depositStage_marks_failure startStage params senderChannel id0 storeParams meta w :
  marks_failure stage_before
    (trace h (deposit_ startStage params senderChannel id0 storeParams meta) w)
    (returned h (deposit_ startStage params senderChannel id0 storeParams meta) w).
Proof using Type. stage. all: marked. Qed.

Lemma transferStage_marks_failure startStage params senderChannel id0 storeParams meta lockHash0 w :
  marks_failure stage_before
    (trace h (transfer_ startStage params senderChannel id0 storeParams meta lockHash0) w)
    (returned h (transfer_ startStage params senderChannel id0 storeParams meta lockHash0) w).
Proof using Type. stage. all: marked. Qed.

Lemma resolveStage_marks_failure startStage params receiverChannel id0 storeParams meta preImage w :
  marks_failure stage_before
    (trace h (resolve_ startStage params receiverChannel id0 storeParams meta preImage) w)
    (returned h (resolve_ startStage params receiverChannel id0 storeParams meta preImage) w).
Proof using Type. stage. all: marked. Qed.

Lemma withdrawStage_marks_failure params receiverChannel id0 storeParams data amount1 w :
  marks_failure stage_before
    (trace h (withdraw_ params receiverChannel id0 storeParams data amount1) w)
    (returned h (withdraw_ params receiverChannel id0 storeParams data amount1) w).
Proof using Type. stage. all: marked. Qed.

(** X22. When the node refuses a step of [crossChainTransfer] (the deposit,
    the transfer, the resolution or the withdrawal), the run rejects with
    the error of the node, and the last thing it did was to save the
    record, flagged as errored, at the stage reached before that step. *)
Theorem crossChainTransfer_marks_the_failed_step
    (w : W) (params : Params) (step : Step) (e : VectorError) :
  let tr := trace h (transfer params) w in
  In (Some (step, e)) (failed_step <$> tr) ->
  returned h (transfer params) w = Rejects (ErrorObject e) /\
  exists id0 saved0,
    last tr = Some (Ev (SaveCrossChainTransfer id0 (stage_before step) saved0) tt) /\
    s_error saved0 = true.
Proof using Type.
  revert step e.
  change (marks_failure stage_before (trace h (transfer params) w)
            (returned h (transfer params) w)).
  walk depositStage_marks_failure transferStage_marks_failure resolveStage_marks_failure
    withdrawStage_marks_failure.
  all: repeat first
         [ assumption
         | apply marks_failure_cons; [reflexivity|]
         | eapply marks_failure_after; [eassumption|]
         | eapply marks_failure_cast; eassumption
         | apply marks_failure_nil ].
Qed.

(** *** A step is attempted only if it is due *)

Local Abbreviation skips_ := (skips DEPOSITED TRANSFER_1 TRANSFER_2).

Ltac not_due step Hskip :=
  destruct step; simpl in Hskip;
  repeat (constructor;
          [ simpl; first [ discriminate
                         | intros _;
                           repeat match goal with
                                  | H : (_ <? _) = true |- _ => apply Z.ltb_lt in H
                                  | H : x_withdrawalAddress _ = Some _ |- _ =>
                                      rewrite H in Hskip; simpl in Hskip
                                  end;
                           first [lia | congruence | destruct Hskip; [lia | congruence]] ]
          |]);
  try constructor.

Lemma depositStage_when_due startStage params senderChannel id0 storeParams meta w step :
  skips_ startStage params step ->
  Forall (fun e => attempted_step e <> Some step)
    (trace h (deposit_ startStage params senderChannel id0 storeParams meta) w).
Proof using Type. intros Hskip. stage. all: not_due step Hskip. Qed.

Lemma transferStage_when_due startStage params senderChannel id0 storeParams meta lockHash0 w
    step :
  skips_ startStage params step ->
  Forall (fun e => attempted_step e <> Some step)
    (trace h (transfer_ startStage params senderChannel id0 storeParams meta lockHash0) w).
Proof using Type. intros Hskip. stage. all: not_due step Hskip. Qed.

Lemma resolveStage_when_due startStage params receiverChannel id0 storeParams meta preImage w
    step :
  skips_ startStage params step ->
  Forall (fun e => attempted_step e <> Some step)
    (trace h (resolve_ startStage params receiverChannel id0 storeParams meta preImage) w).
Proof using Type. intros Hskip. stage. all: not_due step Hskip. Qed.

Lemma withdrawStage_when_due params receiverChannel id0 storeParams data amount1 w
    startStage step :
  skips_ startStage params step ->
  Forall (fun e => attempted_step e <> Some step)
    (trace h (withdraw_ params receiverChannel id0 storeParams data amount1) w).
Proof using Type. intros Hskip. stage. all: not_due step Hskip. Qed.

(** Proves a property of each call of a run that was walked through, from
    what is known of the stages. *)
Ltac each_call tac :=
  repeat first
    [ assumption
    | apply Forall_app; split
    | constructor; [simpl; tac|]
    | constructor ].

(** X23. [crossChainTransfer] attempts a step only if it is due: it asks
    for the deposit only below the stage DEPOSITED and when
    [reconcileDeposit] is set, for the transfer only below TRANSFER_1, for
    the resolution only below TRANSFER_2, and for the withdrawal only when
    a withdrawal address is given.  The start stage is INITIAL when none is
    given. *)
Theorem crossChainTransfer_attempts_only_due_steps
    (w : W) (params : Params) (step : Step) :
  skips_ (nullish (x_startStage params) INITIAL) params step ->
  Forall (fun e => attempted_step e <> Some step) (trace h (transfer params) w).
Proof using Type.
  intros Hskip.
  walk depositStage_when_due transferStage_when_due resolveStage_when_due
    withdrawStage_when_due.
  all: repeat match goal with
         | H : forall step0, skips_ _ _ step0 -> _ |- _ => specialize (H step Hskip)
         | H : forall stage0 step0, skips_ stage0 _ step0 -> _ |- _ =>
             specialize (H _ step Hskip)
         end.
  all: each_call discriminate.
Qed.

(** *** One id and one meta for the whole run *)

Ltac is_used :=
  split; (let Hx := fresh "Hx" in
          intros ? Hx; simpl in Hx; repeat destruct Hx as [Hx|Hx]; by subst).

Ltac used := repeat (constructor; [is_used|]); try constructor.

Lemma depositStage_uses startStage params senderChannel id0 storeParams meta w :
  Forall (uses id0 meta)
    (trace h (deposit_ startStage params senderChannel id0 storeParams meta) w).
Proof using Type. stage. all: used. Qed.

Lemma transferStage_uses startStage params senderChannel id0 storeParams meta lockHash0 w :
  Forall (uses id0 meta)
    (trace h (transfer_ startStage params senderChannel id0 storeParams meta lockHash0) w).
Proof using Type. stage. all: used. Qed.

Lemma resolveStage_uses startStage params receiverChannel id0 storeParams meta preImage w :
  Forall (uses id0 meta)
    (trace h (resolve_ startStage params receiverChannel id0 storeParams meta preImage) w).
Proof using Type. stage. all: used. Qed.

Lemma withdrawStage_uses params receiverChannel id0 storeParams data amount1 w meta :
  Forall (uses id0 meta)
    (trace h (withdraw_ params receiverChannel id0 storeParams data amount1) w).
Proof using Type. stage. all: used. Qed.

(** All calls of a run name one id, which is the id of the parameters if
    they have one, and send one meta. *)
Lemma crossChainTransfer_uses (w : W) (params : Params) :
  exists id0,
    (forall given, x_crossChainTransferId params = Some given -> id0 = given) /\
    Forall (uses id0 (updatedMeta params id0)) (trace h (transfer params) w).
Proof using Type.
  walk depositStage_uses transferStage_uses resolveStage_uses withdrawStage_uses.
  all: match goal with
       | |- context [SaveCrossChainTransfer ?i _ _] => exists i
       | |- context [x_fromChainId ?p] => exists (default "" (x_crossChainTransferId p))
       end.
  all: (split; [intros given Hgiven; try congruence|]).
  all: try (by rewrite Hgiven).
  all: repeat first
         [ assumption
         | apply Forall_app; split
         | match goal with H : forall meta, Forall (uses _ meta) _ |- _ => apply H end
         | constructor; [is_used|]
         | constructor ].
Qed.

(** What the meta of the steps holds: the fields of the caller's meta, and
    the id as routing id unless the caller's meta has one. *)
Lemma updatedMeta_lookup (params : Params) (id0 key : string) (v : Json) :
  default ∅ (x_meta params) !! key = Some v -> updatedMeta params id0 !! key = Some v.
Proof using Type.
  intros Hkey. unfold updatedMeta, spread. by apply lookup_union_Some_l.
Qed.

Lemma updatedMeta_routingId (params : Params) (id0 : string) :
  default ∅ (x_meta params) !! "routingId" = None ->
  updatedMeta params id0 !! "routingId" = Some (JStr id0).
Proof using Type.
  intros Hnone. unfold updatedMeta, spread.
  rewrite lookup_union_r by done. by rewrite lookup_insert_eq.
Qed.

(** X24. All the calls of a run of [crossChainTransfer] concern one
    transfer id, the id of the parameters if they have one: the record is
    saved and removed under it, and the receiver transfer is awaited and
    looked up with it as routing id.  The meta sent with the deposit, the
    transfer and the resolution holds every field of the caller's meta
    unchanged; its routing id is that id only if the caller's meta has no
    [routingId] of its own. *)
Theorem crossChainTransfer_looks_up_the_id_but_sends_the_callers_meta
    (w : W) (params : Params) :
  exists id0,
    (forall given, x_crossChainTransferId params = Some given -> id0 = given) /\
    Forall (fun e =>
              (forall i, In i (ids_of e) -> i = id0) /\
              (forall m, In m (metas_of e) ->
                 (forall key v, default ∅ (x_meta params) !! key = Some v -> m !! key = Some v) /\
                 (default ∅ (x_meta params) !! "routingId" = None ->
                  m !! "routingId" = Some (JStr id0))))
      (trace h (transfer params) w).
Proof using Type.
  destruct (crossChainTransfer_uses w params) as (id0 & Hgiven & Huses).
  exists id0. split; [done|].
  eapply Forall_impl; [exact Huses|].
  intros e [Hids Hmetas]. split; [done|].
  intros m Hm. rewrite (Hmetas m Hm). split.
  - intros key v. apply updatedMeta_lookup.
  - apply updatedMeta_routingId.
Qed.

(** *** A receiver transfer found in the store is not withdrawn *)

Local Abbreviation no_withdrawal := (fun e : Event Call => attempted_step e <> Some WithdrawStep).

Lemma depositStage_finds_nothing startStage params senderChannel id0 storeParams meta w :
  let tr := trace h (deposit_ startStage params senderChannel id0 storeParams meta) w in
  Forall (fun e => found e = None) tr /\ Forall no_withdrawal tr.
Proof using Type. stage. all: split; each_call discriminate. Qed.

Lemma transferStage_finds_nothing startStage params senderChannel id0 storeParams meta lockHash0
    w :
  let tr := trace h (transfer_ startStage params senderChannel id0 storeParams meta lockHash0) w in
  Forall (fun e => found e = None) tr /\ Forall no_withdrawal tr.
Proof using Type. stage. all: split; each_call discriminate. Qed.

Lemma resolveStage_forgets_what_it_found startStage params receiverChannel id0 storeParams meta
    preImage w :
  let tr := trace h (resolve_ startStage params receiverChannel id0 storeParams meta preImage) w in
  let r := returned h (resolve_ startStage params receiverChannel id0 storeParams meta preImage) w in
  Forall no_withdrawal tr /\
  forall x, In (Some x) (found <$> tr) ->
    forall data amount1 saved0, r = Resolves (data, amount1, saved0) -> data = None.
Proof using Type.
  stage.
  all: split; [each_call discriminate|].
  all: intros x Hin; split_in Hin.
  all: by intros data amount1 saved0 [= <- _ _].
Qed.

Lemma withdrawStage_needs_an_amount params receiverChannel id0 storeParams data amount1 w :
  let tr := trace h (withdraw_ params receiverChannel id0 storeParams data amount1) w in
  let r := returned h (withdraw_ params receiverChannel id0 storeParams data amount1) w in
  Forall (fun e => found e = None) tr /\
  (data = None ->
   truthy_opt_string (x_withdrawalAddress params) = true ->
   x_withdrawalAmount params = None ->
   tr = [] /\ resolves r = false).
Proof using Type.
  stage.
  all: split; [each_call discriminate|].
  all: intros -> Haddress Hamount.
  all: repeat match goal with
         | H : x_withdrawalAddress _ = _ |- _ => rewrite H in Haddress; clear H
         end.
  all: try rewrite Hamount in *.
  all: simpl in *; try congruence; try done.
Qed.

(** X25. A receiver transfer that [crossChainTransfer] finds in the store
    is not withdrawn unless the caller gives the amount: if the lookup
    found the transfer, a withdrawal address is given and the parameters
    have no [withdrawalAmount], the run rejects and never asks for the
    withdrawal, although the amount of the transfer found was read. *)
Theorem crossChainTransfer_does_not_withdraw_a_transfer_found_in_the_store
    (w : W) (params : Params) (existing : ReceiverTransfer) :
  let tr := trace h (transfer params) w in
  In (Some existing) (found <$> tr) ->
  truthy_opt_string (x_withdrawalAddress params) = true ->
  x_withdrawalAmount params = None ->
  resolves (returned h (transfer params) w) = false /\
  Forall (fun e => attempted_step e <> Some WithdrawStep) tr.
Proof using Type.
  cbv zeta.
  walk depositStage_finds_nothing transferStage_finds_nothing
    resolveStage_forgets_what_it_found withdrawStage_needs_an_amount.
  all: intros Hin Haddress Hamount.
  all: repeat match goal with H : _ /\ _ |- _ => destruct H end.
  all: repeat first
         [ destruct Hin as [Hin|Hin]; [discriminate Hin|]
         | apply found_app in Hin; [|assumption] ].
  all: try (by destruct Hin).
  all: try (exfalso; eapply none_found; eassumption).
  all: try (split; [reflexivity|each_call discriminate]).
  all: rewrite fmap_app in Hin; apply in_app_or in Hin as [Hin|Hin];
         [|exfalso; eapply none_found; eassumption].
  all: match goal with
       | H : forall x, In (Some x) (found <$> _) -> _ |- _ =>
           specialize (H _ Hin _ _ _ eq_refl) as ->
       end.
  all: match goal with
       | H : None = None -> _ |- _ => destruct (H eq_refl Haddress Hamount) as [-> ?]
       end.
  all: split; [assumption|rewrite ?app_nil_r; each_call discriminate].
Qed.

(** *** The record is first saved as INITIAL *)

(** X26. Whatever the start stage, the first save of [crossChainTransfer]
    writes the record at the stage INITIAL, not flagged as errored and
    without preimage or withdrawal amount, under the id of the parameters
    if they have one: a transfer that is resumed is first written back to
    INITIAL. *)
Theorem crossChainTransfer_first_saves_the_record_as_INITIAL
    (w : W) (params : Params) (id0 : string) (status0 : Z) (saved0 : CrossChainTransferParams) :
  head (omap saved (trace h (transfer params) w)) = Some (id0, status0, saved0) ->
  status0 = INITIAL /\
  saved0 = {| s_amount := x_amount params;
              s_fromAssetId := x_fromAssetId params;
              s_fromChainId := x_fromChainId params;
              s_reconcileDeposit := nullish (x_reconcileDeposit params) false;
              s_toAssetId := x_toAssetId params;
              s_toChainId := x_toChainId params;
              s_withdrawalAddress := x_withdrawalAddress params;
              s_error := false;
              s_preImage := None;
              s_withdrawalAmount := None |} /\
  (forall given, x_crossChainTransferId params = Some given -> id0 = given).
Proof using Type.
  unfold crossChainTransfer, trace, returned.
  prog_simpl. next_reply senderChannelRes w1.
  destruct senderChannelRes as [[senderChannel|]|e]; simpl; try discriminate.
  - next_reply receiverChannelRes w2.
    destruct receiverChannelRes as [[receiverChannel|]|e]; simpl; try discriminate.
    destruct (x_crossChainTransferId params) as [given|]; prog_simpl.
    + next_reply u w3. destruct (run h _ w3) as [[r t] w4]; simpl.
      intros [= <- <- <-]. repeat split. by intros ? [= <-].
    + next_reply random w3. next_reply u w4. destruct (run h _ w4) as [[r t] w5]; simpl.
      intros [= <- <- <-]. by repeat split.
  - next_reply receiverChannelRes w2.
    destruct receiverChannelRes as [receiverChannel|e]; simpl; discriminate.
Qed.

(** *** Pending transfers are resumed unless flagged *)

Local Abbreviation reclaimEach_ :=
  (reclaimEach publicIdentifier routerPublicIdentifier INITIAL DEPOSITED TRANSFER_1
     TRANSFER_2 HashlockTransfer soliditySha256).
Local Abbreviation reclaim :=
  (reclaimPendingCrossChainTransfers publicIdentifier routerPublicIdentifier INITIAL DEPOSITED
     TRANSFER_1 TRANSFER_2 HashlockTransfer soliditySha256).

Lemma reclaimEach_resumes_unflagged (transfers : list StoredCrossChainTransfer) (w : W) :
  Forall (fun e => forall i, In i (ids_of e) ->
            exists t, In t transfers /\ s_error (stored t) = false /\
                      crossChainTransferId t = i)
    (trace h (reclaimEach_ transfers) w).
Proof using Type.
  revert w. induction transfers as [|t rest IH]; intros w; [constructor|].
  assert (forall w0,
            Forall (fun e => forall i, In i (ids_of e) ->
                      exists t0, In t0 (t :: rest) /\ s_error (stored t0) = false /\
                                 crossChainTransferId t0 = i)
              (trace h (reclaimEach_ rest) w0)) as Hrest.
  { intros w0. eapply Forall_impl; [apply IH|].
    intros e He i Hi. destruct (He i Hi) as (t0 & Hin & Hok & Hid).
    exists t0. split; [by right|done]. }
  cbn [reclaimEach]. destruct (s_error (stored t)) eqn:Hflag; [apply Hrest|].
  unfold trace, reclaimPendingCrossChainTransfer. rewrite run_andThen.
  match goal with
  | |- context [run h (crossChainTransfer _ _ _ _ _ _ _ _ ?p) w] =>
      destruct (crossChainTransfer_uses w p) as (id0 & Hgiven & Huses);
      specialize (Hgiven _ eq_refl) as ->; unfold trace in Huses;
      destruct (run h (crossChainTransfer _ _ _ _ _ _ _ _ p) w) as [[r t1] w1]
  end.
  assert (Forall (fun e => forall i, In i (ids_of e) ->
                    exists t0, In t0 (t :: rest) /\ s_error (stored t0) = false /\
                               crossChainTransferId t0 = i) t1) as Hfirst.
  { eapply Forall_impl; [exact Huses|].
    intros e [Hids _] i Hi. exists t. split; [by left|]. split; [done|]. by rewrite (Hids i Hi). }
  destruct r as [a|e]; simpl; [|done].
  specialize (Hrest w1). unfold trace in Hrest.
  destruct (run h (reclaimEach_ rest) w1) as [[r2 t2] w2]. simpl in *.
  apply Forall_app. by split.
Qed.

(** X27. [reclaimPendingCrossChainTransfers] lists the stored transfers
    once and then only touches transfers of that list that are not flagged
    as errored: every id that a later call names is the id of such a
    transfer. *)
Theorem reclaimPendingCrossChainTransfers_resumes_only_unflagged_transfers (w : W) :
  exists transfers rest,
    trace h reclaim w = Ev GetCrossChainTransfers transfers :: rest /\
    Forall (fun e => forall i, In i (ids_of e) ->
              exists t, In t transfers /\ s_error (stored t) = false /\
                        crossChainTransferId t = i) rest.
Proof using Type.
  unfold reclaimPendingCrossChainTransfers, trace.
  prog_simpl. next_reply transfers w1.
  pose proof (reclaimEach_resumes_unflagged transfers w1) as Hloop. unfold trace in Hloop.
  destruct (run h (reclaimEach_ transfers) w1) as [[r rest] w2].
  by exists transfers, rest.
Qed.

End CrossChainTransfer.

Import BrowserNodeScenarios.

Lemma crossChainTransfer_marks_the_failed_step_witness :
  returned (scripted refused) (user_transfers (a_payment None)) tt
    = Rejects (ErrorObject router_unreachable) /\
  exists id0 saved0,
    last (trace (scripted refused) (user_transfers (a_payment None)) tt)
      = Some (Ev (SaveCrossChainTransfer id0 (stageBefore 0 1 2 3 TransferStep) saved0) tt) /\
    s_error saved0 = true.
Proof.
  apply (crossChainTransfer_marks_the_failed_step
           (scripted refused) "vectorUSER" (Some "vectorROUTER") 0 1 2 3 "HashlockTransfer"
           (fun preImage => Returns (String.append "sha256:" preImage)) tt (a_payment None)
           TransferStep
           router_unreachable).
  vm_compute. tauto.
Defined.

Lemma crossChainTransfer_attempts_only_due_steps_witness :
  Forall (fun e => attempted_step e <> Some TransferStep)
    (trace (scripted already_received) (user_transfers (a_payment (Some 2))) tt).
Proof.
  apply (crossChainTransfer_attempts_only_due_steps
           (scripted already_received) "vectorUSER" (Some "vectorROUTER") 0 1 2 3
           "HashlockTransfer" (fun preImage => Returns (String.append "sha256:" preImage))
           tt (a_payment (Some 2))
           TransferStep).
  simpl. lia.
Defined.

Lemma crossChainTransfer_does_not_withdraw_a_transfer_found_in_the_store_witness :
  resolves (returned (scripted already_received) (user_transfers (a_payment None)) tt) = false /\
  Forall (fun e => attempted_step e <> Some WithdrawStep)
    (trace (scripted already_received) (user_transfers (a_payment None)) tt).
Proof.
  apply (crossChainTransfer_does_not_withdraw_a_transfer_found_in_the_store
           (scripted already_received) "vectorUSER" (Some "vectorROUTER") 0 1 2 3
           "HashlockTransfer" (fun preImage => Returns (String.append "sha256:" preImage))
           tt (a_payment None)
           received).
  - vm_compute. tauto.
  - reflexivity.
  - reflexivity.
Defined.

Lemma crossChainTransfer_first_saves_the_record_as_INITIAL_witness :
  0 = 0 /\
  {| s_amount := "100"; s_fromAssetId := "0xTOKEN1"; s_fromChainId := 1;
     s_reconcileDeposit := true; s_toAssetId := "0xTOKEN2"; s_toChainId := 2;
     s_withdrawalAddress := Some "0xDESTINATION"; s_error := false;
     s_preImage := None; s_withdrawalAmount := None |}
    = {| s_amount := x_amount (a_payment (Some 2));
         s_fromAssetId := x_fromAssetId (a_payment (Some 2));
         s_fromChainId := x_fromChainId (a_payment (Some 2));
         s_reconcileDeposit := nullish (x_reconcileDeposit (a_payment (Some 2))) false;
         s_toAssetId := x_toAssetId (a_payment (Some 2));
         s_toChainId := x_toChainId (a_payment (Some 2));
         s_withdrawalAddress := x_withdrawalAddress (a_payment (Some 2));
         s_error := false;
         s_preImage := None;
         s_withdrawalAmount := None |} /\
  (forall given, x_crossChainTransferId (a_payment (Some 2)) = Some given ->
                 "0xCROSSCHAIN" = given).
Proof.
  apply (crossChainTransfer_first_saves_the_record_as_INITIAL
           (scripted already_received) "vectorUSER" (Some "vectorROUTER") 0 1 2 3
           "HashlockTransfer" (fun preImage => Returns (String.append "sha256:" preImage))
           tt (a_payment (Some 2))).
  reflexivity.
Defined.

(** The hash of the preimage is computed on every run, also on one that
    resumes after the transfer: a preimage that cannot be hashed ends the
    run with the exception of the hash function, right after the record was
    written at INITIAL and before anything is asked of the node. *)
Example crossChainTransfer_hashes_the_preimage_on_every_run :
  let p := user_cannot_hash (a_payment (Some 3)) in
  returned (scripted refused) p tt = Rejects (NewError "incorrect data length") /\
  length (trace (scripted refused) p tt) = 3%nat /\
  last (trace (scripted refused) p tt)
  = Some (Ev (SaveCrossChainTransfer "0xCROSSCHAIN" 0
                {| s_amount := "100"; s_fromAssetId := "0xTOKEN1"; s_fromChainId := 1;
                   s_reconcileDeposit := true; s_toAssetId := "0xTOKEN2"; s_toChainId := 2;
                   s_withdrawalAddress := Some "0xDESTINATION"; s_error := false;
                   s_preImage := None; s_withdrawalAmount := None |}) tt).
Proof. cbv zeta. repeat split; reflexivity. Qed.

End BrowserNodeProps.
